(** * audio_sys_winrt: the WinRT implementation of the audio_sys interface

    A shallow embedding of source/core/audio/windows/audio_sys_winrt.cpp:
    the session structure, callback registration, option setting, the
    capture object with its constructor, destructor and activation
    completion handler, session creation and destruction, the capture
    thread, the start/stop calls and the render events, followed by the
    properties that are proved about them. *)

From Stdlib Require Import ZArith List String Bool Lia.
Import ListNotations.
Open Scope Z_scope.

(** ** Platform types *)

(** Pointers, function pointers and opaque contexts are addresses; address 0
    is the null pointer. *)
Definition ptr := Z.
Definition nullptr : ptr := 0.
Definition HANDLE := ptr.
Definition is_null (p : ptr) : bool := p =? nullptr.

(** HRESULT is a signed 32-bit code: negative values are failures. *)
Definition HRESULT := Z.
Definition S_OK : HRESULT := 0.
Definition E_FAIL : HRESULT := -2147467259.   (* 0x80004005 *)
Definition FAILED (hr : HRESULT) : bool := hr <? 0.
Definition SUCCEEDED (hr : HRESULT) : bool := 0 <=? hr.

Definition DWORD := Z.
Definition WAIT_OBJECT_0 : DWORD := 0.
Definition WAIT_FAILED : DWORD := 4294967295.  (* 0xFFFFFFFF *)

(** size_t arithmetic wraps around; the width is that of the 64-bit build. *)
Definition size_t_width : Z := 64.
Definition to_size_t (z : Z) : Z := z mod 2 ^ size_t_width.

(** ** The audio_sys interface types *)

(** Modelled from the spec: the result codes of audio_sys.h, which is not
    among the sources: OK, INVALID_ARG, INVALID_STATE, ERROR. *)
Inductive AUDIO_RESULT :=
| AUDIO_RESULT_OK
| AUDIO_RESULT_INVALID_ARG
| AUDIO_RESULT_INVALID_STATE
| AUDIO_RESULT_ERROR.

(** Modelled from the spec: the states of audio_sys.h, which is not among
    the sources: STARTING, RUNNING, STOPPED. *)
Inductive AUDIO_STATE :=
| AUDIO_STATE_STARTING
| AUDIO_STATE_RUNNING
| AUDIO_STATE_STOPPED.

Definition AUDIO_STATE_eqb (a b : AUDIO_STATE) : bool :=
  match a, b with
  | AUDIO_STATE_STARTING, AUDIO_STATE_STARTING
  | AUDIO_STATE_RUNNING, AUDIO_STATE_RUNNING
  | AUDIO_STATE_STOPPED, AUDIO_STATE_STOPPED => true
  | _, _ => false
  end.

(** A STRING_HANDLE of the azure_c_shared_utility library, by its contract:
    null, or a string store holding a copy of a C string. *)
Definition STRING_HANDLE := option string.

(** STRING_construct returns a new store holding a copy of its argument. *)
Definition STRING_construct (s : string) : STRING_HANDLE := Some s.

(** STRING_copy overwrites the contents of an existing store. *)
Definition STRING_copy (h : STRING_HANDLE) (s : string) : STRING_HANDLE :=
  match h with
  | Some _ => Some s
  | None => None
  end.

(** ** WAVEFORMATEX and the fixed capture format *)

Record WAVEFORMATEX := mkWAVEFORMATEX {
  wFormatTag : Z;
  nChannels : Z;
  nSamplesPerSec : Z;
  nAvgBytesPerSec : Z;
  nBlockAlign : Z;
  wBitsPerSample : Z;
  cbSize : Z
}.

(** Modelled from the spec: AUDIO_FORMAT_PCM of audio_sys.h, which is not
    among the sources; the format is PCM. *)
Definition AUDIO_FORMAT_PCM : Z := 1.

(** Modelled from the spec: AUDIO_BITS of audio_sys.h, which is not among
    the sources; samples have 16 bits. *)
Definition AUDIO_BITS : Z := 16.

(** Modelled from the spec: AUDIO_CHANNELS_MONO of audio_sys.h, which is
    not among the sources; the format is mono. *)
Definition AUDIO_CHANNELS_MONO : Z := 1.

(** Modelled from the spec: AUDIO_SAMPLE_RATE of audio_sys.h, which is not
    among the sources; the rate is 16 kHz. *)
Definition AUDIO_SAMPLE_RATE : Z := 16000.

(** Modelled from the spec: AUDIO_BYTE_RATE of audio_sys.h, which is not
    among the sources; 16000 frames of 2 bytes each second. *)
Definition AUDIO_BYTE_RATE : Z := 32000.

(** Modelled from the spec: AUDIO_BLOCK_ALIGN of audio_sys.h, which is not
    among the sources; the source asserts that it is 2. *)
Definition AUDIO_BLOCK_ALIGN : Z := 2.

(** ** The capture thread's control state

    The program points of captureThreadProc at which the thread can be
    observed from outside. *)
Inductive ProgramPoint :=
| AtEntry      (* created, first statement not yet executed *)
| AtWait       (* at WaitForMultipleObjects *)
| AtDrain      (* at the head of the while (1) loop *)
| Returned     (* captureThreadProc has returned *)
| Aborted.     (* an exception has left captureThreadProc and std::terminate
                  has ended the process *)

Definition ProgramPoint_eqb (a b : ProgramPoint) : bool :=
  match a, b with
  | AtEntry, AtEntry | AtWait, AtWait | AtDrain, AtDrain
  | Returned, Returned | Aborted, Aborted => true
  | _, _ => false
  end.

(** Modelled from the spec: struct AudioDataBuffer of
    windows/audio_sys_win_base.h, which is not among the sources: the
    scratch buffer, its write offset and its capacity; the source
    initialises it as { nullptr, 0, 0 }. *)
Record AudioDataBuffer := mkAudioDataBuffer {
  pAudioData : ptr;
  currentSize : Z;
  totalSize : Z
}.

(** The locals of captureThreadProc that live across program points. *)
Record CaptureThread := mkCaptureThread {
  pc : ProgramPoint;
  pCaptureClient : ptr;
  audioBuff : AudioDataBuffer;
  audio_result : Z
}.

(** ** class WASAPICapture *)

Record WASAPICapture := mkWASAPICapture {
  pAudioInputClient : ptr;
  audioInFormat : WAVEFORMATEX;
  hBufferReady : HANDLE;
  hCaptureThreadShouldExit : HANDLE;
  (* std::promise<HRESULT>: None until set_value has stored a value *)
  m_promise : option HRESULT
}.

(** ** struct AUDIO_SYS_DATA *)

Record AUDIO_SYS_DATA := mkAUDIO_SYS_DATA {
  (* std::thread: None when not joinable, otherwise the thread it owns *)
  hCaptureThread : option CaptureThread;
  spCapture : WASAPICapture;
  pAudioOutputDevice : ptr;
  hRenderThreadShouldExit : HANDLE;
  hRenderThreadDidExit : HANDLE;
  output_canceled : bool;
  error_cb : ptr;
  output_state_cb : ptr;
  input_state_cb : ptr;
  audio_write_cb : ptr;
  user_write_ctx : ptr;
  user_outputctx : ptr;
  user_inputctx : ptr;
  user_errorctx : ptr;
  current_output_state : AUDIO_STATE;
  current_input_state : AUDIO_STATE;
  hDeviceName : STRING_HANDLE;
  inputFrameCnt : Z
}.

(** An AUDIO_SYS_HANDLE is null or points to a session; the pointee travels
    with the handle. *)
Definition AUDIO_SYS_HANDLE := option AUDIO_SYS_DATA.

(** Field stores. *)
Definition set_hCaptureThread (v : option CaptureThread) (d : AUDIO_SYS_DATA) :=
  mkAUDIO_SYS_DATA v (spCapture d) (pAudioOutputDevice d)
    (hRenderThreadShouldExit d) (hRenderThreadDidExit d) (output_canceled d)
    (error_cb d) (output_state_cb d) (input_state_cb d) (audio_write_cb d)
    (user_write_ctx d) (user_outputctx d) (user_inputctx d) (user_errorctx d)
    (current_output_state d) (current_input_state d) (hDeviceName d)
    (inputFrameCnt d).

Definition set_spCapture (v : WASAPICapture) (d : AUDIO_SYS_DATA) :=
  mkAUDIO_SYS_DATA (hCaptureThread d) v (pAudioOutputDevice d)
    (hRenderThreadShouldExit d) (hRenderThreadDidExit d) (output_canceled d)
    (error_cb d) (output_state_cb d) (input_state_cb d) (audio_write_cb d)
    (user_write_ctx d) (user_outputctx d) (user_inputctx d) (user_errorctx d)
    (current_output_state d) (current_input_state d) (hDeviceName d)
    (inputFrameCnt d).

Definition set_error_cb (v : ptr) (d : AUDIO_SYS_DATA) :=
  mkAUDIO_SYS_DATA (hCaptureThread d) (spCapture d) (pAudioOutputDevice d)
    (hRenderThreadShouldExit d) (hRenderThreadDidExit d) (output_canceled d)
    v (output_state_cb d) (input_state_cb d) (audio_write_cb d)
    (user_write_ctx d) (user_outputctx d) (user_inputctx d) (user_errorctx d)
    (current_output_state d) (current_input_state d) (hDeviceName d)
    (inputFrameCnt d).

Definition set_output_state_cb (v : ptr) (d : AUDIO_SYS_DATA) :=
  mkAUDIO_SYS_DATA (hCaptureThread d) (spCapture d) (pAudioOutputDevice d)
    (hRenderThreadShouldExit d) (hRenderThreadDidExit d) (output_canceled d)
    (error_cb d) v (input_state_cb d) (audio_write_cb d)
    (user_write_ctx d) (user_outputctx d) (user_inputctx d) (user_errorctx d)
    (current_output_state d) (current_input_state d) (hDeviceName d)
    (inputFrameCnt d).

Definition set_input_state_cb (v : ptr) (d : AUDIO_SYS_DATA) :=
  mkAUDIO_SYS_DATA (hCaptureThread d) (spCapture d) (pAudioOutputDevice d)
    (hRenderThreadShouldExit d) (hRenderThreadDidExit d) (output_canceled d)
    (error_cb d) (output_state_cb d) v (audio_write_cb d)
    (user_write_ctx d) (user_outputctx d) (user_inputctx d) (user_errorctx d)
    (current_output_state d) (current_input_state d) (hDeviceName d)
    (inputFrameCnt d).

Definition set_audio_write_cb (v : ptr) (d : AUDIO_SYS_DATA) :=
  mkAUDIO_SYS_DATA (hCaptureThread d) (spCapture d) (pAudioOutputDevice d)
    (hRenderThreadShouldExit d) (hRenderThreadDidExit d) (output_canceled d)
    (error_cb d) (output_state_cb d) (input_state_cb d) v
    (user_write_ctx d) (user_outputctx d) (user_inputctx d) (user_errorctx d)
    (current_output_state d) (current_input_state d) (hDeviceName d)
    (inputFrameCnt d).

Definition set_user_write_ctx (v : ptr) (d : AUDIO_SYS_DATA) :=
  mkAUDIO_SYS_DATA (hCaptureThread d) (spCapture d) (pAudioOutputDevice d)
    (hRenderThreadShouldExit d) (hRenderThreadDidExit d) (output_canceled d)
    (error_cb d) (output_state_cb d) (input_state_cb d) (audio_write_cb d)
    v (user_outputctx d) (user_inputctx d) (user_errorctx d)
    (current_output_state d) (current_input_state d) (hDeviceName d)
    (inputFrameCnt d).

Definition set_user_outputctx (v : ptr) (d : AUDIO_SYS_DATA) :=
  mkAUDIO_SYS_DATA (hCaptureThread d) (spCapture d) (pAudioOutputDevice d)
    (hRenderThreadShouldExit d) (hRenderThreadDidExit d) (output_canceled d)
    (error_cb d) (output_state_cb d) (input_state_cb d) (audio_write_cb d)
    (user_write_ctx d) v (user_inputctx d) (user_errorctx d)
    (current_output_state d) (current_input_state d) (hDeviceName d)
    (inputFrameCnt d).

Definition set_user_inputctx (v : ptr) (d : AUDIO_SYS_DATA) :=
  mkAUDIO_SYS_DATA (hCaptureThread d) (spCapture d) (pAudioOutputDevice d)
    (hRenderThreadShouldExit d) (hRenderThreadDidExit d) (output_canceled d)
    (error_cb d) (output_state_cb d) (input_state_cb d) (audio_write_cb d)
    (user_write_ctx d) (user_outputctx d) v (user_errorctx d)
    (current_output_state d) (current_input_state d) (hDeviceName d)
    (inputFrameCnt d).

Definition set_user_errorctx (v : ptr) (d : AUDIO_SYS_DATA) :=
  mkAUDIO_SYS_DATA (hCaptureThread d) (spCapture d) (pAudioOutputDevice d)
    (hRenderThreadShouldExit d) (hRenderThreadDidExit d) (output_canceled d)
    (error_cb d) (output_state_cb d) (input_state_cb d) (audio_write_cb d)
    (user_write_ctx d) (user_outputctx d) (user_inputctx d) v
    (current_output_state d) (current_input_state d) (hDeviceName d)
    (inputFrameCnt d).

Definition set_current_input_state (v : AUDIO_STATE) (d : AUDIO_SYS_DATA) :=
  mkAUDIO_SYS_DATA (hCaptureThread d) (spCapture d) (pAudioOutputDevice d)
    (hRenderThreadShouldExit d) (hRenderThreadDidExit d) (output_canceled d)
    (error_cb d) (output_state_cb d) (input_state_cb d) (audio_write_cb d)
    (user_write_ctx d) (user_outputctx d) (user_inputctx d) (user_errorctx d)
    (current_output_state d) v (hDeviceName d)
    (inputFrameCnt d).

Definition set_hDeviceName (v : STRING_HANDLE) (d : AUDIO_SYS_DATA) :=
  mkAUDIO_SYS_DATA (hCaptureThread d) (spCapture d) (pAudioOutputDevice d)
    (hRenderThreadShouldExit d) (hRenderThreadDidExit d) (output_canceled d)
    (error_cb d) (output_state_cb d) (input_state_cb d) (audio_write_cb d)
    (user_write_ctx d) (user_outputctx d) (user_inputctx d) (user_errorctx d)
    (current_output_state d) (current_input_state d) v
    (inputFrameCnt d).

Definition set_inputFrameCnt (v : Z) (d : AUDIO_SYS_DATA) :=
  mkAUDIO_SYS_DATA (hCaptureThread d) (spCapture d) (pAudioOutputDevice d)
    (hRenderThreadShouldExit d) (hRenderThreadDidExit d) (output_canceled d)
    (error_cb d) (output_state_cb d) (input_state_cb d) (audio_write_cb d)
    (user_write_ctx d) (user_outputctx d) (user_inputctx d) (user_errorctx d)
    (current_output_state d) (current_input_state d) (hDeviceName d)
    v.

(** ** audio_setcallbacks

    The assignments are kept in source order, including the second store to
    user_errorctx. *)
Definition audio_setcallbacks (handle : AUDIO_SYS_HANDLE)
    (output_cb output_ctx input_cb input_ctx : ptr)
    (audio_write_cb' audio_write_ctx error_cb' error_ctx : ptr)
  : AUDIO_RESULT * AUDIO_SYS_HANDLE :=
  match handle with
  | Some audioData =>
      if negb (is_null audio_write_cb') then
        let audioData := set_error_cb error_cb' audioData in
        let audioData := set_user_errorctx error_ctx audioData in
        let audioData := set_user_errorctx error_cb' audioData in
        let audioData := set_input_state_cb input_cb audioData in
        let audioData := set_user_inputctx input_ctx audioData in
        let audioData := set_output_state_cb output_cb audioData in
        let audioData := set_user_outputctx output_ctx audioData in
        let audioData := set_audio_write_cb audio_write_cb' audioData in
        let audioData := set_user_write_ctx audio_write_ctx audioData in
        (AUDIO_RESULT_OK, Some audioData)
      else (AUDIO_RESULT_INVALID_ARG, handle)
  | None => (AUDIO_RESULT_INVALID_ARG, handle)
  end.

(** ** audio_set_options

    The pointee of the untyped [value] argument: an int for the frame
    count, a C string for the device name. *)
Inductive Pointee :=
| IntObject (i : Z)
| CString (s : string).

Section OptionNames.

(** The two option-name constants of audio_sys.h, which is not among the
    sources, are parameters of the function. *)
Variable AUDIO_OPTION_INPUT_FRAME_COUNT : string.
Variable AUDIO_OPTION_DEVICENAME : string.

(** [None] is returned where the source reads the pointee at the wrong
    type, which has no defined behaviour. *)
Definition audio_set_options (handle : AUDIO_SYS_HANDLE)
    (optionName : string) (value : option Pointee)
  : option (AUDIO_RESULT * AUDIO_SYS_HANDLE) :=
  match handle with
  | Some audioData =>
      if String.eqb AUDIO_OPTION_INPUT_FRAME_COUNT optionName then
        match value with
        | Some (IntObject i) =>
            Some (AUDIO_RESULT_OK,
                  Some (set_inputFrameCnt (to_size_t i) audioData))
        | Some (CString _) => None
        | None =>
            Some (AUDIO_RESULT_OK, Some (set_inputFrameCnt 0 audioData))
        end
      else if String.eqb AUDIO_OPTION_DEVICENAME optionName then
        let stored :=
          match hDeviceName audioData with
          | None =>
              match value with
              | Some (CString s) => Some (STRING_construct s)
              | Some (IntObject _) => None
              | None => Some (STRING_construct "")
              end
          | Some _ =>
              match value with
              | Some (CString s) =>
                  Some (STRING_copy (hDeviceName audioData) s)
              | Some (IntObject _) => None
              | None => Some (STRING_copy (hDeviceName audioData) "")
              end
          end in
        match stored with
        | None => None
        | Some h =>
            let audioData := set_hDeviceName h audioData in
            match hDeviceName audioData with
            | Some _ => Some (AUDIO_RESULT_OK, Some audioData)
            | None => Some (AUDIO_RESULT_INVALID_ARG, Some audioData)
            end
        end
      else Some (AUDIO_RESULT_INVALID_ARG, handle)
  | None => Some (AUDIO_RESULT_INVALID_ARG, handle)
  end.

End OptionNames.

(** ** The platform

    Events observable from outside the session, in the order in which they
    happen. *)
Inductive Event :=
| EvInputStateCb (fn ctx : ptr) (st : AUDIO_STATE)  (* input_state_cb(ctx, st) *)
| EvStoreInputState (st : AUDIO_STATE)     (* store to current_input_state *)
| EvGetService (hr : HRESULT)
| EvNewArray (size : Z) (p : ptr)          (* new BYTE[size] returns p *)
| EvBadAlloc (size : Z)                    (* new BYTE[size] throws *)
| EvTerminate                              (* std::terminate *)
| EvWait (waitResult : DWORD)
| EvGetNextPacketSize (hr : HRESULT) (packetLength : Z)
| EvGetBufferAndCallBackClient (write_cb write_ctx : ptr) (hr : HRESULT)
| EvDeleteArray (p : ptr)
| EvRelease (p : ptr)
| EvClientStart (hr : HRESULT)
| EvClientStop
| EvSetEvent (h : HANDLE)
| EvThreadCreate
| EvThreadJoin
| EvPromiseSet (hr : HRESULT).

(** The kernel's table of auto-reset event objects: handle and signalled
    state. *)
Definition Kernel := list (HANDLE * bool).

Fixpoint event_state (k : Kernel) (h : HANDLE) : option bool :=
  match k with
  | [] => None
  | (h', b) :: k' => if h' =? h then Some b else event_state k' h
  end.

Fixpoint event_store (k : Kernel) (h : HANDLE) (b : bool) : Kernel :=
  match k with
  | [] => []
  | (h', b') :: k' =>
      if h' =? h then (h', b) :: k' else (h', b') :: event_store k' h b
  end.

Definition valid_handle (k : Kernel) (h : HANDLE) : bool :=
  negb (is_null h) &&
  match event_state k h with Some _ => true | None => false end.

(** SetEvent fails, changing nothing, on a handle that is not an event. *)
Definition SetEvent (k : Kernel) (h : HANDLE) : Kernel :=
  if valid_handle k h then event_store k h true else k.

Definition CreateEvent (k : Kernel) (h : HANDLE) : Kernel :=
  if is_null h then k else (h, false) :: k.

Fixpoint CloseHandle (k : Kernel) (h : HANDLE) : Kernel :=
  match k with
  | [] => []
  | (h', b) :: k' => if h' =? h then k' else (h', b) :: CloseHandle k' h
  end.

(** The first signalled object of [handles], counted from [i]. *)
Fixpoint first_signalled (k : Kernel) (handles : list HANDLE) (i : Z)
  : option (Z * HANDLE) :=
  match handles with
  | [] => None
  | h :: rest =>
      match event_state k h with
      | Some true => Some (i, h)
      | _ => first_signalled k rest (i + 1)
      end
  end.

(** WaitForMultipleObjects(n, handles, FALSE, INFINITE): the wait fails at
    once when a handle is not valid; otherwise it is satisfied by the
    signalled object of smallest index, which is reset (the events are
    auto-reset); [None] when no object is signalled and the caller stays
    blocked. *)
Definition WaitForMultipleObjects (k : Kernel) (handles : list HANDLE)
  : option (DWORD * Kernel) :=
  if forallb (valid_handle k) handles then
    match first_signalled k handles 0 with
    | Some (i, h) => Some (WAIT_OBJECT_0 + i, event_store k h false)
    | None => None
    end
  else Some (WAIT_FAILED, k).

(** What the capture client answers to one iteration of the drain loop:
    the result of GetNextPacketSize and, for a non-empty packet, what
    GetBufferAndCallBackClient leaves behind. *)
Record PacketAnswer := mkPacketAnswer {
  size_hr : HRESULT;
  packet_length : Z;
  buffer_hr : HRESULT;
  buffer_filled : Z;      (* audioBuff.currentSize after the call *)
  write_result : Z        (* audio_result after the call *)
}.

(** With nothing queued GetNextPacketSize succeeds and reports 0. *)
Definition no_packet : PacketAnswer := mkPacketAnswer S_OK 0 S_OK 0 0.

(** The platform as the session sees it: the kernel's events, the state of
    the native stream, and the answers the platform gives to the calls to
    come. *)
Record Platform := mkPlatform {
  kernel : Kernel;
  (* the IAudioClient stream is started *)
  client_started : bool;
  (* the result of the next GetService and the pointer it hands out,
     not null when the result is a success *)
  GetService_answer : HRESULT * ptr;
  (* the block the next new BYTE[] returns; null when the platform has no
     block for the request, in which case new throws std::bad_alloc *)
  new_answer : ptr;
  (* native_handle() of the next thread created *)
  native_handle_answer : ptr;
  (* the result of the next IAudioClient::Start *)
  Start_answer : HRESULT;
  (* the answers of the capture client to the coming drain iterations *)
  capture_answers : list PacketAnswer;
  (* what has happened so far *)
  trace : list Event
}.

Definition set_kernel (v : Kernel) (p : Platform) :=
  mkPlatform v (client_started p) (GetService_answer p) (new_answer p)
    (native_handle_answer p) (Start_answer p) (capture_answers p) (trace p).

Definition set_client_started (v : bool) (p : Platform) :=
  mkPlatform (kernel p) v (GetService_answer p) (new_answer p)
    (native_handle_answer p) (Start_answer p) (capture_answers p) (trace p).

Definition set_capture_answers (v : list PacketAnswer) (p : Platform) :=
  mkPlatform (kernel p) (client_started p) (GetService_answer p)
    (new_answer p) (native_handle_answer p) (Start_answer p) v (trace p).

Definition set_trace (v : list Event) (p : Platform) :=
  mkPlatform (kernel p) (client_started p) (GetService_answer p)
    (new_answer p) (native_handle_answer p) (Start_answer p)
    (capture_answers p) v.

(** A session together with the platform it runs on. *)
Record World := mkWorld {
  session : AUDIO_SYS_DATA;
  platform : Platform
}.

(** ** A state monad with two ways of not returning

    [Fault]: the code has dereferenced or called a null pointer, or stored
    twice into a promise.  [Hang]: the code does not return: it waits for
    something that never happens, or the process has been ended
    meanwhile.  An exception that leaves the capture thread is recorded in
    the thread, which is then at the program point [Aborted]. *)
Inductive Res (S A : Type) :=
| Ok (a : A) (s : S)
| Fault
| Hang.
Arguments Ok {S A} a s.
Arguments Fault {S A}.
Arguments Hang {S A}.

Definition M (S A : Type) := S -> Res S A.

Definition ret {S A} (a : A) : M S A := fun s => Ok a s.

Definition bind {S A B} (m : M S A) (f : A -> M S B) : M S B :=
  fun s =>
    match m s with
    | Ok a s' => f a s'
    | Fault => Fault
    | Hang => Hang
    end.

Definition fault {S A} : M S A := fun _ => Fault.

Notation "x <- c1 ;; c2" := (bind c1 (fun x => c2))
  (at level 61, c1 at next level, right associativity).
Notation "c1 ;;; c2" := (bind c1 (fun _ => c2))
  (at level 61, right associativity).

(** Primitive actions on a world. *)
Definition load {A} (f : AUDIO_SYS_DATA -> A) : M World A :=
  fun w => Ok (f (session w)) w.

Definition update_session (f : AUDIO_SYS_DATA -> AUDIO_SYS_DATA)
  : M World unit :=
  fun w => Ok tt (mkWorld (f (session w)) (platform w)).

Definition ask {A} (f : Platform -> A) : M World A :=
  fun w => Ok (f (platform w)) w.

Definition update_platform (f : Platform -> Platform) : M World unit :=
  fun w => Ok tt (mkWorld (session w) (f (platform w))).

Definition emit (e : Event) : M World unit :=
  update_platform (fun p => set_trace (trace p ++ [e]) p).

(** Modelled from the spec: the macro EXIT_ON_ERROR of
    windows/audio_sys_win_base.h, which is not among the sources:
    EXIT_ON_ERROR(hr) jumps to the Exit label when hr is a failure and
    stores nothing.  The jump is the [Exit] continuation. *)
Definition EXIT_ON_ERROR {A} (hr : HRESULT) (Exit : A) (next : A) : A :=
  if FAILED hr then Exit else next.

(** Modelled from the spec: the macro EXIT_ON_ERROR_IF of
    windows/audio_sys_win_base.h, which is not among the sources:
    EXIT_ON_ERROR_IF(code, condition) stores code into hr and jumps to
    Exit when the condition holds. *)
Definition EXIT_ON_ERROR_IF {A} (code : HRESULT) (condition : bool)
    (Exit : HRESULT -> A) (next : A) : A :=
  if condition then Exit code else next.

(** Modelled from the spec: the macro SAFE_RELEASE of
    windows/audio_sys_win_base.h, which is not among the sources: it
    releases a non-null interface pointer and nulls it. *)
Definition SAFE_RELEASE (punk : ptr) : M World ptr :=
  if negb (is_null punk) then emit (EvRelease punk) ;;; ret nullptr
  else ret punk.

(** Modelled from the spec: the macro SAFE_CLOSE_HANDLE of
    windows/audio_sys_win_base.h, which is not among the sources: it
    closes a non-null handle and nulls it. *)
Definition SAFE_CLOSE_HANDLE (h : HANDLE) (k : Kernel) : HANDLE * Kernel :=
  if negb (is_null h) then (nullptr, CloseHandle k h) else (h, k).

(** ** WASAPICapture: construction and the activation completion handler *)

Definition set_pAudioInputClient (v : ptr) (c : WASAPICapture) :=
  mkWASAPICapture v (audioInFormat c) (hBufferReady c)
    (hCaptureThreadShouldExit c) (m_promise c).

Definition set_audioInFormat (v : WAVEFORMATEX) (c : WASAPICapture) :=
  mkWASAPICapture (pAudioInputClient c) v (hBufferReady c)
    (hCaptureThreadShouldExit c) (m_promise c).

Definition set_m_promise (v : option HRESULT) (c : WASAPICapture) :=
  mkWASAPICapture (pAudioInputClient c) (audioInFormat c) (hBufferReady c)
    (hCaptureThreadShouldExit c) v.

Definition update_capture (f : WASAPICapture -> WASAPICapture)
  : M World unit :=
  update_session (fun d => set_spCapture (f (spCapture d)) d).

Definition load_capture {A} (f : WASAPICapture -> A) : M World A :=
  load (fun d => f (spCapture d)).

(** INVALID_HANDLE_VALUE of the platform headers is ((HANDLE)(LONG_PTR)-1). *)
Definition INVALID_HANDLE_VALUE : HANDLE := -1.

(** What the platform answers during one activation. *)
Record Activation := mkActivation {
  CreateEvent_first : HANDLE;
  CreateEvent_second : HANDLE;
  (* the contents of members that nothing has stored to yet *)
  unset_handle : HANDLE;
  unset_format : WAVEFORMATEX;
  ActivateAudioInterfaceAsync_hr : HRESULT;
  GetActivateResult_hr : HRESULT;
  activateResult : HRESULT;
  punkAudioInterface : ptr;
  CopyTo_out : ptr;
  Initialize_hr : HRESULT;
  SetEventHandle_hr : HRESULT;
  (* when audio_create deletes the session it has built, the platform has
     released the completion handler, so that the session holds the last
     reference to the WASAPICapture object *)
  handler_released : bool
}.

Definition WASAPICapture_ctor_Exit (hr : HRESULT) (hB hE : HANDLE)
    (k : Kernel) : HANDLE * HANDLE * Kernel :=
  if FAILED hr then
    let '(hB, k) := SAFE_CLOSE_HANDLE hB k in
    let '(hE, k) := SAFE_CLOSE_HANDLE hE k in
    (hB, hE, k)
  else (hB, hE, k).

Definition WASAPICapture_ctor (a : Activation) (k : Kernel)
  : WASAPICapture * Kernel :=
  let hB := CreateEvent_first a in
  let k := CreateEvent k hB in
  let '(hB, hE, k) :=
    EXIT_ON_ERROR_IF E_FAIL (is_null hB)
      (fun hr => WASAPICapture_ctor_Exit hr hB (unset_handle a) k)
      (let hE := CreateEvent_second a in
       let k := CreateEvent k hE in
       EXIT_ON_ERROR_IF E_FAIL (is_null hE)
         (fun hr => WASAPICapture_ctor_Exit hr hB hE k)
         (WASAPICapture_ctor_Exit S_OK hB hE k)) in
  (mkWASAPICapture nullptr (unset_format a) hB hE None, k).

(** pAudioInputClient->Release(): a call through the pointer the ComPtr
    holds, which is a fault when it holds none. *)
Definition Release_client : M World unit :=
  p <- load_capture pAudioInputClient ;;
  if is_null p then fault else emit (EvRelease p).

(** m_promise.set_value(hr): a promise takes one value. *)
Definition promise_set_value (hr : HRESULT) : M World unit :=
  pr <- load_capture m_promise ;;
  match pr with
  | Some _ => fault
  | None => update_capture (set_m_promise (Some hr)) ;;; emit (EvPromiseSet hr)
  end.

Definition ActivateCompleted_Exit (hr : HRESULT) : M World HRESULT :=
  (if FAILED hr then Release_client else ret tt) ;;;
  promise_set_value hr ;;;
  ret S_OK.

Definition capture_format : WAVEFORMATEX :=
  mkWAVEFORMATEX AUDIO_FORMAT_PCM AUDIO_CHANNELS_MONO AUDIO_SAMPLE_RATE
    AUDIO_BYTE_RATE AUDIO_BLOCK_ALIGN AUDIO_BITS 0.

Definition ActivateCompleted (a : Activation) : M World HRESULT :=
  let hr := GetActivateResult_hr a in
  EXIT_ON_ERROR hr (ActivateCompleted_Exit hr) (
  EXIT_ON_ERROR (activateResult a) (ActivateCompleted_Exit hr) (
  (* punkAudioInterface.CopyTo(&pAudioInputClient) *)
  (if is_null (punkAudioInterface a) then fault
   else update_capture (set_pAudioInputClient (CopyTo_out a))) ;;;
  client <- load_capture pAudioInputClient ;;
  EXIT_ON_ERROR_IF E_FAIL (is_null client) ActivateCompleted_Exit (
  update_capture (set_audioInFormat capture_format) ;;;
  let hr := Initialize_hr a in
  EXIT_ON_ERROR hr (ActivateCompleted_Exit hr) (
  let hr := SetEventHandle_hr a in
  ActivateCompleted_Exit hr)))).

(** ** WASAPICapture::~WASAPICapture and the deletion of a session *)

(** The body of the destructor. *)
Definition WASAPICapture_dtor (c : WASAPICapture) (k : Kernel)
  : WASAPICapture * Kernel :=
  let '(hB, k) :=
    if negb (INVALID_HANDLE_VALUE =? hBufferReady c) then
      SAFE_CLOSE_HANDLE (hBufferReady c) k
    else (hBufferReady c, k) in
  let '(hE, k) :=
    if negb (INVALID_HANDLE_VALUE =? hCaptureThreadShouldExit c) then
      SAFE_CLOSE_HANDLE (hCaptureThreadShouldExit c) k
    else (hCaptureThreadShouldExit c, k) in
  (mkWASAPICapture (pAudioInputClient c) (audioInFormat c) hB hE
     (m_promise c), k).

(** The destructor of a ComPtr (wrl/client.h) releases the interface it
    holds, if it holds one. *)
Definition ComPtr_dtor (p : ptr) : M World unit :=
  if is_null p then ret tt else emit (EvRelease p).

(** The WASAPICapture object is destroyed: the body of its destructor,
    then the destructors of its members, of which that of
    pAudioInputClient has an effect. *)
Definition WASAPICapture_delete : M World unit :=
  c <- load spCapture ;;
  k <- ask kernel ;;
  let '(c', k') := WASAPICapture_dtor c k in
  update_session (set_spCapture c') ;;;
  update_platform (set_kernel k') ;;;
  ComPtr_dtor (pAudioInputClient c').

(** How a call that frees the session ends: it returns, or the process is
    ended by std::terminate. *)
Inductive Completion :=
| Completed
| Terminated.

(** delete of a session: the members are destroyed in the reverse order
    of their declaration, spCapture before hCaptureThread.  The destructor
    of the ComPtr releases the WASAPICapture object, which is destroyed
    when that reference is the last one ([last_reference], which the
    platform decides: it was given a reference at activation); the
    destructor of std::thread calls std::terminate when the thread is
    joinable. *)
Definition delete_audioData (last_reference : bool) : M World Completion :=
  (if last_reference then WASAPICapture_delete else ret tt) ;;;
  th <- load hCaptureThread ;;
  match th with
  | Some _ => ret Terminated
  | None => ret Completed
  end.

(** ** audio_input_create and audio_create *)

Definition audio_input_create (a : Activation) : M World HRESULT :=
  k <- ask kernel ;;
  let '(capture, k) := WASAPICapture_ctor a k in
  update_session (set_spCapture capture) ;;;
  update_platform (set_kernel k) ;;;
  let hr := ActivateAudioInterfaceAsync_hr a in
  EXIT_ON_ERROR hr (ret hr) (
    (* the platform calls the completion handler; the creator waits on the
       future and reads the value of the promise *)
    ActivateCompleted a ;;;
    pr <- load_capture m_promise ;;
    match pr with
    | Some v => ret v
    | None => fun _ => Hang
    end).

Definition audio_create (a : Activation) : M Platform AUDIO_SYS_HANDLE :=
  fun p =>
    let result :=
      mkAUDIO_SYS_DATA None
        (mkWASAPICapture nullptr (unset_format a) nullptr nullptr None)
        nullptr nullptr nullptr false
        nullptr nullptr nullptr nullptr nullptr nullptr nullptr nullptr
        AUDIO_STATE_STOPPED AUDIO_STATE_STOPPED None 160 in
    match audio_input_create a (mkWorld result p) with
    | Ok hr w =>
        if FAILED hr then
          (* delete result *)
          match delete_audioData (handler_released a) w with
          | Ok Completed w' => Ok None (platform w')
          | Ok Terminated _ => Hang
          | Fault => Fault
          | Hang => Hang
          end
        else Ok (Some (session w)) (platform w)
    | Fault => Fault
    | Hang => Hang
    end.

(** ** captureThreadProc *)

Definition set_pc (v : ProgramPoint) (t : CaptureThread) :=
  mkCaptureThread v (pCaptureClient t) (audioBuff t) (audio_result t).

Definition set_pCaptureClient (v : ptr) (t : CaptureThread) :=
  mkCaptureThread (pc t) v (audioBuff t) (audio_result t).

Definition set_audioBuff (v : AudioDataBuffer) (t : CaptureThread) :=
  mkCaptureThread (pc t) (pCaptureClient t) v (audio_result t).

Definition set_audio_result (v : Z) (t : CaptureThread) :=
  mkCaptureThread (pc t) (pCaptureClient t) (audioBuff t) v.

(** A call through the input-state function pointer. *)
Definition call_input_state_cb (fn ctx : ptr) (st : AUDIO_STATE)
  : M World unit :=
  if is_null fn then fault else emit (EvInputStateCb fn ctx st).

(** if (pInput->input_state_cb) pInput->input_state_cb(user_inputctx, st) *)
Definition notify_input_state (st : AUDIO_STATE) : M World unit :=
  fn <- load input_state_cb ;;
  if negb (is_null fn) then
    ctx <- load user_inputctx ;;
    call_input_state_cb fn ctx st
  else ret tt.

Definition store_current_input_state (st : AUDIO_STATE) : M World unit :=
  update_session (set_current_input_state st) ;;;
  emit (EvStoreInputState st).

(** The code after the Exit label. *)
Definition captureThreadProc_Exit (t : CaptureThread)
  : M World CaptureThread :=
  emit (EvDeleteArray (pAudioData (audioBuff t))) ;;;
  store_current_input_state AUDIO_STATE_STOPPED ;;;
  notify_input_state AUDIO_STATE_STOPPED ;;;
  p <- SAFE_RELEASE (pCaptureClient t) ;;
  ret (set_pc Returned (set_pCaptureClient p t)).

(** new BYTE[size], the plain form of new: it returns a pointer that is
    not null, or it throws std::bad_alloc, which is [None].  Whether the
    request can be satisfied is the platform's to say. *)
Definition new_array (size : Z) : M World (option ptr) :=
  data <- ask new_answer ;;
  if is_null data then emit (EvBadAlloc size) ;;; ret None
  else emit (EvNewArray size data) ;;; ret (Some data).

(** An exception leaves captureThreadProc, the function std::thread runs;
    nothing catches it, and std::terminate ends the process.  The code at
    the Exit label is not run. *)
Definition captureThreadProc_throw (t : CaptureThread)
  : M World CaptureThread :=
  emit EvTerminate ;;; ret (set_pc Aborted t).

(** From the first statement to the first wait.  GetService is called
    through the client pointer of the session, a fault when it holds
    none.  The test of the pointer new has returned is kept as the source
    has it. *)
Definition captureThreadProc_entry (t : CaptureThread)
  : M World CaptureThread :=
  notify_input_state AUDIO_STATE_STARTING ;;;
  store_current_input_state AUDIO_STATE_RUNNING ;;;
  client <- load_capture pAudioInputClient ;;
  if is_null client then fault
  else
    answer <- ask GetService_answer ;;
    let hr := fst answer in
    emit (EvGetService hr) ;;;
    let t := set_pCaptureClient (snd answer) t in
    EXIT_ON_ERROR hr (captureThreadProc_Exit t) (
    frames <- load inputFrameCnt ;;
    align <- load_capture (fun c => nBlockAlign (audioInFormat c)) ;;
    let total := to_size_t (frames * align) in
    allocated <- new_array total ;;
    match allocated with
    | None =>
        captureThreadProc_throw
          (set_audioBuff (mkAudioDataBuffer nullptr 0 total) t)
    | Some data =>
        let t := set_audioBuff (mkAudioDataBuffer data 0 total) t in
        if is_null data then captureThreadProc_Exit t
        else ret (set_pc AtWait t)
    end).

(** The test on the result of the wait. *)
Definition captureThreadProc_woken (waitResult : DWORD) (t : CaptureThread)
  : M World CaptureThread :=
  if (WAIT_OBJECT_0 + 1) =? waitResult then ret (set_pc AtDrain t)
  else captureThreadProc_Exit t.

(** The wait at the head of the for (;;) loop.  allEvents holds the
    shutdown handle at index 0 and the buffer-ready handle at index 1;
    nothing stores to the two handles after construction, so they are read
    here.  A thread that stays blocked makes no step.  A step of the
    thread at this point is the wait being satisfied: its result is taken
    from the events that are signalled at that step. *)
Definition captureThreadProc_wait (t : CaptureThread)
  : M World CaptureThread :=
  hExit <- load_capture hCaptureThreadShouldExit ;;
  hReady <- load_capture hBufferReady ;;
  let allEvents := [hExit; hReady] in
  k <- ask kernel ;;
  match WaitForMultipleObjects k allEvents with
  | None => ret t
  | Some (waitResult, k') =>
      update_platform (set_kernel k') ;;;
      emit (EvWait waitResult) ;;;
      captureThreadProc_woken waitResult t
  end.

Definition next_packet : M World PacketAnswer :=
  q <- ask capture_answers ;;
  match q with
  | [] => ret no_packet
  | a :: q' => update_platform (set_capture_answers q') ;;; ret a
  end.

(** Modelled from the spec: GetBufferAndCallBackClient of
    windows/audio_sys_win_base, which is not among the sources: it copies
    the packet into the scratch buffer, moving the write offset, invokes
    the frame-write callback and leaves in audio_result what the callback
    asked for. *)
Definition GetBufferAndCallBackClient (a : PacketAnswer) (t : CaptureThread)
  : M World (HRESULT * CaptureThread) :=
  write_cb <- load audio_write_cb ;;
  write_ctx <- load user_write_ctx ;;
  emit (EvGetBufferAndCallBackClient write_cb write_ctx (buffer_hr a)) ;;;
  let buff := audioBuff t in
  let t := set_audioBuff
             (mkAudioDataBuffer (pAudioData buff) (buffer_filled a)
                (totalSize buff)) t in
  ret (buffer_hr a, set_audio_result (write_result a) t).

(** One iteration of the while (1) loop. *)
Definition captureThreadProc_drain (t : CaptureThread)
  : M World CaptureThread :=
  a <- next_packet ;;
  let hr := size_hr a in
  let packetLength := packet_length a in
  emit (EvGetNextPacketSize hr packetLength) ;;;
  EXIT_ON_ERROR hr (captureThreadProc_Exit t) (
  if packetLength =? 0 then ret (set_pc AtWait t)
  else
    r <- GetBufferAndCallBackClient a t ;;
    let hr := fst r in
    let t := snd r in
    EXIT_ON_ERROR hr (captureThreadProc_Exit t) (
    (if negb (audio_result t =? 0) then
       store_current_input_state AUDIO_STATE_STOPPED ;;;
       notify_input_state AUDIO_STATE_STOPPED
     else ret tt) ;;;
    ret (set_pc AtDrain t))).

Definition captureThreadProc_step (t : CaptureThread)
  : M World CaptureThread :=
  match pc t with
  | AtEntry => captureThreadProc_entry t
  | AtWait => captureThreadProc_wait t
  | AtDrain => captureThreadProc_drain t
  | Returned => ret t
  | Aborted => ret t
  end.

(** The capture thread of the session, if it has one, runs to its next
    program point. *)
Definition thread_step : M World unit :=
  th <- load hCaptureThread ;;
  match th with
  | None => ret tt
  | Some t =>
      t' <- captureThreadProc_step t ;;
      update_session (set_hCaptureThread (Some t'))
  end.

(** A thread as std::thread creates it. *)
Definition new_thread : CaptureThread :=
  mkCaptureThread AtEntry nullptr (mkAudioDataBuffer nullptr 0 0) 0.

Definition has_returned (w : World) : bool :=
  match hCaptureThread (session w) with
  | Some t => ProgramPoint_eqb (pc t) Returned
  | None => true
  end.

(** The process has been ended by std::terminate. *)
Definition process_ended (w : World) : bool :=
  match hCaptureThread (session w) with
  | Some t => ProgramPoint_eqb (pc t) Aborted
  | None => false
  end.

(** The thread runs alone until captureThreadProc returns; it hangs when
    it has not returned after [fuel] steps. *)
Fixpoint run_thread (fuel : nat) : M World unit :=
  fun w =>
    if has_returned w then Ok tt w
    else
      match fuel with
      | O => Hang
      | S fuel' => (thread_step ;;; run_thread fuel') w
      end.

(** hCaptureThread.join(): alone, the thread needs one step for its entry,
    one for each queued answer of the capture client, one to find the
    queue empty and one for the wait. *)
Definition join : M World unit :=
  q <- ask capture_answers ;;
  run_thread (4 + List.length q) ;;;
  emit EvThreadJoin ;;;
  update_session (set_hCaptureThread None).

(** ** audio_input_start and audio_input_stop *)

(** Runs code that works on the session behind a non-null handle and hands
    the session back as the pointee of the handle. *)
Definition on_session {A} (audioData : AUDIO_SYS_DATA) (m : M World A)
  : M Platform (A * AUDIO_SYS_HANDLE) :=
  fun p =>
    match m (mkWorld audioData p) with
    | Ok a w => Ok (a, Some (session w)) (platform w)
    | Fault => Fault
    | Hang => Hang
    end.

Definition audio_input_start_Exit (hr : HRESULT) : M World AUDIO_RESULT :=
  ret (if SUCCEEDED hr then AUDIO_RESULT_OK else AUDIO_RESULT_ERROR).

(** pAudioInputClient->Start() and the test that follows it. *)
Definition audio_input_start_stream : M World AUDIO_RESULT :=
  client <- load_capture pAudioInputClient ;;
  if is_null client then fault
  else
    hr <- ask Start_answer ;;
    emit (EvClientStart hr) ;;;
    (if SUCCEEDED hr then update_platform (set_client_started true)
     else ret tt) ;;;
    EXIT_ON_ERROR_IF E_FAIL (negb (hr =? S_OK)) audio_input_start_Exit
      (audio_input_start_Exit hr).

Definition audio_input_start (handle : AUDIO_SYS_HANDLE)
  : M Platform (AUDIO_RESULT * AUDIO_SYS_HANDLE) :=
  match handle with
  | None => ret (AUDIO_RESULT_INVALID_ARG, handle)
  | Some audioData =>
      if is_null (hBufferReady (spCapture audioData)) then
        ret (AUDIO_RESULT_INVALID_ARG, handle)
      else if is_null (audio_write_cb audioData)
              || is_null (pAudioInputClient (spCapture audioData))
              || AUDIO_STATE_eqb (current_input_state audioData)
                   AUDIO_STATE_RUNNING then
        ret (AUDIO_RESULT_INVALID_STATE, handle)
      else
        on_session audioData (
          th <- load hCaptureThread ;;
          match th with
          | None =>
              update_session (set_hCaptureThread (Some new_thread)) ;;;
              emit EvThreadCreate ;;;
              native <- ask native_handle_answer ;;
              EXIT_ON_ERROR_IF E_FAIL (is_null native)
                audio_input_start_Exit audio_input_start_stream
          | Some _ => audio_input_start_stream
          end)
  end.




(** pAudioInputClient->Stop() *)
Definition Stop_client : M World unit :=
  client <- load_capture pAudioInputClient ;;
  if is_null client then fault
  else emit EvClientStop ;;; update_platform (set_client_started false).

Definition audio_input_stop (handle : AUDIO_SYS_HANDLE)
  : M Platform (AUDIO_RESULT * AUDIO_SYS_HANDLE) :=
  match handle with
  | Some audioData =>
      if negb (AUDIO_STATE_eqb (current_input_state audioData)
                 AUDIO_STATE_RUNNING) then
        ret (AUDIO_RESULT_INVALID_STATE, handle)
      else
        on_session audioData (
          Stop_client ;;;
          hExit <- load_capture hCaptureThreadShouldExit ;;
          update_platform (fun p => set_kernel (SetEvent (kernel p) hExit) p) ;;;
          emit (EvSetEvent hExit) ;;;
          th <- load hCaptureThread ;;
          (match th with
           | Some _ => join
           | None => ret tt
           end) ;;;
          ret AUDIO_RESULT_OK)
  | None => ret (AUDIO_RESULT_INVALID_ARG, handle)
  end.

(** ** What can happen to a session between two calls of the controller

    A call of the controller runs as one step; between two calls the
    capture thread runs from program point to program point and the
    platform queues packets, sets events and changes the answers it will
    give. *)

Inductive Happening :=
| ThreadRuns                                   (* the capture thread steps *)
| PacketsArrive (q : list PacketAnswer)        (* the engine queues packets
                                                  and signals buffer-ready *)
| EventSet (h : HANDLE)                        (* somebody sets an event *)
| AnswersChange (svc : HRESULT * ptr) (data native : ptr) (start : HRESULT).

Definition happen (e : Happening) : M World unit :=
  match e with
  | ThreadRuns => thread_step
  | PacketsArrive q =>
      hReady <- load_capture hBufferReady ;;
      update_platform (fun p =>
        set_kernel (SetEvent (kernel p) hReady)
          (set_capture_answers (capture_answers p ++ q) p))
  | EventSet h =>
      update_platform (fun p => set_kernel (SetEvent (kernel p) h) p)
  | AnswersChange svc data native start =>
      update_platform (fun p =>
        mkPlatform (kernel p) (client_started p) svc data native start
          (capture_answers p) (trace p))
  end.

Fixpoint happenings (es : list Happening) : M World unit :=
  match es with
  | [] => ret tt
  | e :: es' => happen e ;;; happenings es'
  end.

(** The worlds a session can be in while its process lives: created by
    audio_create, then worked on by the controller's calls, the capture
    thread and the platform. *)
Inductive reachable : World -> Prop :=
| reach_create a p0 d p :
    audio_create a p0 = Ok (Some d) p ->
    reachable (mkWorld d p)
| reach_setcallbacks w ocb octx icb ictx wcb wctx ecb ectx r d :
    reachable w ->
    audio_setcallbacks (Some (session w)) ocb octx icb ictx wcb wctx ecb ectx
      = (r, Some d) ->
    reachable (mkWorld d (platform w))
| reach_set_options w n1 n2 name value r d :
    reachable w ->
    audio_set_options n1 n2 (Some (session w)) name value = Some (r, Some d) ->
    reachable (mkWorld d (platform w))
| reach_start w r d p :
    reachable w ->
    audio_input_start (Some (session w)) (platform w) = Ok (r, Some d) p ->
    reachable (mkWorld d p)
| reach_stop w r d p :
    reachable w ->
    audio_input_stop (Some (session w)) (platform w) = Ok (r, Some d) p ->
    reachable (mkWorld d p)
| reach_happen w e w' :
    reachable w ->
    happen e w = Ok tt w' ->
    process_ended w' = false ->
    reachable w'.

(** The events the code after the Exit label of captureThreadProc leaves
    in the trace, for a thread [t] of session [d]. *)
Definition exit_events (d : AUDIO_SYS_DATA) (t : CaptureThread)
  : list Event :=
  [EvDeleteArray (pAudioData (audioBuff t));
   EvStoreInputState AUDIO_STATE_STOPPED]
  ++ (if is_null (input_state_cb d) then []
      else [EvInputStateCb (input_state_cb d) (user_inputctx d)
              AUDIO_STATE_STOPPED])
  ++ (if is_null (pCaptureClient t) then []
      else [EvRelease (pCaptureClient t)]).

(** ** Sample inputs

    An activation in which every platform call succeeds, a platform that
    answers every later call with success, and the session audio_create
    builds from them. *)
Definition good_activation : Activation :=
  mkActivation 101 102 0 (mkWAVEFORMATEX 0 0 0 0 0 0 0)
    S_OK S_OK S_OK 201 202 S_OK S_OK true.

Definition quiet_platform : Platform :=
  mkPlatform [] false (S_OK, 301) 401 501 S_OK [] [].

Definition sample_session : AUDIO_SYS_DATA :=
  mkAUDIO_SYS_DATA None
    (mkWASAPICapture 202 capture_format 101 102 (Some S_OK))
    nullptr nullptr nullptr false
    nullptr nullptr nullptr nullptr nullptr nullptr nullptr nullptr
    AUDIO_STATE_STOPPED AUDIO_STATE_STOPPED None 160.

Definition sample_platform : Platform :=
  mkPlatform [(102, false); (101, false)] false (S_OK, 301) 401 501 S_OK []
    [EvPromiseSet S_OK].

(** The sample session with a frame-write callback at address 15 and an
    input-state callback at address 13. *)
Definition registered_session : AUDIO_SYS_DATA :=
  Eval vm_compute in
  match audio_setcallbacks (Some sample_session) 11 12 13 14 15 16 17 18 with
  | (_, Some d) => d
  | (_, None) => sample_session
  end.

(** An activation whose outer GetActivateResult call fails. *)
Definition outer_failure : Activation :=
  mkActivation 101 102 0 (mkWAVEFORMATEX 0 0 0 0 0 0 0)
    S_OK E_FAIL S_OK nullptr nullptr S_OK S_OK true.

(** An activation whose outer call succeeds and reports that the
    activation itself has failed. *)
Definition inner_failure : Activation :=
  mkActivation 101 102 0 (mkWAVEFORMATEX 0 0 0 0 0 0 0)
    S_OK S_OK E_FAIL nullptr nullptr S_OK S_OK true.

(** An activation in which the interface returned does not give an audio
    client. *)
Definition copy_failure : Activation :=
  mkActivation 101 102 0 (mkWAVEFORMATEX 0 0 0 0 0 0 0)
    S_OK S_OK S_OK 201 nullptr S_OK S_OK true.

(** The world in which the completion handler is called: the session has
    its two events, no client yet, and the promise is not set. *)
Definition fresh_world : World :=
  mkWorld
    (set_spCapture
       (mkWASAPICapture nullptr (mkWAVEFORMATEX 0 0 0 0 0 0 0) 101 102 None)
       sample_session)
    (mkPlatform [(102, false); (101, false)] false (S_OK, 301) 401 501 S_OK
       [] []).

(** An activation in which only the binding of the buffer-ready event
    fails. *)
Definition binding_failure : Activation :=
  mkActivation 101 102 0 (mkWAVEFORMATEX 0 0 0 0 0 0 0)
    S_OK S_OK S_OK 201 202 S_OK E_FAIL true.

(** ** Vocabulary of the properties *)

(** The thread after the code at the Exit label. *)
Definition exit_thread (t : CaptureThread) : CaptureThread :=
  set_pc Returned (set_pCaptureClient nullptr t).

Definition thread_at (w : World) (l : ProgramPoint) : Prop :=
  exists t, hCaptureThread (session w) = Some t /\ pc t = l.

(** A packet the drain loop delivers: both platform calls succeed and the
    packet is not empty. *)
Definition deliverable (a : PacketAnswer) : Prop :=
  FAILED (size_hr a) = false /\ packet_length a <> 0 /\
  FAILED (buffer_hr a) = false.

(** What the capture client answers to the next packet-size query. *)
Definition next_answer (w : World) : PacketAnswer :=
  match capture_answers (platform w) with
  | [] => no_packet
  | a :: _ => a
  end.

Definition is_delivery (e : Event) : bool :=
  match e with
  | EvGetBufferAndCallBackClient _ _ _ => true
  | _ => false
  end.

Definition is_callback (e : Event) : bool :=
  match e with
  | EvInputStateCb _ _ _ => true
  | _ => false
  end.

Definition is_delete (e : Event) : bool :=
  match e with
  | EvDeleteArray _ => true
  | _ => false
  end.

(** The pointers new[] has returned, in order. *)
Fixpoint allocations (tr : list Event) : list ptr :=
  match tr with
  | [] => []
  | EvNewArray _ p :: tr' => p :: allocations tr'
  | _ :: tr' => allocations tr'
  end.

(** The events of a notification of the input-state callback. *)
Definition notify_events (d : AUDIO_SYS_DATA) (st : AUDIO_STATE)
  : list Event :=
  if is_null (input_state_cb d) then []
  else [EvInputStateCb (input_state_cb d) (user_inputctx d) st].




(** What a step of the capture thread leaves alone. *)
Record frame (w w' : World) : Prop := mkFrame {
  fr_capture : spCapture (session w') = spCapture (session w);
  fr_write_cb : audio_write_cb (session w') = audio_write_cb (session w);
  fr_input_cb : input_state_cb (session w') = input_state_cb (session w);
  fr_input_ctx : user_inputctx (session w') = user_inputctx (session w);
  fr_svc : GetService_answer (platform w') = GetService_answer (platform w);
  fr_new : new_answer (platform w') = new_answer (platform w);
  fr_native :
    native_handle_answer (platform w') = native_handle_answer (platform w);
  fr_start : Start_answer (platform w') = Start_answer (platform w);
  fr_started : client_started (platform w') = client_started (platform w);
  fr_trace : exists body, trace (platform w') = trace (platform w) ++ body
}.

Definition deliveries (tr : list Event) : nat :=
  List.length (filter is_delivery tr).


(** The buffer a thread holds is the one its only allocation returned, or
    the one it held before, [held], when it has not allocated. *)
Definition owns_buffer (held : ptr) (body : list Event) (t : CaptureThread)
  : Prop :=
  (List.length (allocations body) <= 1)%nat /\
  pAudioData (audioBuff t) = last (allocations body) held.

(** What has happened to the thread of world [w0], which held the buffer
    [held] there, by the time the world is [w]: it is in the loop and has
    deleted nothing, or it has returned and the last events of the trace
    are those of the code at the Exit label, or it was aborted and has
    deleted nothing. *)
Definition thread_history (held : ptr) (w0 w : World) : Prop :=
  spCapture (session w) = spCapture (session w0) /\
  input_state_cb (session w) = input_state_cb (session w0) /\
  user_inputctx (session w) = user_inputctx (session w0) /\
  exists body t,
    trace (platform w) = trace (platform w0) ++ body /\
    hCaptureThread (session w) = Some t /\
    ((pc t <> Returned /\ pc t <> Aborted /\
      filter is_delete body = [] /\ owns_buffer held body t /\
      (pc t = AtEntry -> allocations body = []))
     \/
     (exists body0 t0,
        body = body0 ++ exit_events (session w0) t0 /\
        t = exit_thread t0 /\
        filter is_delete body0 = [] /\
        owns_buffer held body0 t0 /\
        current_input_state (session w) = AUDIO_STATE_STOPPED)
     \/
     (pc t = Aborted /\ filter is_delete body = [])).

(** The wait of the capture thread would return at once with a result
    other than "buffer ready". *)
Definition wait_exits (w : World) : Prop :=
  exists r k',
    WaitForMultipleObjects (kernel (platform w))
      [hCaptureThreadShouldExit (spCapture (session w));
       hBufferReady (spCapture (session w))] = Some (r, k') /\
    (WAIT_OBJECT_0 + 1 =? r) = false.

(** The steps a thread running alone still needs when its wait exits. *)
Definition remaining_steps (w : World) : nat :=
  match hCaptureThread (session w) with
  | None => 0
  | Some t =>
      match pc t with
      | AtEntry => 2
      | AtWait => 1
      | AtDrain => 2 + List.length (capture_answers (platform w))
      | Returned => 0
      | Aborted => 0
      end
  end.





(** The session passes the checks of audio_input_start and the platform
    answers the calls of a start and of the thread's entry with success. *)
Definition startable (d : AUDIO_SYS_DATA) (p : Platform) : Prop :=
  hBufferReady (spCapture d) <> nullptr /\
  audio_write_cb d <> nullptr /\
  pAudioInputClient (spCapture d) <> nullptr /\
  native_handle_answer p <> nullptr /\
  Start_answer p = S_OK /\
  FAILED (fst (GetService_answer p)) = false /\
  new_answer p <> nullptr.


(** What holds of every reachable world: a session that has a capture
    thread has a client and a buffer-ready event, and the state is RUNNING
    only while the thread is in its loop. *)
Definition session_inv (w : World) : Prop :=
  (forall t, hCaptureThread (session w) = Some t ->
     pAudioInputClient (spCapture (session w)) <> nullptr /\
     hBufferReady (spCapture (session w)) <> nullptr) /\
  (current_input_state (session w) = AUDIO_STATE_RUNNING ->
   exists t, hCaptureThread (session w) = Some t /\
             pc t <> AtEntry /\ pc t <> Returned /\ pc t <> Aborted).

(** An activation in which no event can be created and the activation
    itself is reported as failed. *)
Definition eventless_activation : Activation :=
  mkActivation nullptr nullptr 0 (mkWAVEFORMATEX 0 0 0 0 0 0 0)
    S_OK S_OK E_FAIL nullptr nullptr S_OK S_OK true.

(** The ways in which the thread [t] of world [w] reaches the Exit label
    at its next step. *)
Inductive leaves_loop (w : World) (t : CaptureThread) : Prop :=
| service_acquisition_fails :
    pc t = AtEntry ->
    FAILED (fst (GetService_answer (platform w))) = true ->
    leaves_loop w t
| wait_not_buffer_ready (r : DWORD) (k' : Kernel) :
    pc t = AtWait ->
    WaitForMultipleObjects (kernel (platform w))
      [hCaptureThreadShouldExit (spCapture (session w));
       hBufferReady (spCapture (session w))] = Some (r, k') ->
    r <> WAIT_OBJECT_0 + 1 ->
    leaves_loop w t
| packet_size_query_fails (a : PacketAnswer) (q : list PacketAnswer) :
    pc t = AtDrain ->
    capture_answers (platform w) = a :: q ->
    FAILED (size_hr a) = true ->
    leaves_loop w t
| buffer_retrieval_fails (a : PacketAnswer) (q : list PacketAnswer) :
    pc t = AtDrain ->
    capture_answers (platform w) = a :: q ->
    FAILED (size_hr a) = false ->
    packet_length a <> 0 ->
    FAILED (buffer_hr a) = true ->
    leaves_loop w t.

(** ** Sample worlds *)

Definition world_of (r : Res Platform (AUDIO_RESULT * AUDIO_SYS_HANDLE))
    (otherwise : World) : World :=
  match r with
  | Ok (_, Some d) p => mkWorld d p
  | _ => otherwise
  end.

Definition after (es : list Happening) (w : World) : World :=
  match happenings es w with
  | Ok _ w' => w'
  | _ => w
  end.

Definition registered_world : World :=
  Eval vm_compute in mkWorld registered_session sample_platform.

(** audio_input_start has returned; the thread has not run yet. *)
Definition started_world : World :=
  Eval vm_compute in
    world_of (audio_input_start (Some registered_session) sample_platform)
      registered_world.

(** The thread has run its entry and waits. *)
Definition running_world : World :=
  Eval vm_compute in after [ThreadRuns] started_world.

(** A packet of 160 frames on whose delivery the frame-write callback
    asks to stop, and one on which it does not. *)
Definition stop_packet : PacketAnswer := mkPacketAnswer S_OK 160 S_OK 320 1.
Definition plain_packet : PacketAnswer := mkPacketAnswer S_OK 160 S_OK 320 0.

(** The thread is at the head of the drain loop with two packets queued. *)
Definition draining_world : World :=
  Eval vm_compute in
    after [PacketsArrive [stop_packet; plain_packet]; ThreadRuns]
      running_world.

(** The thread waits; the shutdown and the buffer-ready events are both
    signalled. *)
Definition contended_world : World :=
  Eval vm_compute in
    after [PacketsArrive [plain_packet]; EventSet 102] running_world.



(** Entry, a packet with a stop request, the drain, the shutdown signal
    and the exit. *)
Definition full_run : list Happening :=
  [ThreadRuns; PacketsArrive [stop_packet]; ThreadRuns; ThreadRuns;
   ThreadRuns; EventSet 102; ThreadRuns].

(** The started sample world after the full run. *)
Definition finished_world : World :=
  Eval vm_compute in after full_run started_world.

(** ** The rest of the file: the render events, audio_destroy, the stubs *)

Definition set_hRenderThreadShouldExit (v : HANDLE) (d : AUDIO_SYS_DATA) :=
  mkAUDIO_SYS_DATA (hCaptureThread d) (spCapture d) (pAudioOutputDevice d)
    v (hRenderThreadDidExit d) (output_canceled d)
    (error_cb d) (output_state_cb d) (input_state_cb d) (audio_write_cb d)
    (user_write_ctx d) (user_outputctx d) (user_inputctx d) (user_errorctx d)
    (current_output_state d) (current_input_state d) (hDeviceName d)
    (inputFrameCnt d).

Definition set_hRenderThreadDidExit (v : HANDLE) (d : AUDIO_SYS_DATA) :=
  mkAUDIO_SYS_DATA (hCaptureThread d) (spCapture d) (pAudioOutputDevice d)
    (hRenderThreadShouldExit d) v (output_canceled d)
    (error_cb d) (output_state_cb d) (input_state_cb d) (audio_write_cb d)
    (user_write_ctx d) (user_outputctx d) (user_inputctx d) (user_errorctx d)
    (current_output_state d) (current_input_state d) (hDeviceName d)
    (inputFrameCnt d).

Definition set_output_canceled (v : bool) (d : AUDIO_SYS_DATA) :=
  mkAUDIO_SYS_DATA (hCaptureThread d) (spCapture d) (pAudioOutputDevice d)
    (hRenderThreadShouldExit d) (hRenderThreadDidExit d) v
    (error_cb d) (output_state_cb d) (input_state_cb d) (audio_write_cb d)
    (user_write_ctx d) (user_outputctx d) (user_inputctx d) (user_errorctx d)
    (current_output_state d) (current_input_state d) (hDeviceName d)
    (inputFrameCnt d).

(** CreateEvent(0, FALSE, bInitialState, nullptr): an auto-reset event in
    the given initial state; [h] is the handle the platform returns, null
    when it could not create the event. *)
Definition CreateEvent_initially (bInitialState : bool) (k : Kernel)
    (h : HANDLE) : Kernel :=
  if is_null h then k else (h, bInitialState) :: k.

(** WaitForSingleObject(h, INFINITE) on an auto-reset event: the wait
    fails at once on a handle that is not an event, is satisfied by a
    signalled event, which it resets, and leaves the caller blocked
    ([None]) while the event is not signalled. *)
Definition WaitForSingleObject (k : Kernel) (h : HANDLE)
  : option (DWORD * Kernel) :=
  if valid_handle k h then
    match event_state k h with
    | Some true => Some (WAIT_OBJECT_0, event_store k h false)
    | _ => None
    end
  else Some (WAIT_FAILED, k).

(** *** audio_create_events *)

(** SAFE_CLOSE_HANDLE applied to the two render members of the session. *)
Definition close_hRenderThreadShouldExit : M World unit :=
  h <- load hRenderThreadShouldExit ;;
  k <- ask kernel ;;
  let '(h', k') := SAFE_CLOSE_HANDLE h k in
  update_session (set_hRenderThreadShouldExit h') ;;;
  update_platform (set_kernel k').

Definition close_hRenderThreadDidExit : M World unit :=
  h <- load hRenderThreadDidExit ;;
  k <- ask kernel ;;
  let '(h', k') := SAFE_CLOSE_HANDLE h k in
  update_session (set_hRenderThreadDidExit h') ;;;
  update_platform (set_kernel k').

Definition audio_create_events_Exit (hr : HRESULT) : M World HRESULT :=
  (if FAILED hr then
     close_hRenderThreadShouldExit ;;;
     close_hRenderThreadDidExit
   else ret tt) ;;;
  ret hr.

(** [first] and [second] are the handles the platform returns for the two
    CreateEvent calls; the second event starts signalled. *)
Definition audio_create_events_session (first second : HANDLE)
  : M World HRESULT :=
  update_platform (fun p =>
    set_kernel (CreateEvent_initially false (kernel p) first) p) ;;;
  update_session (set_hRenderThreadShouldExit first) ;;;
  hShould <- load hRenderThreadShouldExit ;;
  EXIT_ON_ERROR_IF E_FAIL (is_null hShould) audio_create_events_Exit (
  update_platform (fun p =>
    set_kernel (CreateEvent_initially true (kernel p) second) p) ;;;
  update_session (set_hRenderThreadDidExit second) ;;;
  hDid <- load hRenderThreadDidExit ;;
  EXIT_ON_ERROR_IF E_FAIL (is_null hDid) audio_create_events_Exit (
  audio_create_events_Exit S_OK)).

Section ResultCodes.

(** The numeric values of the AUDIO_RESULT enumerators of audio_sys.h,
    which is not among the sources: audio_create_events returns one of
    them as an HRESULT. *)
Variable AUDIO_RESULT_value : AUDIO_RESULT -> HRESULT.

Definition audio_create_events (first second : HANDLE)
    (audioData : AUDIO_SYS_HANDLE)
  : M Platform (HRESULT * AUDIO_SYS_HANDLE) :=
  match audioData with
  | None => ret (AUDIO_RESULT_value AUDIO_RESULT_INVALID_ARG, audioData)
  | Some d => on_session d (audio_create_events_session first second)
  end.

End ResultCodes.

(** *** force_render_thread_to_exit_and_wait and audio_destroy *)

(** The wait is for ever: the caller hangs while the event is not
    signalled, and nothing in this file signals it. *)
Definition force_render_thread_to_exit_and_wait : M World unit :=
  update_session (set_output_canceled true) ;;;
  hShould <- load hRenderThreadShouldExit ;;
  update_platform (fun p => set_kernel (SetEvent (kernel p) hShould) p) ;;;
  emit (EvSetEvent hShould) ;;;
  hDid <- load hRenderThreadDidExit ;;
  k <- ask kernel ;;
  match WaitForSingleObject k hDid with
  | None => fun _ => Hang
  | Some (waitResult, k') =>
      update_platform (set_kernel k') ;;;
      emit (EvWait waitResult)
  end.

(** STRING_delete of the azure_c_shared_utility library frees the store;
    the member keeps the stale handle and the session is deleted next. *)
Definition STRING_delete (h : STRING_HANDLE) : M World unit := ret tt.

Definition audio_destroy (last_reference : bool) (handle : AUDIO_SYS_HANDLE)
  : M Platform Completion :=
  match handle with
  | Some audioData =>
      fun p =>
        match
          (Release_client ;;;
           hShould <- load hRenderThreadShouldExit ;;
           hDid <- load hRenderThreadDidExit ;;
           (if negb (is_null hShould) && negb (is_null hDid) then
              force_render_thread_to_exit_and_wait
            else ret tt) ;;;
           close_hRenderThreadShouldExit ;;;
           close_hRenderThreadDidExit ;;;
           name <- load hDeviceName ;;
           (match name with
            | Some _ => STRING_delete name
            | None => ret tt
            end) ;;;
           delete_audioData last_reference) (mkWorld audioData p)
        with
        | Ok c w => Ok c (platform w)
        | Fault => Fault
        | Hang => Hang
        end
  | None => ret Completed
  end.

(** *** The output stubs *)

Definition audio_output_set_volume (handle : AUDIO_SYS_HANDLE) (volume : Z)
  : AUDIO_RESULT :=
  AUDIO_RESULT_OK.

Definition audio_playwavfile (hAudioOut : AUDIO_SYS_HANDLE)
    (file : option string) : AUDIO_RESULT :=
  AUDIO_RESULT_OK.

(** ** Steps of a session

    One call of the controller on the session, or one happening, in a
    process that lives. *)
Inductive session_step : World -> World -> Prop :=
| step_setcallbacks w ocb octx icb ictx wcb wctx ecb ectx r d :
    audio_setcallbacks (Some (session w)) ocb octx icb ictx wcb wctx ecb ectx
      = (r, Some d) ->
    session_step w (mkWorld d (platform w))
| step_set_options w n1 n2 name value r d :
    audio_set_options n1 n2 (Some (session w)) name value = Some (r, Some d) ->
    session_step w (mkWorld d (platform w))
| step_start w r d p :
    audio_input_start (Some (session w)) (platform w) = Ok (r, Some d) p ->
    session_step w (mkWorld d p)
| step_stop w r d p :
    audio_input_stop (Some (session w)) (platform w) = Ok (r, Some d) p ->
    session_step w (mkWorld d p)
| step_happen w e w' :
    happen e w = Ok tt w' ->
    process_ended w' = false ->
    session_step w w'.

Inductive session_steps : World -> World -> Prop :=
| steps_none w : session_steps w w
| steps_more w1 w2 w3 :
    session_step w1 w2 -> session_steps w2 w3 -> session_steps w1 w3.

(** ** Vocabulary of the further properties *)

(** What the deletion of a session leaves of the platform: nothing is
    changed when the capture object is shared; otherwise its two events
    are closed and the client it holds, if any, is released. *)
Definition after_delete (last_reference : bool) (c : WASAPICapture)
    (p : Platform) : Platform :=
  if last_reference then
    let p' := set_kernel (snd (WASAPICapture_dtor c (kernel p))) p in
    if is_null (pAudioInputClient c) then p'
    else set_trace (trace p' ++ [EvRelease (pAudioInputClient c)]) p'
  else p.

(** The answers of an activation that gives the session a client. *)
Definition activation_succeeds (a : Activation) : Prop :=
  FAILED (ActivateAudioInterfaceAsync_hr a) = false /\
  FAILED (GetActivateResult_hr a) = false /\
  FAILED (activateResult a) = false /\
  punkAudioInterface a <> nullptr /\
  CopyTo_out a <> nullptr /\
  FAILED (Initialize_hr a) = false /\
  FAILED (SetEventHandle_hr a) = false.

(** The session passes the two guards of audio_input_start. *)
Definition passes_guards (d : AUDIO_SYS_DATA) : Prop :=
  hBufferReady (spCapture d) <> nullptr /\
  audio_write_cb d <> nullptr /\
  pAudioInputClient (spCapture d) <> nullptr /\
  current_input_state d <> AUDIO_STATE_RUNNING.

(** An invocation of a callback names the function and the context
    registered in session [d]; the input-state callback is not null and
    is not told RUNNING. *)
Definition callback_event_ok (d : AUDIO_SYS_DATA) (e : Event) : Prop :=
  match e with
  | EvInputStateCb fn ctx st =>
      fn = input_state_cb d /\ ctx = user_inputctx d /\
      fn <> nullptr /\ st <> AUDIO_STATE_RUNNING
  | EvGetBufferAndCallBackClient cb ctx _ =>
      cb = audio_write_cb d /\ ctx = user_write_ctx d
  | _ => True
  end.

(** The delivery of packet [a] to the write callback of session [d]. *)
Definition delivery_of (d : AUDIO_SYS_DATA) (a : PacketAnswer) : Event :=
  EvGetBufferAndCallBackClient (audio_write_cb d) (user_write_ctx d)
    (buffer_hr a).

(** The capture thread has returned and nobody has joined it. *)
Definition thread_dead (w : World) : Prop :=
  thread_at w Returned /\
  current_input_state (session w) <> AUDIO_STATE_RUNNING.

(** The output members as audio_create leaves them. *)
Definition output_untouched (d : AUDIO_SYS_DATA) : Prop :=
  pAudioOutputDevice d = nullptr /\
  hRenderThreadShouldExit d = nullptr /\
  hRenderThreadDidExit d = nullptr /\
  output_canceled d = false /\
  current_output_state d = AUDIO_STATE_STOPPED.

(** The same handles are events in both kernels: none was created and
    none was closed. *)
Definition same_events (k k' : Kernel) : Prop :=
  forall h, valid_handle k' h = valid_handle k h.

(** The session [d'] is [d] but for its thread and its persisted input
    state. *)
Definition same_but_thread_and_state (d d' : AUDIO_SYS_DATA) : Prop :=
  d' = set_hCaptureThread (hCaptureThread d')
         (set_current_input_state (current_input_state d') d).

(** The platform answers the calls to come in [p'] as in [p]. *)
Definition same_answers (p p' : Platform) : Prop :=
  GetService_answer p' = GetService_answer p /\
  new_answer p' = new_answer p /\
  native_handle_answer p' = native_handle_answer p /\
  Start_answer p' = Start_answer p.

(** What the capture thread, running from world [w] to world [w'], leaves
    alone, and the events it adds. *)
Definition thread_effect (w w' : World) : Prop :=
  same_but_thread_and_state (session w) (session w') /\
  same_events (kernel (platform w)) (kernel (platform w')) /\
  same_answers (platform w) (platform w') /\
  client_started (platform w') = client_started (platform w) /\
  exists body,
    trace (platform w') = trace (platform w) ++ body /\
    Forall (callback_event_ok (session w)) body.


(** A delivery goes to a write callback that is not null. *)
Definition write_cb_registered (e : Event) : Prop :=
  match e with
  | EvGetBufferAndCallBackClient cb _ _ => cb <> nullptr
  | _ => True
  end.

(** What IAudioClient::Start leaves in the platform. *)
Definition stream_started (p : Platform) : Platform :=
  let p1 := set_trace (trace p ++ [EvClientStart (Start_answer p)]) p in
  if SUCCEEDED (Start_answer p) then set_client_started true p1 else p1.

(** ** Further sample worlds *)

(** The capture service cannot be acquired: the thread of the started
    sample world leaves at its entry, on its own. *)
Definition dead_world : World :=
  Eval vm_compute in
    after [AnswersChange (E_FAIL, nullptr) 401 501 S_OK; ThreadRuns]
      started_world.

(** audio_input_start is called again on the session whose thread has
    left. *)
Definition dead_world_restarted : World :=
  Eval vm_compute in
    world_of
      (audio_input_start (Some (session dead_world)) (platform dead_world))
      dead_world.

(** The registered sample session on a platform whose IAudioClient::Start
    answers S_FALSE. *)
Definition reluctant_platform : Platform :=
  mkPlatform [(102, false); (101, false)] false (S_OK, 301) 401 501 1 []
    [EvPromiseSet S_OK].

(** The session audio_create returns when the activation is reported as
    failed: it has no client. *)
Definition clientless_world : World :=
  Eval vm_compute in
    match audio_create inner_failure quiet_platform with
    | Ok (Some d) p => mkWorld d p
    | _ => mkWorld sample_session sample_platform
    end.

(** The thread of the draining sample world has delivered the first
    packet. *)
Definition delivered_world : World :=
  Eval vm_compute in after [ThreadRuns] draining_world.

(** The sample session with the two render events 103 and 104. *)
Definition render_world : World :=
  Eval vm_compute in
    match
      on_session sample_session (audio_create_events_session 103 104)
        sample_platform
    with
    | Ok (_, Some d) p => mkWorld d p
    | _ => mkWorld sample_session sample_platform
    end.

(** The thread of the running sample world waits, three packets arrive. *)
Definition three_packets : list PacketAnswer :=
  [plain_packet; stop_packet; plain_packet].

(** The registered sample session after audio_set_options has stored the
    frame count -1: its capture thread asks new for 2^64 - 2 bytes. *)
Definition oversized_session : AUDIO_SYS_DATA :=
  Eval vm_compute in
  match
    audio_set_options "buff_frame_count" "devicename"
      (Some registered_session) "buff_frame_count" (Some (IntObject (-1)))
  with
  | Some (_, Some d) => d
  | _ => registered_session
  end.

(** A platform that has no block for the scratch buffer. *)
Definition starved_platform : Platform :=
  mkPlatform [(102, false); (101, false)] false (S_OK, 301) nullptr 501 S_OK
    [] [EvPromiseSet S_OK].

(** audio_input_start has returned OK on that session and platform; the
    thread has not run yet. *)
Definition starved_world : World :=
  Eval vm_compute in
    world_of (audio_input_start (Some oversized_session) starved_platform)
      (mkWorld oversized_session starved_platform).

(** The thread has run its entry. *)
Definition aborted_world : World :=
  Eval vm_compute in after [ThreadRuns] starved_world.

(** The shutdown event is set while the thread of the running sample
    world waits, and the thread runs. *)
Definition shutdown_run : list Happening := [EventSet 102; ThreadRuns].

(* ================================================================== *)
(** * Properties *)

Arguments is_null : simpl never.
Arguments FAILED : simpl never.
Arguments SUCCEEDED : simpl never.
Arguments to_size_t : simpl never.
Arguments WaitForMultipleObjects : simpl never.

Lemma AUDIO_STATE_eqb_spec (a b : AUDIO_STATE) :
  reflect (a = b) (AUDIO_STATE_eqb a b).
Proof. destruct a, b; constructor; congruence. Qed.

Lemma is_null_true (p : ptr) : is_null p = true <-> p = nullptr.
Proof. unfold is_null. apply Z.eqb_eq. Qed.

Lemma is_null_false (p : ptr) : is_null p = false <-> p <> nullptr.
Proof. unfold is_null. apply Z.eqb_neq. Qed.

Lemma sample_session_created :
  audio_create good_activation quiet_platform
  = Ok (Some sample_session) sample_platform.
Proof. reflexivity. Qed.

(** ** Callback registration *)

(** What a successful registration stores: every slot receives its
    argument, except user_errorctx, which receives the error callback. *)
Lemma audio_setcallbacks_stores (d : AUDIO_SYS_DATA)
    (ocb octx icb ictx wcb wctx ecb ectx : ptr) :
  wcb <> nullptr ->
  exists d',
    audio_setcallbacks (Some d) ocb octx icb ictx wcb wctx ecb ectx
    = (AUDIO_RESULT_OK, Some d') /\
    output_state_cb d' = ocb /\ user_outputctx d' = octx /\
    input_state_cb d' = icb /\ user_inputctx d' = ictx /\
    audio_write_cb d' = wcb /\ user_write_ctx d' = wctx /\
    error_cb d' = ecb /\ user_errorctx d' = ecb /\
    hCaptureThread d' = hCaptureThread d /\
    spCapture d' = spCapture d /\
    current_input_state d' = current_input_state d /\
    hDeviceName d' = hDeviceName d /\
    inputFrameCnt d' = inputFrameCnt d.
Proof.
  intros Hw. apply is_null_false in Hw.
  unfold audio_setcallbacks. rewrite Hw. cbn [negb].
  eexists. split; [reflexivity|]. cbn. repeat split; reflexivity.
Qed.

(** A null handle or a null write callback is rejected and nothing is
    stored. *)
Lemma audio_setcallbacks_rejects (handle : AUDIO_SYS_HANDLE)
    (ocb octx icb ictx wcb wctx ecb ectx : ptr) :
  handle = None \/ wcb = nullptr ->
  audio_setcallbacks handle ocb octx icb ictx wcb wctx ecb ectx
  = (AUDIO_RESULT_INVALID_ARG, handle).
Proof.
  intros [-> | ->]; [reflexivity|].
  destruct handle; reflexivity.
Qed.

(** C1: audio_setcallbacks is claimed to leave in each context slot the
    context passed for it.  Registering on the sample session the error
    callback 17 with the error context 18 returns OK and stores the other
    seven arguments in their slots, but the error-context slot holds the
    callback address 17 and not the context 18: the second store to
    user_errorctx overwrites the first. *)
Theorem audio_setcallbacks_error_context_overwritten :
  exists d',
    audio_setcallbacks (Some sample_session) 11 12 13 14 15 16 17 18
    = (AUDIO_RESULT_OK, Some d') /\
    output_state_cb d' = 11 /\ user_outputctx d' = 12 /\
    input_state_cb d' = 13 /\ user_inputctx d' = 14 /\
    audio_write_cb d' = 15 /\ user_write_ctx d' = 16 /\
    error_cb d' = 17 /\
    user_errorctx d' = 17 /\ user_errorctx d' <> 18.
Proof.
  eexists. split; [reflexivity|]. cbn. repeat split; try reflexivity.
  discriminate.
Qed.

(** ** Option setting *)

(** C9: for every non-null handle, setting the device name to "mic1" and
    then to a null value returns OK both times and leaves a string store
    that holds the empty string.  The two option names are any two
    different strings. *)
Theorem audio_set_options_devicename_cleared
    (frame_count_name devicename_name : string) (d : AUDIO_SYS_DATA) :
  frame_count_name <> devicename_name ->
  exists d1 d2,
    audio_set_options frame_count_name devicename_name (Some d)
      devicename_name (Some (CString "mic1"))
    = Some (AUDIO_RESULT_OK, Some d1) /\
    hDeviceName d1 = Some "mic1"%string /\
    audio_set_options frame_count_name devicename_name (Some d1)
      devicename_name None
    = Some (AUDIO_RESULT_OK, Some d2) /\
    hDeviceName d2 = Some ""%string.
Proof.
  intros Hne. apply String.eqb_neq in Hne.
  unfold audio_set_options. rewrite Hne, String.eqb_refl.
  destruct (hDeviceName d) eqn:Hd; cbn.
  - eexists; eexists. split; [reflexivity|]. split; [reflexivity|].
    cbn. split; reflexivity.
  - eexists; eexists. split; [reflexivity|]. split; [reflexivity|].
    cbn. split; reflexivity.
Qed.

Lemma audio_set_options_devicename_cleared_witness :
  "buff_frame_count"%string <> "devicename"%string /\
  exists d1 d2,
    audio_set_options "buff_frame_count" "devicename" (Some sample_session)
      "devicename" (Some (CString "mic1"))
    = Some (AUDIO_RESULT_OK, Some d1) /\
    hDeviceName d1 = Some "mic1"%string /\
    audio_set_options "buff_frame_count" "devicename" (Some d1)
      "devicename" None
    = Some (AUDIO_RESULT_OK, Some d2) /\
    hDeviceName d2 = Some ""%string.
Proof.
  split; [discriminate|].
  apply (audio_set_options_devicename_cleared
           "buff_frame_count" "devicename" sample_session).
  discriminate.
Defined.

(** ** Activation *)

(** When only the binding of the buffer-ready event fails, the client is
    released, then the promise receives that failure. *)
Lemma ActivateCompleted_binding_failure (a : Activation) (w : World) :
  FAILED (GetActivateResult_hr a) = false ->
  FAILED (activateResult a) = false ->
  punkAudioInterface a <> nullptr ->
  CopyTo_out a <> nullptr ->
  FAILED (Initialize_hr a) = false ->
  FAILED (SetEventHandle_hr a) = true ->
  m_promise (spCapture (session w)) = None ->
  exists w',
    ActivateCompleted a w = Ok S_OK w' /\
    m_promise (spCapture (session w')) = Some (SetEventHandle_hr a) /\
    trace (platform w')
    = trace (platform w)
      ++ [EvRelease (CopyTo_out a); EvPromiseSet (SetEventHandle_hr a)].
Proof.
  intros H1 H2 H3 H4 H5 H6 H7.
  apply is_null_false in H3. apply is_null_false in H4.
  destruct w as [d p].
  cbv beta iota delta [ActivateCompleted ActivateCompleted_Exit EXIT_ON_ERROR
    EXIT_ON_ERROR_IF Release_client promise_set_value update_capture
    load_capture load update_session update_platform emit bind ret fault].
  cbn [session platform] in *.
  rewrite H1, H2, H3. cbn. rewrite H4, H5, H6. cbn. rewrite H4. cbn. rewrite H7. cbn.
  eexists. split; [reflexivity|]. cbn. split; [reflexivity|].
  now rewrite <- app_assoc.
Qed.

(** The same on the sample activation whose binding fails: the client 202
    is released, the promise receives E_FAIL and no session is returned;
    the session that was built is deleted, and with it, the session
    holding the last reference, the capture object: its two events are
    closed and the destructor of its ComPtr member releases the client
    once more. *)
Lemma audio_create_binding_failure :
  exists p,
    audio_create binding_failure quiet_platform = Ok None p /\
    trace p = [EvRelease 202; EvPromiseSet E_FAIL; EvRelease 202] /\
    kernel p = [].
Proof. eexists. split; [|split]; vm_compute; reflexivity. Qed.

(** C6: the completion handler is claimed to store into the promise
    exactly once on every path, success or the first failure met.  When
    the outer GetActivateResult call fails, or when the interface gives no
    audio client, the handler calls Release through a client pointer that
    holds nothing and never reaches the store; session creation faults
    with it.  When the outer call succeeds and reports a failed
    activation, the promise receives the success code of the outer call,
    and audio_create returns a session without a client. *)
Theorem ActivateCompleted_failure_paths :
  Release_client fresh_world = Fault /\
  ActivateCompleted outer_failure fresh_world = Fault /\
  ActivateCompleted copy_failure fresh_world = Fault /\
  audio_create outer_failure quiet_platform = Fault /\
  (exists w',
     ActivateCompleted inner_failure fresh_world = Ok S_OK w' /\
     m_promise (spCapture (session w')) = Some S_OK /\
     trace (platform w') = [EvPromiseSet S_OK]) /\
  (exists d p,
     audio_create inner_failure quiet_platform = Ok (Some d) p /\
     pAudioInputClient (spCapture d) = nullptr).
Proof.
  split; [reflexivity|]. split; [reflexivity|]. split; [reflexivity|].
  split; [reflexivity|]. split.
  - eexists. split; [reflexivity|]. split; reflexivity.
  - eexists; eexists. split; [reflexivity|]. reflexivity.
Qed.

(** ** Proof automation for the monadic code *)

Ltac monad :=
  cbv beta iota zeta delta
    [thread_step captureThreadProc_step captureThreadProc_Exit
     captureThreadProc_entry captureThreadProc_wait captureThreadProc_drain
     captureThreadProc_woken GetBufferAndCallBackClient next_packet
     notify_input_state store_current_input_state call_input_state_cb
     new_array captureThreadProc_throw
     SAFE_RELEASE EXIT_ON_ERROR EXIT_ON_ERROR_IF emit load_capture load ask
     update_session update_platform update_capture bind ret fault
     no_packet] in *.

Ltac norm :=
  cbn [session platform trace set_trace set_kernel set_capture_answers
       kernel capture_answers fst snd negb GetService_answer new_answer
       native_handle_answer Start_answer client_started set_client_started
       hCaptureThread spCapture input_state_cb user_inputctx audio_write_cb
       user_write_ctx current_input_state inputFrameCnt
       set_hCaptureThread set_current_input_state set_input_state_cb
       set_user_inputctx set_spCapture
       pc pCaptureClient audioBuff audio_result set_pc set_pCaptureClient
       set_audioBuff set_audio_result pAudioData
       size_hr packet_length buffer_hr buffer_filled write_result] in *;
  change (FAILED S_OK) with false in *;
  change (0 =? 0) with true in *.

Ltac branch :=
  norm;
  repeat (match goal with
  | |- context [if negb ?c then _ else _] => destruct c eqn:?
  | |- context [if ?c then _ else _] => destruct c eqn:?
  | |- context [match ?c with Some _ => _ | None => _ end] =>
      destruct c eqn:?
  | |- context [match ?c with [] => _ | _ :: _ => _ end] => destruct c eqn:?
  | |- context [match ?c with AtEntry => _ | _ => _ end] => destruct c eqn:?
  | |- context [let '(_, _) := ?c in _] => destruct c eqn:?
  end; norm; try congruence).

Ltac monad_keep_exit :=
  cbv beta iota zeta delta
    [thread_step captureThreadProc_step
     captureThreadProc_entry captureThreadProc_wait captureThreadProc_drain
     captureThreadProc_woken GetBufferAndCallBackClient next_packet
     notify_input_state store_current_input_state call_input_state_cb
     new_array captureThreadProc_throw
     EXIT_ON_ERROR EXIT_ON_ERROR_IF emit load_capture load ask
     update_session update_platform update_capture bind ret fault
     no_packet] in *.

Ltac extends :=
  rewrite <- ?app_assoc; cbn [app];
  first [ reflexivity | symmetry; apply app_nil_r ].

(** ** Events and the wait *)

Lemma event_state_store (k : Kernel) (h h' : HANDLE) (b : bool) :
  event_state (event_store k h b) h'
  = if h' =? h then match event_state k h with
                    | Some _ => Some b
                    | None => None
                    end
    else event_state k h'.
Proof.
  induction k as [|[h0 b0] k IH]; cbn.
  - now destruct (h' =? h).
  - destruct (h0 =? h) eqn:E0; cbn.
    + apply Z.eqb_eq in E0; subst h0.
      rewrite (Z.eqb_sym h h'). now destruct (h' =? h).
    + destruct (h0 =? h') eqn:E1.
      * apply Z.eqb_eq in E1; subst h0. rewrite E0. reflexivity.
      * rewrite IH. reflexivity.
Qed.

Lemma captureThreadProc_Exit_spec (t : CaptureThread) (w : World) :
  captureThreadProc_Exit t w
  = Ok (exit_thread t)
      (mkWorld (set_current_input_state AUDIO_STATE_STOPPED (session w))
         (set_trace (trace (platform w) ++ exit_events (session w) t)
            (platform w))).
Proof.
  destruct w as [d p]. monad. unfold exit_events, exit_thread. norm.
  destruct (is_null (input_state_cb d)) eqn:E1; norm;
    destruct (is_null (pCaptureClient t)) eqn:E2; norm;
    rewrite <- ?app_assoc; cbn [app]; try reflexivity.
  all: apply is_null_true in E2; rewrite E2; reflexivity.
Qed.

Lemma captureThreadProc_woken_shutdown (t : CaptureThread) (w : World) :
  captureThreadProc_woken WAIT_OBJECT_0 t w = captureThreadProc_Exit t w.
Proof. reflexivity. Qed.

(** C8: at a wait of the capture thread at which the shutdown event and
    the buffer-ready event are both signalled, the wait is satisfied by the
    shutdown event, which stands at index 0 of allEvents: the thread runs
    the code at the Exit label and returns, no packet is taken from the
    capture client, and the buffer-ready event stays signalled.  Whatever
    the world, a wake-up with the result WAIT_OBJECT_0 goes to Exit and
    never into the drain loop. *)
Theorem shutdown_wins_the_wait (w : World) (t : CaptureThread) :
  let hExit := hCaptureThreadShouldExit (spCapture (session w)) in
  let hReady := hBufferReady (spCapture (session w)) in
  let k := kernel (platform w) in
  hCaptureThread (session w) = Some t ->
  pc t = AtWait ->
  hExit <> nullptr -> hReady <> nullptr ->
  event_state k hExit = Some true ->
  event_state k hReady = Some true ->
  WaitForMultipleObjects k [hExit; hReady]
  = Some (WAIT_OBJECT_0, event_store k hExit false) /\
  (exists w',
     thread_step w = Ok tt w' /\
     hCaptureThread (session w') = Some (exit_thread t) /\
     trace (platform w')
     = trace (platform w)
       ++ [EvWait WAIT_OBJECT_0] ++ exit_events (session w) t /\
     capture_answers (platform w') = capture_answers (platform w) /\
     (hReady <> hExit ->
      event_state (kernel (platform w')) hReady = Some true)) /\
  (forall t0 w0,
     captureThreadProc_woken WAIT_OBJECT_0 t0 w0
     = captureThreadProc_Exit t0 w0).
Proof.
  intros hExit hReady k Ht Hpc Hx Hr Sx Sr.
  assert (HW : WaitForMultipleObjects k [hExit; hReady]
               = Some (WAIT_OBJECT_0, event_store k hExit false)).
  { unfold WaitForMultipleObjects. cbn [forallb]. unfold valid_handle.
    apply is_null_false in Hx. apply is_null_false in Hr.
    rewrite Hx, Hr, Sx, Sr. cbn. rewrite Sx. reflexivity. }
  split; [exact HW|]. split; [|intros; reflexivity].
  destruct w as [d p]. subst hExit hReady k. cbn [session platform] in *.
  unfold thread_step, captureThreadProc_step, load, bind.
  cbn [session]. rewrite Ht, Hpc.
  unfold captureThreadProc_wait, load_capture, load, ask, bind.
  cbn [session platform]. rewrite HW.
  unfold update_platform, emit, update_platform, bind. cbn [session platform].
  rewrite captureThreadProc_woken_shutdown, captureThreadProc_Exit_spec.
  unfold update_session. cbn [session platform].
  eexists. split; [reflexivity|]. cbn.
  split; [reflexivity|]. split; [now rewrite <- app_assoc|].
  split; [reflexivity|].
  intros Hne. rewrite event_state_store.
  apply Z.eqb_neq in Hne. rewrite Hne. exact Sr.
Qed.

Lemma shutdown_wins_the_wait_witness :
  hCaptureThread (session contended_world)
  = Some (mkCaptureThread AtWait 301 (mkAudioDataBuffer 401 0 320) 0) /\
  event_state (kernel (platform contended_world)) 102 = Some true /\
  event_state (kernel (platform contended_world)) 101 = Some true /\
  exists w',
    thread_step contended_world = Ok tt w' /\
    thread_at w' Returned /\
    capture_answers (platform w') = [plain_packet] /\
    event_state (kernel (platform w')) 101 = Some true.
Proof.
  assert (Ht : hCaptureThread (session contended_world)
               = Some (mkCaptureThread AtWait 301
                         (mkAudioDataBuffer 401 0 320) 0))
    by (vm_compute; reflexivity).
  assert (Hx : event_state (kernel (platform contended_world)) 102
               = Some true)
    by (vm_compute; reflexivity).
  assert (Hr : event_state (kernel (platform contended_world)) 101
               = Some true)
    by (vm_compute; reflexivity).
  split; [exact Ht|]. split; [exact Hx|]. split; [exact Hr|].
  destruct (shutdown_wins_the_wait contended_world _ Ht eq_refl)
    as (_ & (w' & Hstep & Ht' & _ & Hq & Hready) & _);
    [vm_compute; lia | vm_compute; lia | exact Hx | exact Hr |].
  exists w'. split; [exact Hstep|]. split.
  - eexists. split; [exact Ht'|reflexivity].
  - split; [exact Hq|]. apply Hready. vm_compute. lia.
Defined.


(** ** The drain loop *)

Lemma deliveries_app (a b : list Event) :
  deliveries (a ++ b) = (deliveries a + deliveries b)%nat.
Proof. unfold deliveries. now rewrite filter_app, length_app. Qed.

(** One iteration of the drain loop on a deliverable packet. *)
Lemma drain_delivers (w : World) (t : CaptureThread) (a : PacketAnswer)
    (q : list PacketAnswer) :
  hCaptureThread (session w) = Some t ->
  pc t = AtDrain ->
  capture_answers (platform w) = a :: q ->
  deliverable a ->
  exists w',
    thread_step w = Ok tt w' /\
    hCaptureThread (session w')
    = Some (set_pc AtDrain
              (set_audio_result (write_result a)
                 (set_audioBuff
                    (mkAudioDataBuffer (pAudioData (audioBuff t))
                       (buffer_filled a) (totalSize (audioBuff t))) t))) /\
    capture_answers (platform w') = q /\
    current_input_state (session w')
    = (if write_result a =? 0 then current_input_state (session w)
       else AUDIO_STATE_STOPPED) /\
    trace (platform w')
    = trace (platform w)
      ++ [EvGetNextPacketSize (size_hr a) (packet_length a);
          EvGetBufferAndCallBackClient (audio_write_cb (session w))
            (user_write_ctx (session w)) (buffer_hr a)]
      ++ (if write_result a =? 0 then []
          else EvStoreInputState AUDIO_STATE_STOPPED
               :: notify_events (session w) AUDIO_STATE_STOPPED).
Proof.
  intros Ht Hpc Hq (Hs & Hl & Hb). apply Z.eqb_neq in Hl.
  destruct w as [d p]. cbn [session platform] in *.
  monad. norm. rewrite Ht. norm. rewrite Hpc. norm. rewrite Hq. norm.
  rewrite Hs. norm. rewrite Hl. norm. rewrite Hb. norm.
  unfold notify_events.
  destruct (write_result a =? 0) eqn:Ew; norm.
  - eexists. split; [reflexivity|]. norm.
    repeat split; try reflexivity. now rewrite <- app_assoc.
  - destruct (is_null (input_state_cb d)) eqn:Ei; norm.
    + eexists. split; [reflexivity|]. norm.
      repeat split; try reflexivity. now rewrite <- !app_assoc.
    + eexists. split; [reflexivity|]. norm.
      repeat split; try reflexivity. now rewrite <- !app_assoc.
Qed.

(** The drain loop finds nothing queued and goes back to the wait. *)
Lemma drain_ends (w : World) (t : CaptureThread) :
  hCaptureThread (session w) = Some t ->
  pc t = AtDrain ->
  capture_answers (platform w) = [] ->
  exists w',
    thread_step w = Ok tt w' /\
    hCaptureThread (session w') = Some (set_pc AtWait t) /\
    current_input_state (session w') = current_input_state (session w) /\
    trace (platform w') = trace (platform w) ++ [EvGetNextPacketSize S_OK 0].
Proof.
  intros Ht Hpc Hq. destruct w as [d p]. cbn [session platform] in *.
  monad. norm. rewrite Ht. norm. rewrite Hpc. norm. rewrite Hq. norm. cbn.
  eexists. split; [reflexivity|]. norm. repeat split; reflexivity.
Qed.

(** A queue of deliverable packets is drained to the end, one delivery per
    packet, before the thread goes back to the wait. *)
Lemma drain_all (q : list PacketAnswer) :
  Forall deliverable q ->
  forall (w : World),
  thread_at w AtDrain ->
  capture_answers (platform w) = q ->
  exists w' body,
    happenings (repeat ThreadRuns (List.length q)) w = Ok tt w' /\
    thread_at w' AtDrain /\
    capture_answers (platform w') = [] /\
    trace (platform w') = trace (platform w) ++ body /\
    deliveries body = List.length q.
Proof.
  induction 1 as [|a q Ha Hq IH]; intros w (t & Ht & Hpc) Hw.
  - exists w, []. cbn. repeat split; try assumption.
    + exists t. now split.
    + now rewrite app_nil_r.
  - destruct (drain_delivers w t a q Ht Hpc Hw Ha)
      as (w1 & Hstep & Ht1 & Hq1 & _ & Htr1).
    destruct (IH w1) as (w' & body & Hrun & Hat & Hq' & Htr' & Hdel).
    { eexists. split; [exact Ht1|reflexivity]. }
    { exact Hq1. }
    eexists w', _. cbn [List.length repeat happenings happen].
    unfold bind at 1. rewrite Hstep. split; [exact Hrun|].
    split; [exact Hat|]. split; [exact Hq'|].
    split.
    + rewrite Htr', Htr1. rewrite <- !app_assoc. reflexivity.
    + rewrite !deliveries_app, Hdel. cbn [app].
      unfold deliveries at 1. cbn [filter is_delivery List.length].
      destruct (write_result a =? 0); cbn.
      * unfold deliveries. cbn. lia.
      * unfold notify_events.
        destruct (is_null _); unfold deliveries; cbn; lia.
Qed.

(** From the drain loop the thread goes back to the wait on no other
    query than one that reports a packet size of zero. *)
Lemma drain_leaves_on_zero (w w' : World) :
  thread_at w AtDrain ->
  thread_step w = Ok tt w' ->
  thread_at w' AtWait ->
  FAILED (size_hr (next_answer w)) = false /\
  packet_length (next_answer w) = 0.
Proof.
  intros (t & Ht & Hpc) Hstep (t' & Ht' & Hpc').
  destruct w as [d p]. unfold next_answer. cbn [session platform] in *.
  revert Hstep. monad_keep_exit. norm. rewrite Ht. norm. rewrite Hpc.
  branch; rewrite ?captureThreadProc_Exit_spec; norm.
  all: intros H; injection H as <-; norm.
  all: cbn [session hCaptureThread set_hCaptureThread] in Ht'.
  all: injection Ht' as <-; cbn in Hpc'; try discriminate.
  all: split; [first [reflexivity | assumption]|].
  all: first [reflexivity | now apply Z.eqb_eq].
Qed.

(** C7: when, in the drain loop, the delivery of a packet leaves a stop
    request of the frame-write callback in audio_result, the same iteration
    stores STOPPED into the persisted state and notifies the input-state
    callback, if one is registered, with STOPPED; the thread stays in the
    drain loop, delivers every packet still queued, and goes back to the
    wait only on the query that reports a packet size of zero. *)
Theorem stop_request_keeps_draining (w : World) (t : CaptureThread)
    (a : PacketAnswer) (q : list PacketAnswer) :
  hCaptureThread (session w) = Some t ->
  pc t = AtDrain ->
  capture_answers (platform w) = a :: q ->
  deliverable a ->
  write_result a <> 0 ->
  Forall deliverable q ->
  exists w1,
    thread_step w = Ok tt w1 /\
    current_input_state (session w1) = AUDIO_STATE_STOPPED /\
    trace (platform w1)
    = trace (platform w)
      ++ [EvGetNextPacketSize (size_hr a) (packet_length a);
          EvGetBufferAndCallBackClient (audio_write_cb (session w))
            (user_write_ctx (session w)) (buffer_hr a);
          EvStoreInputState AUDIO_STATE_STOPPED]
      ++ notify_events (session w) AUDIO_STATE_STOPPED /\
    thread_at w1 AtDrain /\
    capture_answers (platform w1) = q /\
    exists w2 body,
      happenings (repeat ThreadRuns (List.length q)) w1 = Ok tt w2 /\
      trace (platform w2) = trace (platform w1) ++ body /\
      deliveries body = List.length q /\
      thread_at w2 AtDrain /\
      capture_answers (platform w2) = [] /\
      (exists w3,
         thread_step w2 = Ok tt w3 /\
         thread_at w3 AtWait /\
         trace (platform w3)
         = trace (platform w2) ++ [EvGetNextPacketSize S_OK 0]) /\
      (forall v v',
         thread_at v AtDrain -> thread_step v = Ok tt v' ->
         thread_at v' AtWait ->
         packet_length (next_answer v) = 0).
Proof.
  intros Ht Hpc Hq Ha Hw Hrest.
  destruct (drain_delivers w t a q Ht Hpc Hq Ha)
    as (w1 & Hstep & Ht1 & Hq1 & Hst & Htr).
  apply Z.eqb_neq in Hw. rewrite Hw in Hst, Htr.
  exists w1. split; [exact Hstep|]. split; [exact Hst|].
  split; [rewrite Htr; reflexivity|].
  assert (Hat1 : thread_at w1 AtDrain).
  { eexists. split; [exact Ht1|reflexivity]. }
  split; [exact Hat1|]. split; [exact Hq1|].
  destruct (drain_all q Hrest w1 Hat1 Hq1)
    as (w2 & body & Hrun & Hat2 & Hq2 & Htr2 & Hdel).
  exists w2, body. split; [exact Hrun|]. split; [exact Htr2|].
  split; [exact Hdel|]. split; [exact Hat2|]. split; [exact Hq2|].
  destruct Hat2 as (t2 & Ht2 & Hpc2).
  destruct (drain_ends w2 t2 Ht2 Hpc2 Hq2) as (w3 & Hs3 & Ht3 & _ & Htr3).
  split.
  - exists w3. split; [exact Hs3|]. split; [|exact Htr3].
    eexists. split; [exact Ht3|reflexivity].
  - intros v v' Hv Hs Hv'. now apply (drain_leaves_on_zero v v').
Qed.

Lemma stop_request_keeps_draining_witness :
  hCaptureThread (session draining_world)
  = Some (mkCaptureThread AtDrain 301 (mkAudioDataBuffer 401 0 320) 0) /\
  capture_answers (platform draining_world) = [stop_packet; plain_packet] /\
  deliverable stop_packet /\ write_result stop_packet <> 0 /\
  Forall deliverable [plain_packet] /\
  exists w1,
    thread_step draining_world = Ok tt w1 /\
    current_input_state (session w1) = AUDIO_STATE_STOPPED /\
    thread_at w1 AtDrain /\
    capture_answers (platform w1) = [plain_packet].
Proof.
  assert (Ht : hCaptureThread (session draining_world)
               = Some (mkCaptureThread AtDrain 301
                         (mkAudioDataBuffer 401 0 320) 0))
    by (vm_compute; reflexivity).
  assert (Hq : capture_answers (platform draining_world)
               = [stop_packet; plain_packet])
    by (vm_compute; reflexivity).
  assert (Hd : deliverable stop_packet).
  { split; [reflexivity|]. split; [vm_compute; lia | reflexivity]. }
  assert (Hw : write_result stop_packet <> 0) by (vm_compute; lia).
  assert (Hrest : Forall deliverable [plain_packet]).
  { constructor; [|constructor].
    split; [reflexivity|]. split; [vm_compute; lia | reflexivity]. }
  split; [exact Ht|]. split; [exact Hq|]. split; [exact Hd|].
  split; [exact Hw|]. split; [exact Hrest|].
  destruct (stop_request_keeps_draining draining_world _ _ _ Ht eq_refl Hq
              Hd Hw Hrest)
    as (w1 & Hstep & Hst & _ & Hat & Hq1 & _).
  exists w1. repeat split; assumption.
Defined.


(** ** A session without an input-state callback *)




(** ** The exit path *)

Lemma app_split_tail {A} (x pre ev e e' : list A) :
  x = pre ++ ev -> e = e' -> x ++ e = pre ++ ev ++ e'.
Proof. intros -> ->. now rewrite app_assoc. Qed.

(** A step of a thread that is in its code: it stays in the loop without
    deleting anything, or it runs the code at the Exit label, once, as the
    last thing it does, or it is aborted by an exception, having deleted
    nothing. *)
Lemma thread_step_cases (w : World) (t : CaptureThread) :
  hCaptureThread (session w) = Some t ->
  pc t <> Returned ->
  pc t <> Aborted ->
  pAudioInputClient (spCapture (session w)) <> nullptr ->
  exists w' t' tr',
    thread_step w = Ok tt w' /\
    hCaptureThread (session w') = Some t' /\
    trace (platform w') = tr' /\
    spCapture (session w') = spCapture (session w) /\
    input_state_cb (session w') = input_state_cb (session w) /\
    user_inputctx (session w') = user_inputctx (session w) /\
    exists ev t0,
      ((t' = t0 /\ pc t' <> Returned /\ pc t' <> Aborted /\
        pc t' <> AtEntry /\
        tr' = trace (platform w) ++ ev /\
        owns_buffer (pAudioData (audioBuff t)) ev t0)
       \/
       (t' = exit_thread t0 /\
        current_input_state (session w') = AUDIO_STATE_STOPPED /\
        tr' = trace (platform w) ++ ev ++ exit_events (session w) t0 /\
        owns_buffer (pAudioData (audioBuff t)) ev t0)
       \/
       (t' = t0 /\ pc t' = Aborted /\ pc t = AtEntry /\
        current_input_state (session w') = AUDIO_STATE_RUNNING /\
        tr' = trace (platform w) ++ ev)) /\
      filter is_delete ev = [] /\
      (pc t <> AtEntry -> allocations ev = []).
Proof.
  intros Ht Hpc Hpa Hc. apply is_null_false in Hc.
  destruct w as [d p]. cbn [session platform] in *.
  monad_keep_exit. norm. rewrite Ht. norm.
  destruct (pc t) eqn:Epc; [| | |congruence|congruence]; clear Hpc Hpa.
  all: branch; rewrite ?captureThreadProc_Exit_spec; norm.
  all: eexists _, _, _; (split; [reflexivity|]); norm.
  all: (split; [reflexivity|]); (split; [reflexivity|]).
  all: (split; [reflexivity|]).
  all: (split; [reflexivity|]); (split; [reflexivity|]).
  all: eexists _, _; split;
    [ first
        [ left; split; [reflexivity|];
          split; [norm; congruence|]; split; [norm; congruence|];
          split; [norm; congruence|];
          split; [extends|];
          unfold owns_buffer; cbn; split; [lia | reflexivity]
        | right; left; split; [reflexivity|]; split; [reflexivity|];
          split;
          [ first [ apply app_split_tail; [extends | reflexivity]
                  | rewrite <- (app_nil_l (exit_events _ _)) at 1;
                    rewrite app_nil_l; reflexivity ]
          | unfold owns_buffer; cbn; split; [lia | reflexivity] ]
        | right; right; split; [reflexivity|]; split; [reflexivity|];
          split; [reflexivity|]; split; [reflexivity|]; extends ]
    | ].
  all: split; [reflexivity|].
  all: first [ intros H; congruence | intros _; reflexivity ].
Qed.

Lemma exit_events_session (d d' : AUDIO_SYS_DATA) (t : CaptureThread) :
  input_state_cb d' = input_state_cb d ->
  user_inputctx d' = user_inputctx d ->
  exit_events d' t = exit_events d t.
Proof. intros H1 H2. unfold exit_events. now rewrite H1, H2. Qed.

Lemma allocations_app (a b : list Event) :
  allocations (a ++ b) = allocations a ++ allocations b.
Proof.
  induction a as [|e a IH]; [reflexivity|].
  destruct e; cbn; rewrite ?IH; reflexivity.
Qed.

Lemma exit_events_one_delete (d : AUDIO_SYS_DATA) (t : CaptureThread) :
  filter is_delete (exit_events d t) = [EvDeleteArray (pAudioData (audioBuff t))].
Proof.
  unfold exit_events.
  destruct (is_null (input_state_cb d)), (is_null (pCaptureClient t));
    reflexivity.
Qed.

Lemma exit_events_callbacks (d : AUDIO_SYS_DATA) (t : CaptureThread) :
  filter is_callback (exit_events d t) = notify_events d AUDIO_STATE_STOPPED.
Proof.
  unfold exit_events, notify_events.
  destruct (is_null (input_state_cb d)), (is_null (pCaptureClient t));
    reflexivity.
Qed.

(** A thread that has returned makes no further step. *)
Lemma thread_step_returned (w : World) (t : CaptureThread) :
  hCaptureThread (session w) = Some t ->
  pc t = Returned ->
  exists w',
    thread_step w = Ok tt w' /\
    hCaptureThread (session w') = Some t /\
    platform w' = platform w /\
    spCapture (session w') = spCapture (session w) /\
    input_state_cb (session w') = input_state_cb (session w) /\
    user_inputctx (session w') = user_inputctx (session w) /\
    current_input_state (session w') = current_input_state (session w).
Proof.
  intros Ht Hpc. destruct w as [d p]. cbn [session platform] in *.
  monad. norm. rewrite Ht. norm. rewrite Hpc.
  eexists. split; [reflexivity|]. norm. repeat split; reflexivity.
Qed.

Lemma owns_buffer_extend (held : ptr) (body ev : list Event)
    (t t0 : CaptureThread) :
  owns_buffer held body t ->
  (pc t = AtEntry -> allocations body = []) ->
  owns_buffer (pAudioData (audioBuff t)) ev t0 ->
  (pc t <> AtEntry -> allocations ev = []) ->
  owns_buffer held (body ++ ev) t0.
Proof.
  intros [Hlen Hbuf] Hentry [Hlen' Hbuf'] Hloop. unfold owns_buffer.
  rewrite allocations_app.
  destruct (ProgramPoint_eqb (pc t) AtEntry) eqn:E.
  - assert (Hpc : pc t = AtEntry) by (destruct (pc t); cbn in E; congruence).
    specialize (Hentry Hpc). rewrite Hentry in *. cbn [app].
    split; [exact Hlen'|]. rewrite Hbuf', Hbuf. reflexivity.
  - assert (Hpc : pc t <> AtEntry)
      by (intros Hc; rewrite Hc in E; discriminate).
    rewrite (Hloop Hpc) in *. rewrite app_nil_r.
    split; [exact Hlen|]. rewrite Hbuf'. exact Hbuf.
Qed.

(** A thread that was aborted makes no further step. *)
Lemma thread_step_aborted (w : World) (t : CaptureThread) :
  hCaptureThread (session w) = Some t ->
  pc t = Aborted ->
  thread_step w = Ok tt w.
Proof.
  intros Ht Hpc. destruct w as [d p]. cbn [session platform] in *.
  monad. norm. rewrite Ht. norm. rewrite Hpc.
  f_equal. f_equal. destruct d; cbn in *. now rewrite Ht.
Qed.

Lemma happen_history (held : ptr) (w0 w w' : World) (e : Happening) :
  pAudioInputClient (spCapture (session w0)) <> nullptr ->
  thread_history held w0 w ->
  happen e w = Ok tt w' ->
  thread_history held w0 w'.
Proof.
  intros Hc0 (Hcap & Hcb & Hctx & body & t & Htr & Ht & Hcase) Hstep.
  destruct e; cbn [happen] in Hstep.
  - (* the thread steps *)
    destruct Hcase as [(Hpc & Hpa & Hdel & Hown & Hentry)
                      | [(body0 & t0 & -> & -> & Hdel & Hown & Hst)
                        | (Hpa & Hdel)]].
    + assert (Hc : pAudioInputClient (spCapture (session w)) <> nullptr)
        by (rewrite Hcap; exact Hc0).
      destruct (thread_step_cases w t Ht Hpc Hpa Hc)
        as (w1 & t' & tr' & Hs & Ht' & Htr' & Hcap' & Hcb' & Hctx' & ev & t1
            & Hcases & Hdel' & Hloop).
      rewrite Hs in Hstep. injection Hstep as <-.
      split; [congruence|]. split; [congruence|]. split; [congruence|].
      destruct Hcases as [(-> & Hp1 & Hp2 & Hp3 & -> & Hown1)
                         | [(-> & Hst & -> & Hown1)
                           | (-> & Hp1 & _ & _ & ->)]].
      * exists (body ++ ev), t1. rewrite Htr', Htr, <- app_assoc.
        split; [reflexivity|]. split; [exact Ht'|]. left.
        split; [exact Hp1|]. split; [exact Hp2|].
        split; [rewrite filter_app, Hdel, Hdel'; reflexivity|].
        split; [|congruence].
        exact (owns_buffer_extend held body ev t t1 Hown Hentry Hown1 Hloop).
      * exists (body ++ ev ++ exit_events (session w) t1), (exit_thread t1).
        rewrite Htr', Htr, <- app_assoc.
        split; [reflexivity|]. split; [exact Ht'|]. right. left.
        exists (body ++ ev), t1.
        rewrite (exit_events_session (session w0) (session w) t1 Hcb Hctx).
        split; [now rewrite app_assoc|]. split; [reflexivity|].
        split; [rewrite filter_app, Hdel, Hdel'; reflexivity|].
        split; [|exact Hst].
        exact (owns_buffer_extend held body ev t t1 Hown Hentry Hown1 Hloop).
      * exists (body ++ ev), t1. rewrite Htr', Htr, <- app_assoc.
        split; [reflexivity|]. split; [exact Ht'|]. right. right.
        split; [exact Hp1|]. rewrite filter_app, Hdel, Hdel'. reflexivity.
    + destruct (thread_step_returned w (exit_thread t0) Ht eq_refl)
        as (w1 & Hs & Ht' & Hp & Hcap' & Hcb' & Hctx' & Hst').
      rewrite Hs in Hstep. injection Hstep as <-.
      split; [congruence|]. split; [congruence|]. split; [congruence|].
      exists (body0 ++ exit_events (session w0) t0), (exit_thread t0).
      rewrite Hp. split; [exact Htr|]. split; [exact Ht'|]. right. left.
      exists body0, t0. repeat split; try assumption; try apply Hown.
      congruence.
    + rewrite (thread_step_aborted w t Ht Hpa) in Hstep.
      injection Hstep as <-.
      split; [exact Hcap|]. split; [exact Hcb|]. split; [exact Hctx|].
      exists body, t. split; [exact Htr|]. split; [exact Ht|].
      right. right. split; assumption.
  - destruct w as [d p].
    unfold load_capture, load, update_platform, bind in Hstep.
    injection Hstep as <-. cbn [session platform] in *.
    split; [exact Hcap|]. split; [exact Hcb|]. split; [exact Hctx|].
    exists body, t. cbn. split; [exact Htr|]. split; [exact Ht|]. exact Hcase.
  - destruct w as [d p]. unfold update_platform in Hstep.
    injection Hstep as <-. cbn [session platform] in *.
    split; [exact Hcap|]. split; [exact Hcb|]. split; [exact Hctx|].
    exists body, t. cbn. split; [exact Htr|]. split; [exact Ht|]. exact Hcase.
  - destruct w as [d p]. unfold update_platform in Hstep.
    injection Hstep as <-. cbn [session platform] in *.
    split; [exact Hcap|]. split; [exact Hcb|]. split; [exact Hctx|].
    exists body, t. cbn. split; [exact Htr|]. split; [exact Ht|]. exact Hcase.
Qed.

Lemma happenings_history (held : ptr) (es : list Happening) :
  forall (w0 w w' : World),
  pAudioInputClient (spCapture (session w0)) <> nullptr ->
  thread_history held w0 w ->
  happenings es w = Ok tt w' ->
  thread_history held w0 w'.
Proof.
  induction es as [|e es IH]; intros w0 w w' Hc Hh Hrun.
  - cbn in Hrun. injection Hrun as <-. exact Hh.
  - cbn [happenings] in Hrun. unfold bind in Hrun.
    destruct (happen e w) as [[] w1| |] eqn:He; try discriminate.
    eapply IH; [exact Hc| |exact Hrun]. eapply happen_history; eassumption.
Qed.

(** Each way of reaching the Exit label: a failed service acquisition, a
    wait result other than "buffer ready" (the shutdown signal among
    them), a failed packet-size query and a failed buffer retrieval all
    run the code at the Exit label in that very step. *)
Lemma every_cause_reaches_Exit (w : World) (t : CaptureThread) :
  hCaptureThread (session w) = Some t ->
  pAudioInputClient (spCapture (session w)) <> nullptr ->
  leaves_loop w t ->
  exists w' t0 ev,
    thread_step w = Ok tt w' /\
    hCaptureThread (session w') = Some (exit_thread t0) /\
    current_input_state (session w') = AUDIO_STATE_STOPPED /\
    trace (platform w')
    = trace (platform w) ++ ev ++ exit_events (session w) t0 /\
    filter is_delete ev = [].
Proof.
  intros Ht Hc Hcause. apply is_null_false in Hc.
  destruct w as [d p]. cbn [session platform] in *.
  monad_keep_exit. norm. rewrite Ht. norm.
  destruct Hcause as [Hpc Hs | r k' Hpc HW Hr
                     | a q Hpc Hq Hs | a q Hpc Hq Hs Hl Hb];
    rewrite Hpc; norm.
  - destruct (is_null (input_state_cb d)); norm; rewrite Hc; norm;
      rewrite Hs; norm; rewrite captureThreadProc_Exit_spec; norm.
    all: eexists _, _, _; split; [reflexivity|]; norm.
    all: split; [reflexivity|]; split; [reflexivity|].
    all: split; [apply app_split_tail; [extends | reflexivity] | reflexivity].
  - rewrite HW. norm.
    assert (E : (WAIT_OBJECT_0 + 1 =? r) = false)
      by (apply Z.eqb_neq; congruence).
    rewrite E. rewrite captureThreadProc_Exit_spec; norm.
    eexists _, _, _; split; [reflexivity|]; norm.
    split; [reflexivity|]; split; [reflexivity|].
    split; [apply app_split_tail; [extends | reflexivity] | reflexivity].
  - rewrite Hq. norm. rewrite Hs. rewrite captureThreadProc_Exit_spec; norm.
    eexists _, _, _; split; [reflexivity|]; norm.
    split; [reflexivity|]; split; [reflexivity|].
    split; [apply app_split_tail; [extends | reflexivity] | reflexivity].
  - apply Z.eqb_neq in Hl.
    rewrite Hq. norm. rewrite Hs, Hl. norm. rewrite Hb.
    rewrite captureThreadProc_Exit_spec; norm.
    eexists _, _, _; split; [reflexivity|]; norm.
    split; [reflexivity|]; split; [reflexivity|].
    split; [apply app_split_tail; [extends | reflexivity] | reflexivity].
Qed.

(** ** Joining the thread *)

Lemma frame_refl (w : World) : frame w w.
Proof. constructor; try reflexivity. exists []. now rewrite app_nil_r. Qed.

Lemma frame_trans (w1 w2 w3 : World) :
  frame w1 w2 -> frame w2 w3 -> frame w1 w3.
Proof.
  intros [] []. constructor; try congruence.
  destruct fr_trace0 as [b1 H1], fr_trace1 as [b2 H2].
  exists (b1 ++ b2). rewrite H2, H1. now rewrite app_assoc.
Qed.

Lemma thread_step_frame (w : World) :
  pAudioInputClient (spCapture (session w)) <> nullptr ->
  exists w', thread_step w = Ok tt w' /\ frame w w'.
Proof.
  intros Hc. apply is_null_false in Hc.
  destruct w as [d p]. monad. norm.
  destruct (hCaptureThread d) as [t|] eqn:Ht.
  2:{ eexists; split; [reflexivity|]. apply frame_refl. }
  branch.
  all: eexists; (split; [reflexivity|]).
  all: constructor; cbn; try reflexivity.
  all: eexists; extends.
Qed.

(** A step of a thread in its loop whose wait exits brings it nearer to
    its return. *)
Lemma thread_step_progress (w : World) (t : CaptureThread) :
  hCaptureThread (session w) = Some t ->
  pc t = AtWait \/ pc t = AtDrain ->
  pAudioInputClient (spCapture (session w)) <> nullptr ->
  wait_exits w ->
  exists w' t',
    thread_step w = Ok tt w' /\
    hCaptureThread (session w') = Some t' /\
    (remaining_steps w' < remaining_steps w)%nat /\
    (pc t' = Returned ->
     current_input_state (session w') = AUDIO_STATE_STOPPED) /\
    (pc t' <> Returned ->
     (pc t' = AtWait \/ pc t' = AtDrain) /\ wait_exits w').
Proof.
  intros Ht Hpc Hc (r & k' & HW & Hr). apply is_null_false in Hc.
  destruct w as [d p].
  unfold remaining_steps, wait_exits. cbn [session platform] in *.
  monad_keep_exit. norm. rewrite Ht. norm.
  destruct Hpc as [Epc | Epc]; rewrite Epc.
  1: norm; rewrite HW; norm; rewrite Hr.
  all: branch; rewrite ?captureThreadProc_Exit_spec; norm.
  all: eexists _, _; (split; [reflexivity|]); norm.
  all: (split; [reflexivity|]); norm.
  all: split; [cbn; lia|].
  all: split; [ first [ reflexivity | intros; discriminate ] | ].
  all: first [ intros Hnr; exfalso; apply Hnr; reflexivity
             | intros _; split;
               [ first [left; reflexivity | right; reflexivity]
               | exists r, k'; split; assumption ] ].
Qed.

Lemma run_thread_done (n : nat) (w : World) :
  has_returned w = true -> run_thread n w = Ok tt w.
Proof. intros H. destruct n; cbn; rewrite H; reflexivity. Qed.

(** Left alone, a thread in its loop whose wait exits returns, and it has
    set the state to STOPPED on its way out. *)
Lemma run_thread_exits (n : nat) :
  forall (w : World) (t : CaptureThread),
  hCaptureThread (session w) = Some t ->
  pc t <> AtEntry -> pc t <> Aborted ->
  pAudioInputClient (spCapture (session w)) <> nullptr ->
  wait_exits w ->
  (remaining_steps w <= n)%nat ->
  exists w' t',
    run_thread n w = Ok tt w' /\
    hCaptureThread (session w') = Some t' /\
    pc t' = Returned /\
    frame w w' /\
    (pc t <> Returned ->
     current_input_state (session w') = AUDIO_STATE_STOPPED).
Proof.
  induction n as [|n IH]; intros w t Ht Hne Hna Hc HW Hn.
  - assert (Hpc : pc t = Returned).
    { unfold remaining_steps in Hn. rewrite Ht in Hn.
      destruct (pc t); cbn in Hn; try lia; congruence. }
    exists w, t. rewrite run_thread_done.
    + split; [reflexivity|]. split; [exact Ht|]. split; [exact Hpc|].
      split; [apply frame_refl | congruence].
    + unfold has_returned. now rewrite Ht, Hpc.
  - destruct (ProgramPoint_eqb (pc t) Returned) eqn:E.
    + assert (Hpc : pc t = Returned) by (destruct (pc t); cbn in E; congruence).
      exists w, t. rewrite run_thread_done.
      * split; [reflexivity|]. split; [exact Ht|]. split; [exact Hpc|].
        split; [apply frame_refl | congruence].
      * unfold has_returned. now rewrite Ht, Hpc.
    + assert (Hpc : pc t = AtWait \/ pc t = AtDrain)
        by (destruct (pc t); cbn in E; try congruence; auto).
      destruct (thread_step_progress w t Ht Hpc Hc HW)
        as (w1 & t1 & Hs & Ht1 & Hlt & Hst & HW1).
      destruct (thread_step_frame w Hc) as (w1' & Hs' & Hfr).
      rewrite Hs in Hs'. injection Hs' as <-.
      cbn [run_thread]. unfold has_returned. rewrite Ht, E.
      unfold bind. rewrite Hs.
      destruct (ProgramPoint_eqb (pc t1) Returned) eqn:E1.
      * assert (Hpc1 : pc t1 = Returned)
          by (destruct (pc t1); cbn in E1; congruence).
        exists w1, t1. rewrite run_thread_done.
        -- split; [reflexivity|]. split; [exact Ht1|]. split; [exact Hpc1|].
           split; [exact Hfr|]. intros _. now apply Hst.
        -- unfold has_returned. now rewrite Ht1, E1.
      * assert (Hpc1 : pc t1 <> Returned)
          by (intros Heq; rewrite Heq in E1; discriminate).
        assert (Hc1 : pAudioInputClient (spCapture (session w1)) <> nullptr)
          by (destruct Hfr as [Hcap]; rewrite Hcap; exact Hc).
        destruct (HW1 Hpc1) as [Hin1 HW1'].
        destruct (IH w1 t1 Ht1) as (w2 & t2 & Hr & Ht2 & Hp2 & Hf2 & Hst2);
          [ destruct Hin1 as [E2 | E2]; rewrite E2; discriminate
          | destruct Hin1 as [E2 | E2]; rewrite E2; discriminate
          | exact Hc1 | exact HW1' | lia |].
        exists w2, t2. split; [exact Hr|]. split; [exact Ht2|].
        split; [exact Hp2|]. split; [eapply frame_trans; eassumption|].
        intros _. now apply Hst2.
Qed.

Lemma valid_handle_store (k : Kernel) (h h' : HANDLE) (b : bool) :
  valid_handle (event_store k h b) h' = valid_handle k h'.
Proof.
  unfold valid_handle. rewrite event_state_store.
  destruct (h' =? h) eqn:E; [|reflexivity].
  apply Z.eqb_eq in E. subst h'. now destruct (event_state k h).
Qed.

(** Once SetEvent has been called on the shutdown handle, the wait of the
    capture thread returns with a result other than "buffer ready": the
    shutdown event is signalled and has the smaller index, or one of the
    handles is not an event and the wait fails. *)
Lemma SetEvent_wait_exits (k : Kernel) (hExit hReady : HANDLE) :
  exists r k',
    WaitForMultipleObjects (SetEvent k hExit) [hExit; hReady]
    = Some (r, k') /\
    (WAIT_OBJECT_0 + 1 =? r) = false.
Proof.
  unfold SetEvent, WaitForMultipleObjects. cbn [forallb].
  destruct (valid_handle k hExit) eqn:Vx.
  - rewrite !valid_handle_store, Vx. cbn [andb].
    destruct (valid_handle k hReady) eqn:Vr; cbn [andb].
    + cbn [first_signalled]. rewrite event_state_store, Z.eqb_refl.
      unfold valid_handle in Vx.
      destruct (event_state k hExit); [|now rewrite andb_false_r in Vx].
      eexists _, _. split; reflexivity.
    + eexists _, _. split; reflexivity.
  - rewrite Vx. cbn [andb]. eexists _, _. split; reflexivity.
Qed.

(** audio_input_stop on a RUNNING session that has a client and whose
    thread, if it has one, is past its entry. *)
Lemma audio_input_stop_running (d : AUDIO_SYS_DATA) (p : Platform) :
  current_input_state d = AUDIO_STATE_RUNNING ->
  pAudioInputClient (spCapture d) <> nullptr ->
  (forall t, hCaptureThread d = Some t ->
     pc t <> AtEntry /\ pc t <> Aborted) ->
  exists d' p' body,
    audio_input_stop (Some d) p = Ok (AUDIO_RESULT_OK, Some d') p' /\
    hCaptureThread d' = None /\
    client_started p' = false /\
    trace p'
    = trace p
      ++ [EvClientStop; EvSetEvent (hCaptureThreadShouldExit (spCapture d))]
      ++ body
      ++ (match hCaptureThread d with
          | Some _ => [EvThreadJoin]
          | None => []
          end) /\
    (hCaptureThread d = None -> body = []) /\
    (forall t, hCaptureThread d = Some t -> pc t <> Returned ->
     current_input_state d' = AUDIO_STATE_STOPPED) /\
    spCapture d' = spCapture d /\
    audio_write_cb d' = audio_write_cb d /\
    input_state_cb d' = input_state_cb d /\
    user_inputctx d' = user_inputctx d /\
    GetService_answer p' = GetService_answer p /\
    new_answer p' = new_answer p /\
    native_handle_answer p' = native_handle_answer p /\
    Start_answer p' = Start_answer p.
Proof.
  intros Hst Hc Hin. apply is_null_false in Hc.
  unfold audio_input_stop. rewrite Hst. cbn [AUDIO_STATE_eqb negb].
  unfold on_session, Stop_client.
  cbv beta iota zeta delta [emit load_capture load ask update_session
    update_platform bind ret fault]. norm. rewrite Hc. norm.
  destruct (hCaptureThread d) as [t|] eqn:Ht.
  2:{ eexists _, _, []. split; [reflexivity|]. norm. cbn.
      rewrite <- !app_assoc.
      split; [exact Ht|]. split; [reflexivity|]. split; [reflexivity|].
      split; [reflexivity|]. split; [intros; discriminate|].
      repeat split; reflexivity. }
  unfold join.
  cbv beta iota zeta delta [emit load_capture load ask update_session
    update_platform bind ret fault]. norm.
  set (w1 := mkWorld d _).
  assert (Ht1 : hCaptureThread (session w1) = Some t) by exact Ht.
  assert (HW : wait_exits w1).
  { unfold wait_exits, w1. norm. apply SetEvent_wait_exits. }
  assert (Hc1 : pAudioInputClient (spCapture (session w1)) <> nullptr)
    by (apply is_null_false; exact Hc).
  destruct (Hin t eq_refl) as [Hne Hna].
  destruct (run_thread_exits (4 + List.length (capture_answers p)) w1 t
              Ht1 Hne Hna Hc1 HW)
    as (w2 & t2 & Hrun & Ht2 & Hpc2 & Hfr & Hstop).
  { unfold remaining_steps. rewrite Ht1. unfold w1. norm.
    destruct (pc t); cbn; lia. }
  rewrite Hrun. destruct Hfr. destruct fr_trace0 as [body Hbody].
  unfold w1 in *. cbn [session platform] in *.
  exists (set_hCaptureThread None (session w2)).
  eexists. exists body. split; [reflexivity|]. norm.
  split; [reflexivity|]. cbn.
  split; [rewrite fr_started0; reflexivity|].
  split; [rewrite Hbody; cbn; now rewrite <- !app_assoc|].
  split; [discriminate|].
  split; [intros t0 Ht0 Hp0; injection Ht0 as <-; now apply Hstop|].
  repeat split; assumption.
Qed.

(** ** Creation, registration and options leave thread and state alone *)

Lemma audio_create_fresh (a : Activation) (p0 p : Platform)
    (d : AUDIO_SYS_DATA) :
  audio_create a p0 = Ok (Some d) p ->
  hCaptureThread d = None /\
  current_input_state d = AUDIO_STATE_STOPPED.
Proof.
  unfold audio_create.
  match goal with
  | |- context [audio_input_create a ?w0] =>
      destruct (audio_input_create a w0) as [hr w| |] eqn:E;
        try discriminate
  end.
  destruct (FAILED hr).
  { destruct (delete_audioData (handler_released a) w) as [[] w'| |];
      discriminate. }
  intros H. injection H as <- <-. revert E.
  unfold audio_input_create.
  cbv beta iota zeta delta [ActivateCompleted ActivateCompleted_Exit
    EXIT_ON_ERROR EXIT_ON_ERROR_IF Release_client promise_set_value
    update_capture load_capture load ask update_session update_platform emit
    bind ret fault].
  norm. destruct (WASAPICapture_ctor a (kernel p0)) as [capture k].
  branch; intros H; try discriminate.
  all: injection H as <- <-; split; reflexivity.
Qed.

Lemma audio_setcallbacks_keeps (d d' : AUDIO_SYS_DATA) (r : AUDIO_RESULT)
    (ocb octx icb ictx wcb wctx ecb ectx : ptr) :
  audio_setcallbacks (Some d) ocb octx icb ictx wcb wctx ecb ectx
  = (r, Some d') ->
  hCaptureThread d' = hCaptureThread d /\
  spCapture d' = spCapture d /\
  current_input_state d' = current_input_state d /\
  (r = AUDIO_RESULT_OK -> audio_write_cb d' <> nullptr).
Proof.
  unfold audio_setcallbacks.
  destruct (is_null wcb) eqn:E; cbn [negb]; intros H; injection H as <- <-.
  - repeat split; try reflexivity. discriminate.
  - cbn. repeat split; try reflexivity. intros _. now apply is_null_false.
Qed.

Lemma audio_set_options_keeps (n1 n2 name : string) (value : option Pointee)
    (d d' : AUDIO_SYS_DATA) (r : AUDIO_RESULT) :
  audio_set_options n1 n2 (Some d) name value = Some (r, Some d') ->
  hCaptureThread d' = hCaptureThread d /\
  spCapture d' = spCapture d /\
  current_input_state d' = current_input_state d.
Proof.
  unfold audio_set_options, STRING_construct, STRING_copy.
  destruct (String.eqb n1 name), (String.eqb n2 name),
    (hDeviceName d), value as [[i|cs]|]; cbn; intros H;
    try discriminate; injection H as <- <-; repeat split; reflexivity.
Qed.

(** ** audio_input_start *)

(** audio_input_start never stores to current_input_state; it leaves the
    thread alone or, when there is none, creates one that has not run. *)
Lemma audio_input_start_keeps_state (d : AUDIO_SYS_DATA) (p p' : Platform)
    (r : AUDIO_RESULT) (h : AUDIO_SYS_HANDLE) :
  audio_input_start (Some d) p = Ok (r, h) p' ->
  exists d',
    h = Some d' /\
    current_input_state d' = current_input_state d /\
    spCapture d' = spCapture d /\
    (hCaptureThread d' = hCaptureThread d \/
     (hCaptureThread d = None /\
      hCaptureThread d' = Some new_thread /\
      current_input_state d <> AUDIO_STATE_RUNNING /\
      pAudioInputClient (spCapture d) <> nullptr /\
      hBufferReady (spCapture d) <> nullptr)).
Proof.
  unfold audio_input_start, on_session, audio_input_start_stream,
    audio_input_start_Exit.
  cbv beta iota zeta delta [EXIT_ON_ERROR_IF emit load_capture load ask
    update_session update_platform bind ret fault].
  norm.
  destruct (is_null (hBufferReady (spCapture d))) eqn:Eb.
  { intros H; injection H as <- <- <-. exists d. repeat split; now left. }
  destruct (is_null (audio_write_cb d)) eqn:Ew; cbn [orb].
  { intros H; injection H as <- <- <-. exists d. repeat split; now left. }
  destruct (is_null (pAudioInputClient (spCapture d))) eqn:Ec; cbn [orb].
  { intros H; injection H as <- <- <-. exists d. repeat split; now left. }
  destruct (AUDIO_STATE_eqb_spec (current_input_state d) AUDIO_STATE_RUNNING)
    as [Er|Er].
  { intros H; injection H as <- <- <-. exists d. repeat split; now left. }
  apply is_null_false in Eb. pose proof Ec as Ec'. apply is_null_false in Ec'.
  destruct (hCaptureThread d) as [t|] eqn:Ht; norm; rewrite ?Ec; branch.
  all: intros H; injection H as <- <- <-.
  all: eexists; split; [reflexivity|]; norm.
  all: split; [reflexivity|]; split; [reflexivity|].
  all: first [ left; cbn; congruence
             | right; repeat split; first [assumption | reflexivity] ].
Qed.

(** On a session that passes the checks and has no thread yet,
    audio_input_start creates the thread and starts the stream. *)
Lemma audio_input_start_spawns (d : AUDIO_SYS_DATA) (p : Platform) :
  hCaptureThread d = None ->
  current_input_state d <> AUDIO_STATE_RUNNING ->
  startable d p ->
  audio_input_start (Some d) p
  = Ok (AUDIO_RESULT_OK, Some (set_hCaptureThread (Some new_thread) d))
      (set_client_started true
         (set_trace (trace p ++ [EvThreadCreate; EvClientStart S_OK]) p)).
Proof.
  intros Ht Hst (Hb & Hw & Hc & Hn & Hs & _).
  apply is_null_false in Hb, Hw, Hc, Hn.
  unfold audio_input_start, on_session, audio_input_start_stream,
    audio_input_start_Exit.
  cbv beta iota zeta delta [EXIT_ON_ERROR_IF emit load_capture load ask
    update_session update_platform bind ret fault].
  norm. rewrite Hb, Hw, Hc. cbn [orb].
  destruct (AUDIO_STATE_eqb_spec (current_input_state d) AUDIO_STATE_RUNNING)
    as [Er|Er]; [contradiction|].
  rewrite Ht. norm. rewrite Hn. norm. rewrite Hc. norm. rewrite Hs. cbn.
  now rewrite <- app_assoc.
Qed.

(** The entry of a new thread stores RUNNING and reaches the wait when
    the service and the buffer are obtained. *)
Lemma captureThreadProc_entry_runs (w : World) :
  hCaptureThread (session w) = Some new_thread ->
  pAudioInputClient (spCapture (session w)) <> nullptr ->
  FAILED (fst (GetService_answer (platform w))) = false ->
  new_answer (platform w) <> nullptr ->
  exists w' t',
    thread_step w = Ok tt w' /\
    current_input_state (session w') = AUDIO_STATE_RUNNING /\
    hCaptureThread (session w') = Some t' /\ pc t' = AtWait /\
    frame w w'.
Proof.
  intros Ht Hc Hs Hn. apply is_null_false in Hn.
  destruct (thread_step_frame w Hc) as (w' & Hstep & Hfr).
  apply is_null_false in Hc.
  exists w'. destruct w as [d p]. cbn [session platform] in *.
  revert Hstep. monad. norm. rewrite Ht. unfold new_thread. norm.
  destruct (is_null (input_state_cb d)); norm; rewrite Hc; norm;
    rewrite Hs; norm; rewrite Hn; norm; rewrite Hn; norm;
    intros H; injection H as <-.
  all: eexists; split; [reflexivity|]; norm.
  all: split; [reflexivity|]; split; [reflexivity|]; split;
    [reflexivity|exact Hfr].
Qed.

(** ** The invariant of reachable worlds *)

Lemma thread_step_idle (w : World) :
  hCaptureThread (session w) = None ->
  thread_step w = Ok tt w.
Proof.
  intros Ht. destruct w as [d p]. cbn [session] in Ht.
  monad. norm. now rewrite Ht.
Qed.

Lemma happen_inv (e : Happening) (w w' : World) :
  session_inv w ->
  happen e w = Ok tt w' ->
  process_ended w' = false ->
  session_inv w'.
Proof.
  intros Hinv Hstep Halive. destruct e; cbn [happen] in Hstep.
  - destruct (hCaptureThread (session w)) as [t|] eqn:Ht.
    2:{ rewrite (thread_step_idle w Ht) in Hstep. injection Hstep as <-.
        exact Hinv. }
    destruct Hinv as [I1 I2].
    destruct (I1 t Ht) as [Hc _].
    destruct (thread_step_frame w Hc) as (w1 & Hs1 & Hfr).
    rewrite Hs1 in Hstep. injection Hstep as <-. destruct Hfr.
    destruct (ProgramPoint_eqb (pc t) Returned) eqn:E.
    + assert (Hpc : pc t = Returned) by (destruct (pc t); cbn in E; congruence).
      destruct (thread_step_returned w t Ht Hpc)
        as (w2 & Hs2 & Ht2 & _ & _ & _ & _ & Hst2).
      rewrite Hs1 in Hs2. injection Hs2 as <-.
      split.
      * intros t0 _. rewrite fr_capture0. now apply (I1 t).
      * intros Hr. rewrite Hst2 in Hr.
        destruct (I2 Hr) as (t0 & Ht0 & _ & Hn & _).
        congruence.
    + assert (Hpc : pc t <> Returned)
        by (intros Heq; rewrite Heq in E; discriminate).
      destruct (ProgramPoint_eqb (pc t) Aborted) eqn:E'.
      { assert (Hpa : pc t = Aborted)
          by (destruct (pc t); cbn in E'; congruence).
        rewrite (thread_step_aborted w t Ht Hpa) in Hs1.
        injection Hs1 as <-. split; assumption. }
      assert (Hpa : pc t <> Aborted)
        by (intros Heq; rewrite Heq in E'; discriminate).
      destruct (thread_step_cases w t Ht Hpc Hpa Hc)
        as (w2 & t' & tr' & Hs2 & Ht' & _ & _ & _ & _ & ev & t0 & Hcases
            & _).
      rewrite Hs1 in Hs2. injection Hs2 as <-.
      split.
      * intros t1 _. rewrite fr_capture0. now apply (I1 t).
      * intros Hr.
        destruct Hcases as [(-> & Hp1 & Hp2 & Hp3 & _)
                           | [(_ & Hst & _) | (-> & Hp1 & _)]].
        -- exists t0. repeat split; assumption.
        -- congruence.
        -- unfold process_ended in Halive. rewrite Ht', Hp1 in Halive.
           discriminate.
  - destruct w as [d p].
    unfold load_capture, load, update_platform, bind in Hstep.
    injection Hstep as <-. exact Hinv.
  - destruct w as [d p]. unfold update_platform in Hstep.
    injection Hstep as <-. exact Hinv.
  - destruct w as [d p]. unfold update_platform in Hstep.
    injection Hstep as <-. exact Hinv.
Qed.

Lemma audio_input_stop_not_running (d : AUDIO_SYS_DATA) (p : Platform) :
  current_input_state d <> AUDIO_STATE_RUNNING ->
  audio_input_stop (Some d) p = Ok (AUDIO_RESULT_INVALID_STATE, Some d) p.
Proof.
  intros Hst. unfold audio_input_stop.
  destruct (AUDIO_STATE_eqb_spec (current_input_state d) AUDIO_STATE_RUNNING);
    [contradiction | reflexivity].
Qed.

Lemma reachable_inv (w : World) : reachable w -> session_inv w.
Proof.
  induction 1 as [a p0 d p Hc
                 | w ocb octx icb ictx wcb wctx ecb ectx r d Hr IH Hset
                 | w n1 n2 name value r d Hr IH Hset
                 | w r d p Hr IH Hstart
                 | w r d p Hr IH Hstop
                 | w e w' Hr IH Hstep].
  - destruct (audio_create_fresh a p0 p d Hc) as [Ht Hst].
    split; cbn [session]; [intros t Hc'; congruence | intros Hc'; congruence].
  - destruct (audio_setcallbacks_keeps _ _ _ _ _ _ _ _ _ _ _ Hset)
      as (Ht & Hcap & Hst & _).
    destruct IH as [I1 I2]. split; cbn [session].
    + intros t Ht'. rewrite Hcap. apply (I1 t). congruence.
    + intros Hrun. rewrite Ht. apply I2. congruence.
  - destruct (audio_set_options_keeps _ _ _ _ _ _ _ Hset) as (Ht & Hcap & Hst).
    destruct IH as [I1 I2]. split; cbn [session].
    + intros t Ht'. rewrite Hcap. apply (I1 t). congruence.
    + intros Hrun. rewrite Ht. apply I2. congruence.
  - destruct (audio_input_start_keeps_state _ _ _ _ _ Hstart)
      as (d' & Hd & Hst & Hcap & Hth).
    injection Hd as <-. destruct IH as [I1 I2]. split; cbn [session].
    + intros t Ht'. rewrite Hcap.
      destruct Hth as [Hsame | (_ & _ & _ & Hc & Hb)].
      * apply (I1 t). congruence.
      * split; assumption.
    + intros Hrun. rewrite Hst in Hrun.
      destruct Hth as [Hsame | (_ & _ & Hn & _)]; [|contradiction].
      rewrite Hsame. now apply I2.
  - destruct IH as [I1 I2].
    destruct (AUDIO_STATE_eqb_spec (current_input_state (session w))
                AUDIO_STATE_RUNNING) as [Er|Er].
    + destruct (I2 Er) as (t & Ht & Hp1 & Hp2 & Hp3).
      destruct (I1 t Ht) as [Hc _].
      destruct (audio_input_stop_running (session w) (platform w) Er Hc)
        as (d' & p' & body & Hs & Hnone & _ & _ & _ & Hstopped & _).
      { intros t0 Ht0. rewrite Ht in Ht0. injection Ht0 as <-.
        split; assumption. }
      rewrite Hs in Hstop. injection Hstop as _ <- <-.
      split; cbn [session].
      * intros t0 Ht0. congruence.
      * intros Hrun. rewrite (Hstopped t Ht Hp2) in Hrun. discriminate.
    + rewrite (audio_input_stop_not_running _ _ Er) in Hstop.
      injection Hstop as _ <- <-. destruct w; split; assumption.
  - eapply happen_inv; eassumption.
Qed.

(** ** Sample worlds are reachable *)

Lemma registered_world_reachable : reachable registered_world.
Proof.
  apply (reach_setcallbacks (mkWorld sample_session sample_platform)
           11 12 13 14 15 16 17 18 AUDIO_RESULT_OK);
    [|vm_compute; reflexivity].
  apply (reach_create good_activation quiet_platform).
  vm_compute; reflexivity.
Defined.

Lemma started_world_reachable : reachable started_world.
Proof.
  apply (reach_start registered_world AUDIO_RESULT_OK);
    [exact registered_world_reachable | vm_compute; reflexivity].
Defined.

Lemma running_world_reachable : reachable running_world.
Proof.
  apply (reach_happen started_world ThreadRuns);
    [exact started_world_reachable | vm_compute; reflexivity | reflexivity].
Defined.


(** ** A session without an input-state callback, whatever happens *)



(** ** The exit path, whatever the run *)

(** Every run of a capture thread that ends with the thread returned, from
    wherever in its code the thread was and whatever the persisted state
    was, ends with the events of the code at the Exit label and has no
    other delete in it: the scratch buffer, the one the thread's only
    allocation returned or the one it held when it had allocated before,
    is deleted once, the persisted state is STOPPED, and the input-state
    callback is invoked with STOPPED once in the exit code when registered
    and not at all otherwise. *)
Lemma exit_path_runs_exactly_once (w w' : World) (t0 : CaptureThread)
    (es : list Happening) :
  hCaptureThread (session w) = Some t0 ->
  pc t0 <> Returned ->
  pAudioInputClient (spCapture (session w)) <> nullptr ->
  happenings es w = Ok tt w' ->
  thread_at w' Returned ->
  exists body t,
    trace (platform w')
    = trace (platform w) ++ body ++ exit_events (session w) t /\
    hCaptureThread (session w') = Some (exit_thread t) /\
    current_input_state (session w') = AUDIO_STATE_STOPPED /\
    filter is_delete body = [] /\
    filter is_delete (exit_events (session w) t)
    = [EvDeleteArray (pAudioData (audioBuff t))] /\
    (List.length (allocations body) <= 1)%nat /\
    pAudioData (audioBuff t)
    = last (allocations body) (pAudioData (audioBuff t0)) /\
    filter is_callback (exit_events (session w) t)
    = notify_events (session w) AUDIO_STATE_STOPPED.
Proof.
  intros Ht0 Hpc0 Hc Hrun (tf & Htf & Hpcf).
  assert (H0 : thread_history (pAudioData (audioBuff t0)) w w).
  { split; [reflexivity|]. split; [reflexivity|]. split; [reflexivity|].
    exists [], t0. rewrite app_nil_r.
    split; [reflexivity|]. split; [exact Ht0|].
    destruct (ProgramPoint_eqb (pc t0) Aborted) eqn:E.
    - right. right. split; [|reflexivity].
      destruct (pc t0); cbn in E; congruence.
    - left. split; [exact Hpc0|].
      split; [intros Heq; rewrite Heq in E; discriminate|].
      split; [reflexivity|].
      split; [|reflexivity]. split; [cbn; lia | reflexivity]. }
  destruct (happenings_history _ es w w w' Hc H0 Hrun)
    as (_ & _ & _ & body & t & Htr & Ht & Hcase).
  rewrite Htf in Ht. injection Ht as <-.
  destruct Hcase as [(Hpc & _)
                    | [(body0 & t0' & -> & -> & Hdel & Hown & Hst)
                      | (Hpa & _)]];
    [congruence| |congruence].
  exists body0, t0'. split; [exact Htr|]. split; [exact Htf|].
  split; [exact Hst|]. split; [exact Hdel|].
  split; [apply exit_events_one_delete|].
  split; [apply Hown|]. split; [apply Hown|].
  apply exit_events_callbacks.
Qed.

(** The same on the running sample world, whose persisted state is
    RUNNING: the shutdown event is set, the thread leaves its wait and
    the state is STOPPED. *)
Lemma exit_path_runs_from_RUNNING :
  current_input_state (session running_world) = AUDIO_STATE_RUNNING /\
  exists w' body t,
    happenings shutdown_run running_world = Ok tt w' /\
    thread_at w' Returned /\
    trace (platform w')
    = trace (platform running_world)
      ++ body ++ exit_events (session running_world) t /\
    current_input_state (session w') = AUDIO_STATE_STOPPED /\
    filter is_delete body = [] /\
    pAudioData (audioBuff t) = 401.
Proof.
  split; [reflexivity|].
  assert (Hrun : exists w', happenings shutdown_run running_world = Ok tt w'
                            /\ thread_at w' Returned).
  { eexists. split; [vm_compute; reflexivity|].
    eexists. split; vm_compute; reflexivity. }
  destruct Hrun as (w' & Hrun & Hret).
  destruct (exit_path_runs_exactly_once running_world w' _ shutdown_run
              eq_refl) as (body & t & Htr & _ & Hst & Hdel & _ & _ & Hb & _);
    [ vm_compute; discriminate | vm_compute; lia | exact Hrun | exact Hret |].
  exists w', body, t. split; [exact Hrun|]. split; [exact Hret|].
  split; [exact Htr|]. split; [exact Hst|]. split; [exact Hdel|].
  rewrite Hb. revert Hrun Htr. intros Hrun Htr.
  assert (Hal : allocations body = []).
  { assert (E : trace (platform w')
                = trace (platform running_world)
                  ++ [EvWait 0]
                  ++ exit_events (session running_world)
                       (mkCaptureThread AtWait 301
                          (mkAudioDataBuffer 401 0 320) 0)).
    { vm_compute in Hrun. injection Hrun as <-. vm_compute. reflexivity. }
    rewrite E in Htr. apply app_inv_head in Htr.
    assert (L : List.length (filter is_delete body) = 0%nat)
      by (rewrite Hdel; reflexivity).
    clear - Htr.
    assert (A : allocations ([EvWait 0]
                  ++ exit_events (session running_world)
                       (mkCaptureThread AtWait 301
                          (mkAudioDataBuffer 401 0 320) 0)) = [])
      by (vm_compute; reflexivity).
    rewrite Htr in A. rewrite allocations_app in A.
    now apply app_eq_nil in A. }
  rewrite Hal. reflexivity.
Qed.

(** A failed allocation at the entry: new throws, the exception leaves
    captureThreadProc and the thread is aborted with the state RUNNING;
    nothing has been deleted and the code at the Exit label has not
    run. *)
Lemma allocation_failure_aborts (w : World) :
  hCaptureThread (session w) = Some new_thread ->
  pAudioInputClient (spCapture (session w)) <> nullptr ->
  FAILED (fst (GetService_answer (platform w))) = false ->
  new_answer (platform w) = nullptr ->
  exists w',
    thread_step w = Ok tt w' /\
    thread_at w' Aborted /\
    current_input_state (session w') = AUDIO_STATE_RUNNING /\
    trace (platform w')
    = trace (platform w)
      ++ notify_events (session w) AUDIO_STATE_STARTING
      ++ [EvStoreInputState AUDIO_STATE_RUNNING;
          EvGetService (fst (GetService_answer (platform w)));
          EvBadAlloc
            (to_size_t
               (inputFrameCnt (session w)
                * nBlockAlign (audioInFormat (spCapture (session w)))));
          EvTerminate].
Proof.
  intros Ht Hc Hs Hn. apply is_null_false in Hc. apply is_null_true in Hn.
  destruct w as [d p]. cbn [session platform] in *.
  monad. norm. rewrite Ht. unfold new_thread, notify_events. norm.
  destruct (is_null (input_state_cb d)); norm; rewrite Hc; norm;
    rewrite Hs; norm; rewrite Hn; norm.
  all: eexists; split; [reflexivity|]; norm.
  all: split; [eexists; split; reflexivity|].
  all: split; [reflexivity|].
  all: rewrite <- ?app_assoc; reflexivity.
Qed.

(** Whatever happens after the thread was aborted, the thread stays
    aborted, the session is not changed and the trace gains nothing. *)
Lemma aborted_for_good (es : list Happening) :
  forall w,
  thread_at w Aborted ->
  exists w',
    happenings es w = Ok tt w' /\
    session w' = session w /\ trace (platform w') = trace (platform w).
Proof.
  induction es as [|e es IH]; intros w Hat.
  - exists w. split; [reflexivity|]. split; reflexivity.
  - assert (H1 : exists w1, happen e w = Ok tt w1 /\ session w1 = session w
                            /\ trace (platform w1) = trace (platform w)).
    { destruct Hat as (t & Ht & Hpc). destruct e; cbn [happen].
      - rewrite (thread_step_aborted w t Ht Hpc).
        exists w. split; [reflexivity|]. split; reflexivity.
      - destruct w as [d p].
        unfold load_capture, load, update_platform, bind.
        eexists. split; [reflexivity|]. split; reflexivity.
      - destruct w as [d p]. unfold update_platform.
        eexists. split; [reflexivity|]. split; reflexivity.
      - destruct w as [d p]. unfold update_platform.
        eexists. split; [reflexivity|]. split; reflexivity. }
    destruct H1 as (w1 & He & Hs1 & Ht1).
    destruct (IH w1) as (w' & Hrun & Hs2 & Ht2);
      [unfold thread_at; rewrite Hs1; exact Hat|].
    exists w'. cbn [happenings]. unfold bind. rewrite He.
    split; [exact Hrun|]. split; congruence.
Qed.

Lemma starved_world_reachable : reachable starved_world.
Proof.
  apply (reach_start (mkWorld oversized_session starved_platform)
           AUDIO_RESULT_OK); [|vm_compute; reflexivity].
  apply (reach_set_options (mkWorld registered_session starved_platform)
           "buff_frame_count" "devicename" "buff_frame_count"
           (Some (IntObject (-1))) AUDIO_RESULT_OK);
    [|vm_compute; reflexivity].
  apply (reach_setcallbacks (mkWorld sample_session starved_platform)
           11 12 13 14 15 16 17 18 AUDIO_RESULT_OK);
    [|vm_compute; reflexivity].
  apply (reach_create good_activation
           (mkPlatform [] false (S_OK, 301) nullptr 501 S_OK [] [])).
  vm_compute; reflexivity.
Defined.

(** C2: the code at the Exit label is claimed to run exactly once however
    the loop is left, a failed allocation of the scratch buffer included.
    On the sample session with the frame count -1, started, the thread
    stores RUNNING, acquires the capture service and asks new for
    2^64 - 2 bytes; new throws, nothing catches the exception and the
    process is ended: the buffer is not deleted, the persisted state stays
    RUNNING, the input-state callback, invoked with STARTING, is not
    invoked with STOPPED, and nothing of it happens later.  At the same
    place a failed GetService does reach the Exit label: on the started
    sample session the thread then deletes, stores STOPPED, invokes the
    callback with STOPPED and returns. *)
Theorem allocation_failure_skips_the_exit_path :
  (thread_step
     (after [AnswersChange (E_FAIL, nullptr) 401 501 S_OK] started_world)
   = Ok tt dead_world /\
   thread_at dead_world Returned /\
   current_input_state (session dead_world) = AUDIO_STATE_STOPPED /\
   trace (platform dead_world)
   = trace (platform started_world)
     ++ [EvInputStateCb 13 14 AUDIO_STATE_STARTING;
         EvStoreInputState AUDIO_STATE_RUNNING;
         EvGetService E_FAIL;
         EvDeleteArray nullptr;
         EvStoreInputState AUDIO_STATE_STOPPED;
         EvInputStateCb 13 14 AUDIO_STATE_STOPPED]) /\
  reachable starved_world /\
  hCaptureThread (session starved_world) = Some new_thread /\
  inputFrameCnt (session starved_world) = to_size_t (-1) /\
  new_answer (platform starved_world) = nullptr /\
  thread_step starved_world = Ok tt aborted_world /\
  thread_at aborted_world Aborted /\
  current_input_state (session aborted_world) = AUDIO_STATE_RUNNING /\
  trace (platform aborted_world)
  = trace (platform starved_world)
    ++ [EvInputStateCb 13 14 AUDIO_STATE_STARTING;
        EvStoreInputState AUDIO_STATE_RUNNING;
        EvGetService S_OK;
        EvBadAlloc 18446744073709551614;
        EvTerminate] /\
  forall es,
    exists w',
      happenings es aborted_world = Ok tt w' /\
      thread_at w' Aborted /\
      current_input_state (session w') = AUDIO_STATE_RUNNING /\
      trace (platform w') = trace (platform aborted_world).
Proof.
  split.
  { split; [vm_compute; reflexivity|].
    split; [eexists; split; vm_compute; reflexivity|].
    split; vm_compute; reflexivity. }
  split; [exact starved_world_reachable|].
  split; [reflexivity|]. split; [reflexivity|]. split; [reflexivity|].
  split; [vm_compute; reflexivity|].
  assert (Hat : thread_at aborted_world Aborted)
    by (eexists; split; vm_compute; reflexivity).
  split; [exact Hat|]. split; [reflexivity|].
  split; [vm_compute; reflexivity|].
  intros es.
  destruct (aborted_for_good es aborted_world Hat) as (w' & Hrun & Hs & Ht).
  exists w'. split; [exact Hrun|].
  split; [unfold thread_at; rewrite Hs; exact Hat|].
  split; [rewrite Hs; reflexivity | exact Ht].
Qed.

Lemma allocation_failure_skips_the_exit_path_witness :
  happenings [ThreadRuns; EventSet 102; ThreadRuns] aborted_world
  = Ok tt (after [EventSet 102] aborted_world) /\
  thread_at (after [EventSet 102] aborted_world) Aborted /\
  trace (platform (after [EventSet 102] aborted_world))
  = trace (platform aborted_world) /\
  filter is_delete (trace (platform aborted_world)) = [].
Proof.
  assert (Hrun : happenings [ThreadRuns; EventSet 102; ThreadRuns]
                   aborted_world
                 = Ok tt (after [EventSet 102] aborted_world))
    by (vm_compute; reflexivity).
  destruct allocation_failure_skips_the_exit_path
    as (_ & _ & _ & _ & _ & _ & _ & _ & _ & Hever).
  destruct (Hever [ThreadRuns; EventSet 102; ThreadRuns])
    as (w' & Hrun' & Hat & _ & Htr).
  rewrite Hrun in Hrun'. injection Hrun' as <-.
  split; [exact Hrun|]. split; [exact Hat|]. split; [exact Htr|].
  vm_compute. reflexivity.
Defined.

(** ** audio_input_stop *)

(** C5: audio_input_stop returns INVALID_ARG on a null handle; on a session
    whose persisted state is not RUNNING it returns INVALID_STATE and
    changes nothing, so no event is set and no thread joined; on every
    reachable session whose state is RUNNING it returns OK after stopping
    the native stream, calling SetEvent on the shutdown handle and, when
    the thread is joinable, joining it; the join ends, with the thread
    gone through its exit. *)
Theorem audio_input_stop_results (w : World) (d : AUDIO_SYS_DATA)
    (p : Platform) :
  reachable w ->
  audio_input_stop None p = Ok (AUDIO_RESULT_INVALID_ARG, None) p /\
  (current_input_state d <> AUDIO_STATE_RUNNING ->
   audio_input_stop (Some d) p
   = Ok (AUDIO_RESULT_INVALID_STATE, Some d) p) /\
  (current_input_state (session w) = AUDIO_STATE_RUNNING ->
   exists d' p' body,
     audio_input_stop (Some (session w)) (platform w)
     = Ok (AUDIO_RESULT_OK, Some d') p' /\
     trace p'
     = trace (platform w)
       ++ [EvClientStop;
           EvSetEvent (hCaptureThreadShouldExit (spCapture (session w)))]
       ++ body
       ++ (match hCaptureThread (session w) with
           | Some _ => [EvThreadJoin]
           | None => []
           end) /\
     (hCaptureThread (session w) = None -> body = []) /\
     client_started p' = false /\
     hCaptureThread d' = None /\
     current_input_state d' = AUDIO_STATE_STOPPED).
Proof.
  intros Hr. split; [reflexivity|].
  split; [apply audio_input_stop_not_running|].
  intros Er. destruct (reachable_inv w Hr) as [I1 I2].
  destruct (I2 Er) as (t & Ht & Hpe & Hpc & Hpa).
  destruct (I1 t Ht) as [Hc _].
  destruct (audio_input_stop_running (session w) (platform w) Er Hc)
    as (d' & p' & body & Hs & Hnone & Hoff & Htr & Hb & Hst & _).
  { intros t0 Ht0. rewrite Ht in Ht0. injection Ht0 as <-.
    split; assumption. }
  exists d', p', body.
  split; [exact Hs|]. split; [exact Htr|]. split; [exact Hb|].
  split; [exact Hoff|]. split; [exact Hnone|]. exact (Hst t Ht Hpc).
Qed.

Lemma audio_input_stop_results_witness :
  reachable running_world /\
  current_input_state (session running_world) = AUDIO_STATE_RUNNING /\
  audio_input_stop (Some sample_session) sample_platform
  = Ok (AUDIO_RESULT_INVALID_STATE, Some sample_session) sample_platform /\
  exists d' p' body,
    audio_input_stop (Some (session running_world)) (platform running_world)
    = Ok (AUDIO_RESULT_OK, Some d') p' /\
    trace p'
    = trace (platform running_world)
      ++ [EvClientStop; EvSetEvent 102] ++ body ++ [EvThreadJoin] /\
    client_started p' = false /\
    hCaptureThread d' = None /\
    current_input_state d' = AUDIO_STATE_STOPPED.
Proof.
  split; [exact running_world_reachable|].
  split; [vm_compute; reflexivity|].
  destruct (audio_input_stop_results running_world sample_session
              sample_platform running_world_reachable)
    as (_ & Hidle & Hrun).
  split; [apply Hidle; vm_compute; discriminate|].
  destruct (Hrun eq_refl)
    as (d' & p' & body & Hs & Htr & _ & Hoff & Hnone & Hst).
  exists d', p', body. repeat split; assumption.
Defined.


(** ** audio_input_start *)

(** The claim C4 says INVALID_STATE for every session; the test of the
    buffer-ready handle comes first. *)
Lemma start_without_buffer_ready_event :
  exists d p,
    audio_create eventless_activation quiet_platform = Ok (Some d) p /\
    audio_write_cb d = nullptr /\
    pAudioInputClient (spCapture d) = nullptr /\
    audio_input_start (Some d) p = Ok (AUDIO_RESULT_INVALID_ARG, Some d) p /\
    audio_input_start (Some d) p
    <> Ok (AUDIO_RESULT_INVALID_STATE, Some d) p.
Proof.
  eexists _, _. split; [reflexivity|]. split; [reflexivity|].
  split; [reflexivity|]. split; [reflexivity|]. discriminate.
Qed.

(** C4, amended: on every reachable session whose persisted state is
    RUNNING, and on every session that has its buffer-ready event and
    whose state is RUNNING, whose write callback is not registered or
    whose client is absent, audio_input_start returns INVALID_STATE and
    leaves session and platform as they were: no thread is created and the
    native stream is not started. *)
Theorem audio_input_start_rejected (w : World) (d : AUDIO_SYS_DATA)
    (p : Platform) :
  reachable w ->
  hBufferReady (spCapture d) <> nullptr ->
  (current_input_state (session w) = AUDIO_STATE_RUNNING ->
   audio_input_start (Some (session w)) (platform w)
   = Ok (AUDIO_RESULT_INVALID_STATE, Some (session w)) (platform w)) /\
  (current_input_state d = AUDIO_STATE_RUNNING \/
   audio_write_cb d = nullptr \/
   pAudioInputClient (spCapture d) = nullptr ->
   audio_input_start (Some d) p
   = Ok (AUDIO_RESULT_INVALID_STATE, Some d) p).
Proof.
  intros Hr Hb.
  assert (Hgen : forall d0 p0,
             hBufferReady (spCapture d0) <> nullptr ->
             current_input_state d0 = AUDIO_STATE_RUNNING \/
             audio_write_cb d0 = nullptr \/
             pAudioInputClient (spCapture d0) = nullptr ->
             audio_input_start (Some d0) p0
             = Ok (AUDIO_RESULT_INVALID_STATE, Some d0) p0).
  { intros d0 p0 Hb0 Hcase. apply is_null_false in Hb0.
    unfold audio_input_start. rewrite Hb0.
    destruct Hcase as [Hs | [Hw | Hc]].
    - rewrite Hs. cbn [AUDIO_STATE_eqb]. now rewrite !orb_true_r.
    - apply is_null_true in Hw. now rewrite Hw.
    - apply is_null_true in Hc. rewrite Hc. now rewrite orb_true_r. }
  split.
  - intros Er. destruct (reachable_inv w Hr) as [I1 I2].
    destruct (I2 Er) as (t & Ht & _ & _). destruct (I1 t Ht) as [_ Hb'].
    apply Hgen; [exact Hb' | now left].
  - apply Hgen. exact Hb.
Qed.

Lemma audio_input_start_rejected_witness :
  reachable running_world /\
  hBufferReady (spCapture sample_session) <> nullptr /\
  audio_write_cb sample_session = nullptr /\
  audio_input_start (Some (session running_world)) (platform running_world)
  = Ok (AUDIO_RESULT_INVALID_STATE, Some (session running_world))
      (platform running_world) /\
  audio_input_start (Some sample_session) sample_platform
  = Ok (AUDIO_RESULT_INVALID_STATE, Some sample_session) sample_platform.
Proof.
  assert (Hb : hBufferReady (spCapture sample_session) <> nullptr)
    by (vm_compute; lia).
  split; [exact running_world_reachable|]. split; [exact Hb|].
  split; [reflexivity|].
  destruct (audio_input_start_rejected running_world sample_session
              sample_platform running_world_reachable Hb) as [H1 H2].
  split; [apply H1; reflexivity | apply H2; right; left; reflexivity].
Defined.


(** ** The start/stop cycle *)








(* ================================================================== *)
(** * Further properties: creation, destruction, the render events,
      options, registration and whole runs *)

(** ** Construction and destruction of the capture object *)

Lemma CloseHandle_head (k : Kernel) (h : HANDLE) (b : bool) :
  CloseHandle ((h, b) :: k) h = k.
Proof. cbn. now rewrite Z.eqb_refl. Qed.

Lemma WASAPICapture_ctor_cases (a : Activation) (k : Kernel) :
  let hB := CreateEvent_first a in
  let hE := CreateEvent_second a in
  (hB <> nullptr /\ hE <> nullptr /\
   WASAPICapture_ctor a k
   = (mkWASAPICapture nullptr (unset_format a) hB hE None,
      (hE, false) :: (hB, false) :: k))
  \/
  (hB <> nullptr /\ hE = nullptr /\
   WASAPICapture_ctor a k
   = (mkWASAPICapture nullptr (unset_format a) nullptr nullptr None, k))
  \/
  (hB = nullptr /\
   WASAPICapture_ctor a k
   = (mkWASAPICapture nullptr (unset_format a) nullptr nullptr None,
      snd (SAFE_CLOSE_HANDLE (unset_handle a) k))).
Proof.
  intros hB hE. unfold WASAPICapture_ctor. fold hB hE.
  unfold EXIT_ON_ERROR_IF, WASAPICapture_ctor_Exit, CreateEvent.
  destruct (is_null hB) eqn:EB.
  - right; right. apply is_null_true in EB. split; [exact EB|].
    change (FAILED E_FAIL) with true. cbn iota.
    unfold SAFE_CLOSE_HANDLE. rewrite EB. change (is_null (nullptr)) with true.
    cbn [negb]. destruct (is_null (unset_handle a)) eqn:EU; cbn [negb snd].
    + apply is_null_true in EU. rewrite EU. reflexivity.
    + reflexivity.
  - apply is_null_false in EB as HB.
    destruct (is_null hE) eqn:EE.
    + right; left. apply is_null_true in EE as HE. split; [exact HB|].
      split; [exact HE|].
      change (FAILED E_FAIL) with true. cbn iota.
      unfold SAFE_CLOSE_HANDLE. rewrite EB, EE. cbn [negb].
      rewrite CloseHandle_head. rewrite HE. reflexivity.
    + left. apply is_null_false in EE as HE. split; [exact HB|].
      split; [exact HE|]. change (FAILED S_OK) with false. reflexivity.
Qed.

(** X1: the constructor of WASAPICapture leaves both events or none.  When
    both CreateEvent calls return a handle, the object holds the two
    handles and both are unsignalled events of the kernel; when either call
    fails both members are null, and when it is the second call that
    failed the first event has been closed again, so that the kernel's
    table is as it was. *)
Theorem WASAPICapture_ctor_all_or_nothing (a : Activation) (k : Kernel) :
  let c := fst (WASAPICapture_ctor a k) in
  let k' := snd (WASAPICapture_ctor a k) in
  (hBufferReady c = CreateEvent_first a /\
   hCaptureThreadShouldExit c = CreateEvent_second a /\
   hBufferReady c <> nullptr /\ hCaptureThreadShouldExit c <> nullptr /\
   event_state k' (hBufferReady c) = Some false /\
   event_state k' (hCaptureThreadShouldExit c) = Some false /\
   k' = (CreateEvent_second a, false) :: (CreateEvent_first a, false) :: k)
  \/
  (hBufferReady c = nullptr /\ hCaptureThreadShouldExit c = nullptr /\
   (CreateEvent_first a = nullptr \/ CreateEvent_second a = nullptr) /\
   (CreateEvent_first a <> nullptr -> k' = k)).
Proof.
  intros c k'. subst c k'.
  destruct (WASAPICapture_ctor_cases a k)
    as [(HB & HE & ->) | [(HB & HE & ->) | (HB & ->)]]; cbn [fst snd].
  - left. cbn [hBufferReady hCaptureThreadShouldExit event_state].
    rewrite !Z.eqb_refl.
    repeat split; try assumption; try reflexivity.
    now destruct (CreateEvent_second a =? CreateEvent_first a).
  - right. cbn. repeat split; try reflexivity. now right.
  - right. cbn [hBufferReady hCaptureThreadShouldExit].
    split; [reflexivity|]. split; [reflexivity|]. split; [now left|].
    intros H. contradiction.
Qed.

Lemma WASAPICapture_ctor_dtor_kernel (a : Activation) (k : Kernel) :
  CreateEvent_first a <> nullptr ->
  CreateEvent_first a <> INVALID_HANDLE_VALUE ->
  CreateEvent_second a <> INVALID_HANDLE_VALUE ->
  let c := fst (WASAPICapture_ctor a k) in
  let k' := snd (WASAPICapture_ctor a k) in
  hBufferReady (fst (WASAPICapture_dtor c k')) = nullptr /\
  hCaptureThreadShouldExit (fst (WASAPICapture_dtor c k')) = nullptr /\
  snd (WASAPICapture_dtor c k') = k.
Proof.
  intros HB IB IE c k'. subst c k'.
  assert (EB : (INVALID_HANDLE_VALUE =? CreateEvent_first a) = false)
    by (apply Z.eqb_neq; congruence).
  assert (EE : (INVALID_HANDLE_VALUE =? CreateEvent_second a) = false)
    by (apply Z.eqb_neq; congruence).
  destruct (WASAPICapture_ctor_cases a k)
    as [(_ & HE & ->) | [(_ & HE & ->) | (HB' & _)]]; [| |contradiction];
    cbn [fst snd]; unfold WASAPICapture_dtor, SAFE_CLOSE_HANDLE;
    cbn [hBufferReady hCaptureThreadShouldExit].
  - apply is_null_false in HB, HE. rewrite EB, EE, HB. cbn [negb].
    assert (Hk : CloseHandle
                   ((CreateEvent_second a, false)
                    :: (CreateEvent_first a, false) :: k)
                   (CreateEvent_first a)
                 = (CreateEvent_second a, false) :: k).
    { cbn [CloseHandle].
      destruct (CreateEvent_second a =? CreateEvent_first a) eqn:E.
      - apply Z.eqb_eq in E. now rewrite E.
      - now rewrite Z.eqb_refl. }
    rewrite Hk, HE. cbn [negb]. rewrite CloseHandle_head. cbn.
    repeat split; reflexivity.
  - change (INVALID_HANDLE_VALUE =? nullptr) with false. cbn.
    repeat split; reflexivity.
Qed.

(** X2: construction followed by destruction leaves no event behind.
    When the first CreateEvent call returns a handle, and no call returns
    INVALID_HANDLE_VALUE (which the destructor skips), the destructor run
    on the constructed object leaves both members null and the kernel's
    table as it was before the constructor, whether or not the second
    event could be created. *)
Theorem WASAPICapture_ctor_dtor_round_trip (a : Activation) (k : Kernel) :
  CreateEvent_first a <> nullptr ->
  CreateEvent_first a <> INVALID_HANDLE_VALUE ->
  CreateEvent_second a <> INVALID_HANDLE_VALUE ->
  let c := fst (WASAPICapture_ctor a k) in
  let k' := snd (WASAPICapture_ctor a k) in
  hBufferReady (fst (WASAPICapture_dtor c k')) = nullptr /\
  hCaptureThreadShouldExit (fst (WASAPICapture_dtor c k')) = nullptr /\
  snd (WASAPICapture_dtor c k') = k.
Proof. exact (WASAPICapture_ctor_dtor_kernel a k). Qed.

Lemma WASAPICapture_ctor_dtor_round_trip_witness :
  CreateEvent_first good_activation <> nullptr /\
  CreateEvent_first good_activation <> INVALID_HANDLE_VALUE /\
  CreateEvent_second good_activation <> INVALID_HANDLE_VALUE /\
  snd (WASAPICapture_ctor good_activation [(7, true)])
  = [(102, false); (101, false); (7, true)] /\
  snd (WASAPICapture_dtor
         (fst (WASAPICapture_ctor good_activation [(7, true)]))
         (snd (WASAPICapture_ctor good_activation [(7, true)])))
  = [(7, true)].
Proof.
  assert (H1 : CreateEvent_first good_activation <> nullptr)
    by (vm_compute; lia).
  assert (H2 : CreateEvent_first good_activation <> INVALID_HANDLE_VALUE)
    by (vm_compute; lia).
  assert (H3 : CreateEvent_second good_activation <> INVALID_HANDLE_VALUE)
    by (vm_compute; lia).
  split; [exact H1|]. split; [exact H2|]. split; [exact H3|].
  split; [reflexivity|].
  exact (proj2 (proj2 (WASAPICapture_ctor_dtor_round_trip good_activation
                         [(7, true)] H1 H2 H3))).
Defined.

(** ** The render events *)

Ltac monadx :=
  cbv beta iota zeta delta
    [audio_create_events audio_create_events_session audio_create_events_Exit
     close_hRenderThreadShouldExit close_hRenderThreadDidExit
     force_render_thread_to_exit_and_wait delete_audioData
     WASAPICapture_delete ComPtr_dtor STRING_delete Release_client
     audio_destroy on_session
     EXIT_ON_ERROR EXIT_ON_ERROR_IF emit load_capture load ask
     update_session update_platform update_capture bind ret fault] in *.

Ltac normx :=
  cbn [session platform trace set_trace set_kernel kernel fst snd negb
       hCaptureThread spCapture hRenderThreadShouldExit hRenderThreadDidExit
       output_canceled hDeviceName pAudioOutputDevice current_output_state
       set_hRenderThreadShouldExit set_hRenderThreadDidExit
       set_output_canceled set_spCapture set_hCaptureThread
       pAudioInputClient hBufferReady hCaptureThreadShouldExit] in *;
  change (FAILED S_OK) with false in *;
  change (FAILED E_FAIL) with true in *;
  change (is_null nullptr) with true in *.

Lemma audio_create_events_all_or_nothing_lemma
    (AUDIO_RESULT_value : AUDIO_RESULT -> HRESULT) (first second : HANDLE)
    (d : AUDIO_SYS_DATA) (p : Platform) :
  hRenderThreadDidExit d = nullptr ->
  (first <> nullptr /\ second <> nullptr /\
   audio_create_events AUDIO_RESULT_value first second (Some d) p
   = Ok (S_OK,
         Some (set_hRenderThreadDidExit second
                 (set_hRenderThreadShouldExit first d)))
        (set_kernel ((second, true) :: (first, false) :: kernel p) p))
  \/
  ((first = nullptr \/ second = nullptr) /\
   audio_create_events AUDIO_RESULT_value first second (Some d) p
   = Ok (E_FAIL,
         Some (set_hRenderThreadDidExit nullptr
                 (set_hRenderThreadShouldExit nullptr d)))
        (set_kernel (kernel p) p)).
Proof.
  intros Hd. unfold audio_create_events, on_session.
  monadx. normx. unfold CreateEvent_initially, SAFE_CLOSE_HANDLE.
  destruct (is_null first) eqn:E1; normx.
  - right. split; [left; now apply is_null_true|].
    rewrite E1. cbn [negb]. normx. rewrite Hd. normx.
    apply is_null_true in E1. subst first.
    destruct d; cbn in *; subst; reflexivity.
  - destruct (is_null second) eqn:E2; normx.
    + right. split; [right; now apply is_null_true|].
      rewrite E1. cbn [negb]. normx. rewrite E2. cbn [negb]. normx.
      rewrite CloseHandle_head.
      apply is_null_true in E2. subst second. reflexivity.
    + left. apply is_null_false in E1, E2. repeat split; assumption.
Qed.

(** X3: audio_create_events, on a session whose hRenderThreadDidExit is
    still null, creates both render events or none.  When both CreateEvent
    calls return a handle it returns S_OK, stores the two handles and
    leaves the second event signalled and the first unsignalled; when
    either call fails it returns E_FAIL, both members are null and the
    kernel's table is as it was. *)
Theorem audio_create_events_all_or_nothing
    (AUDIO_RESULT_value : AUDIO_RESULT -> HRESULT) (first second : HANDLE)
    (d : AUDIO_SYS_DATA) (p : Platform) :
  hRenderThreadDidExit d = nullptr ->
  (first <> nullptr /\ second <> nullptr /\
   audio_create_events AUDIO_RESULT_value first second (Some d) p
   = Ok (S_OK,
         Some (set_hRenderThreadDidExit second
                 (set_hRenderThreadShouldExit first d)))
        (set_kernel ((second, true) :: (first, false) :: kernel p) p))
  \/
  ((first = nullptr \/ second = nullptr) /\
   audio_create_events AUDIO_RESULT_value first second (Some d) p
   = Ok (E_FAIL,
         Some (set_hRenderThreadDidExit nullptr
                 (set_hRenderThreadShouldExit nullptr d)))
        (set_kernel (kernel p) p)).
Proof. exact (audio_create_events_all_or_nothing_lemma AUDIO_RESULT_value first second d p). Qed.

Lemma audio_create_events_all_or_nothing_witness :
  hRenderThreadDidExit sample_session = nullptr /\
  audio_create_events (fun _ => 1) 103 104 (Some sample_session)
    sample_platform
  = Ok (S_OK, Some (session render_world)) (platform render_world) /\
  event_state (kernel (platform render_world)) 104 = Some true /\
  event_state (kernel (platform render_world)) 103 = Some false.
Proof.
  split; [reflexivity|].
  destruct (audio_create_events_all_or_nothing (fun _ => 1) 103 104
              sample_session sample_platform eq_refl)
    as [(_ & _ & H) | ([H | H] & _)];
    [|vm_compute in H; discriminate H..].
  split; [exact H|]. split; vm_compute; reflexivity.
Defined.

(** ** Creation *)

Lemma WASAPICapture_dtor_client (c : WASAPICapture) (k : Kernel) :
  pAudioInputClient (fst (WASAPICapture_dtor c k)) = pAudioInputClient c.
Proof.
  unfold WASAPICapture_dtor.
  destruct (if negb (INVALID_HANDLE_VALUE =? hBufferReady c)
            then SAFE_CLOSE_HANDLE (hBufferReady c) k
            else (hBufferReady c, k)) as [hB k1].
  destruct (if negb (INVALID_HANDLE_VALUE =? hCaptureThreadShouldExit c)
            then SAFE_CLOSE_HANDLE (hCaptureThreadShouldExit c) k1
            else (hCaptureThreadShouldExit c, k1)) as [hE k2].
  reflexivity.
Qed.

(** The deletion of a session that has no thread completes. *)
Lemma delete_audioData_idle (last : bool) (d : AUDIO_SYS_DATA)
    (p : Platform) :
  hCaptureThread d = None ->
  exists d',
    delete_audioData last (mkWorld d p)
    = Ok Completed (mkWorld d' (after_delete last (spCapture d) p)).
Proof.
  intros Ht. unfold delete_audioData, after_delete, WASAPICapture_delete,
    ComPtr_dtor.
  cbv beta iota delta [emit load ask update_session update_platform
    bind ret].
  destruct last.
  - change (spCapture (session (mkWorld d p))) with (spCapture d).
    change (kernel (platform (mkWorld d p))) with (kernel p).
    pose proof (WASAPICapture_dtor_client (spCapture d) (kernel p)) as Hcl.
    destruct (WASAPICapture_dtor (spCapture d) (kernel p)) as [c' k'].
    cbn [fst snd] in *. rewrite Hcl.
    destruct (is_null (pAudioInputClient (spCapture d)));
      cbn [session platform hCaptureThread set_spCapture]; rewrite Ht;
      eexists; reflexivity.
  - cbn [session]. rewrite Ht. eexists; reflexivity.
Qed.

Lemma audio_create_eq (a : Activation) (p0 : Platform) :
  let c := fst (WASAPICapture_ctor a (kernel p0)) in
  let p1 := set_kernel (snd (WASAPICapture_ctor a (kernel p0))) p0 in
  let d0 :=
    mkAUDIO_SYS_DATA None c nullptr nullptr nullptr false
      nullptr nullptr nullptr nullptr nullptr nullptr nullptr nullptr
      AUDIO_STATE_STOPPED AUDIO_STATE_STOPPED None 160 in
  let said hr evs p := set_trace (trace p ++ evs ++ [EvPromiseSet hr]) p in
  let c1 :=
    set_audioInFormat capture_format
      (set_pAudioInputClient (CopyTo_out a) c) in
  let deleted := after_delete (handler_released a) in
  audio_create a p0 =
  if FAILED (ActivateAudioInterfaceAsync_hr a) then Ok None (deleted c p1)
  else if FAILED (GetActivateResult_hr a) then Fault
  else if FAILED (activateResult a) then
    Ok (Some (set_spCapture
                (set_m_promise (Some (GetActivateResult_hr a)) c) d0))
       (said (GetActivateResult_hr a) [] p1)
  else if is_null (punkAudioInterface a) then Fault
  else if is_null (CopyTo_out a) then Fault
  else if FAILED (Initialize_hr a) then
    Ok None
      (deleted (set_m_promise (Some (Initialize_hr a)) c1)
         (said (Initialize_hr a) [EvRelease (CopyTo_out a)] p1))
  else if FAILED (SetEventHandle_hr a) then
    Ok None
      (deleted (set_m_promise (Some (SetEventHandle_hr a)) c1)
         (said (SetEventHandle_hr a) [EvRelease (CopyTo_out a)] p1))
  else
    Ok (Some (set_spCapture (set_m_promise (Some (SetEventHandle_hr a)) c1)
                d0))
       (said (SetEventHandle_hr a) [] p1).
Proof.
  intros c p1 d0 said c1 deleted. subst c p1 d0 said c1 deleted.
  assert (Hc : exists hB hE k,
            WASAPICapture_ctor a (kernel p0)
            = (mkWASAPICapture nullptr (unset_format a) hB hE None, k)).
  { destruct (WASAPICapture_ctor_cases a (kernel p0))
      as [(_ & _ & ->) | [(_ & _ & ->) | (_ & ->)]]; eexists _, _, _;
      reflexivity. }
  destruct Hc as (hB & hE & k & Hc).
  unfold audio_create, audio_input_create.
  cbv beta iota zeta delta [ActivateCompleted ActivateCompleted_Exit
    EXIT_ON_ERROR EXIT_ON_ERROR_IF Release_client promise_set_value
    update_capture load_capture load ask update_session update_platform emit
    bind ret fault].
  cbn [session platform]. rewrite Hc. cbn [fst snd].
  assert (Hn : is_null nullptr = true) by reflexivity.
  assert (Hf : FAILED E_FAIL = true) by reflexivity.
  assert (Hdel : forall d p,
            hCaptureThread d = None ->
            match delete_audioData (handler_released a) (mkWorld d p) with
            | Ok Completed w' => Ok None (platform w')
            | Ok Terminated _ => Hang
            | Fault => Fault
            | Hang => Hang
            end
            = Ok None (after_delete (handler_released a) (spCapture d) p)
              :> Res Platform AUDIO_SYS_HANDLE).
  { intros d p Ht.
    destruct (delete_audioData_idle (handler_released a) d p Ht) as [d' ->].
    reflexivity. }
  destruct (FAILED (ActivateAudioInterfaceAsync_hr a)) eqn:E0.
  { cbv beta iota. rewrite E0. rewrite Hdel by reflexivity. reflexivity. }
  destruct (FAILED (GetActivateResult_hr a)) eqn:E1;
    [rewrite ?Hn; reflexivity|].
  destruct (FAILED (activateResult a)) eqn:E2;
    [cbn; rewrite E1; reflexivity|].
  destruct (is_null (punkAudioInterface a)) eqn:E3; [reflexivity|].
  cbn [session platform spCapture set_spCapture pAudioInputClient m_promise
       set_m_promise set_pAudioInputClient set_audioInFormat].
  destruct (is_null (CopyTo_out a)) eqn:E4;
    [rewrite Hf; cbn; rewrite E4; reflexivity|].
  destruct (FAILED (Initialize_hr a)) eqn:E5.
  { cbn [session platform spCapture set_spCapture pAudioInputClient
         m_promise set_m_promise set_pAudioInputClient set_audioInFormat
         trace set_trace].
    rewrite E4. cbv beta iota.
    cbn [session platform spCapture set_spCapture pAudioInputClient
         m_promise set_m_promise set_pAudioInputClient set_audioInFormat
         trace set_trace].
    rewrite E5. rewrite Hdel by reflexivity.
    cbn [spCapture set_spCapture]. now rewrite <- app_assoc. }
  destruct (FAILED (SetEventHandle_hr a)) eqn:E6.
  { cbn [session platform spCapture set_spCapture pAudioInputClient
         m_promise set_m_promise set_pAudioInputClient set_audioInFormat
         trace set_trace].
    rewrite E4. cbv beta iota.
    cbn [session platform spCapture set_spCapture pAudioInputClient
         m_promise set_m_promise set_pAudioInputClient set_audioInFormat
         trace set_trace].
    rewrite E6. rewrite Hdel by reflexivity.
    cbn [spCapture set_spCapture]. now rewrite <- app_assoc. }
  cbn. rewrite E6. reflexivity.
Qed.

Lemma audio_create_initial (a : Activation) (p0 p : Platform)
    (d : AUDIO_SYS_DATA) :
  audio_create a p0 = Ok (Some d) p ->
  hCaptureThread d = None /\
  current_input_state d = AUDIO_STATE_STOPPED /\
  inputFrameCnt d = 160 /\
  (error_cb d = nullptr /\ user_errorctx d = nullptr /\
   output_state_cb d = nullptr /\ user_outputctx d = nullptr /\
   input_state_cb d = nullptr /\ user_inputctx d = nullptr /\
   audio_write_cb d = nullptr /\ user_write_ctx d = nullptr) /\
  hDeviceName d = None /\
  output_untouched d /\
  exists hr, m_promise (spCapture d) = Some hr /\ FAILED hr = false.
Proof.
  rewrite audio_create_eq. cbv zeta.
  destruct (FAILED (ActivateAudioInterfaceAsync_hr a)); [discriminate|].
  destruct (FAILED (GetActivateResult_hr a)) eqn:E1; [discriminate|].
  destruct (FAILED (activateResult a)).
  { intros H. injection H as <- <-. cbn. unfold output_untouched. cbn.
    repeat split; try reflexivity. eexists. split; [reflexivity|exact E1]. }
  destruct (is_null (punkAudioInterface a)); [discriminate|].
  destruct (is_null (CopyTo_out a)); [discriminate|].
  destruct (FAILED (Initialize_hr a)); [discriminate|].
  destruct (FAILED (SetEventHandle_hr a)) eqn:E6; [discriminate|].
  intros H. injection H as <- <-. cbn. unfold output_untouched. cbn.
  repeat split; try reflexivity. eexists. split; [reflexivity|exact E6].
Qed.

(** X4: every session audio_create returns has no capture thread, the
    persisted input state STOPPED, a frame count of 160, all eight callback
    and context slots null, no device name, the output members untouched
    (null handles, not cancelled, output state STOPPED), and a promise that
    holds a code that is not a failure. *)
Theorem audio_create_session_defaults (a : Activation) (p0 p : Platform)
    (d : AUDIO_SYS_DATA) :
  audio_create a p0 = Ok (Some d) p ->
  hCaptureThread d = None /\
  current_input_state d = AUDIO_STATE_STOPPED /\
  inputFrameCnt d = 160 /\
  (error_cb d = nullptr /\ user_errorctx d = nullptr /\
   output_state_cb d = nullptr /\ user_outputctx d = nullptr /\
   input_state_cb d = nullptr /\ user_inputctx d = nullptr /\
   audio_write_cb d = nullptr /\ user_write_ctx d = nullptr) /\
  hDeviceName d = None /\
  output_untouched d /\
  exists hr, m_promise (spCapture d) = Some hr /\ FAILED hr = false.
Proof. exact (audio_create_initial a p0 p d). Qed.

Lemma audio_create_session_defaults_witness :
  audio_create good_activation quiet_platform
  = Ok (Some sample_session) sample_platform /\
  inputFrameCnt sample_session = 160 /\
  audio_write_cb sample_session = nullptr /\
  hDeviceName sample_session = None.
Proof.
  assert (H : audio_create good_activation quiet_platform
              = Ok (Some sample_session) sample_platform)
    by (vm_compute; reflexivity).
  split; [exact H|].
  destruct (audio_create_session_defaults _ _ _ _ H)
    as (_ & _ & Hf & (_ & _ & _ & _ & _ & _ & Hw & _) & Hn & _).
  split; [exact Hf|]. split; [exact Hw | exact Hn].
Defined.

(** X5: what audio_create does, by the answers of the platform.  It
    returns a session exactly when ActivateAudioInterfaceAsync and
    GetActivateResult succeed and either the activation is reported as
    failed or every later call succeeds; it returns null exactly when
    ActivateAudioInterfaceAsync fails or Initialize or SetEventHandle
    fails; it makes a call through a null pointer exactly when
    GetActivateResult fails or the interface gives no audio client; it
    never waits for ever on the future. *)
Theorem audio_create_decision_table (a : Activation) (p0 : Platform) :
  ((exists d p, audio_create a p0 = Ok (Some d) p) <->
   FAILED (ActivateAudioInterfaceAsync_hr a) = false /\
   FAILED (GetActivateResult_hr a) = false /\
   (FAILED (activateResult a) = true \/
    (punkAudioInterface a <> nullptr /\ CopyTo_out a <> nullptr /\
     FAILED (Initialize_hr a) = false /\
     FAILED (SetEventHandle_hr a) = false))) /\
  ((exists p, audio_create a p0 = Ok None p) <->
   FAILED (ActivateAudioInterfaceAsync_hr a) = true \/
   (FAILED (GetActivateResult_hr a) = false /\
    FAILED (activateResult a) = false /\
    punkAudioInterface a <> nullptr /\ CopyTo_out a <> nullptr /\
    (FAILED (Initialize_hr a) = true \/
     FAILED (SetEventHandle_hr a) = true))) /\
  (audio_create a p0 = Fault <->
   FAILED (ActivateAudioInterfaceAsync_hr a) = false /\
   (FAILED (GetActivateResult_hr a) = true \/
    (FAILED (activateResult a) = false /\
     (punkAudioInterface a = nullptr \/ CopyTo_out a = nullptr)))) /\
  audio_create a p0 <> Hang.
Proof.
  rewrite audio_create_eq. cbv zeta.
  rewrite <- !is_null_false, <- !is_null_true.
  destruct (FAILED (ActivateAudioInterfaceAsync_hr a));
    [|destruct (FAILED (GetActivateResult_hr a));
      [|destruct (FAILED (activateResult a));
        [|destruct (is_null (punkAudioInterface a));
          [|destruct (is_null (CopyTo_out a));
            [|destruct (FAILED (Initialize_hr a));
              [|destruct (FAILED (SetEventHandle_hr a))]]]]]].
  all: repeat split; intros.
  all: repeat match goal with
         | H : exists _, _ |- _ => destruct H
         | H : _ /\ _ |- _ => destruct H
         | H : _ \/ _ |- _ => destruct H
         end.
  all: try discriminate; try congruence.
  all: try (eexists _, _; reflexivity); try (eexists; reflexivity).
  all: intuition congruence.
Qed.

(** ** What each operation leaves alone *)

Lemma same_events_refl (k : Kernel) : same_events k k.
Proof. intros h. reflexivity. Qed.

Lemma same_events_trans (k1 k2 k3 : Kernel) :
  same_events k1 k2 -> same_events k2 k3 -> same_events k1 k3.
Proof. intros H1 H2 h. now rewrite H2, H1. Qed.

Lemma same_events_store (k : Kernel) (h : HANDLE) (b : bool) :
  same_events k (event_store k h b).
Proof. intros h'. apply valid_handle_store. Qed.

Lemma same_events_SetEvent (k : Kernel) (h : HANDLE) :
  same_events k (SetEvent k h).
Proof.
  unfold SetEvent. destruct (valid_handle k h);
    [apply same_events_store | apply same_events_refl].
Qed.

Lemma first_signalled_some (k : Kernel) (hs : list HANDLE) :
  forall i j h, first_signalled k hs i = Some (j, h) -> In h hs.
Proof.
  induction hs as [|h0 hs IH]; intros i j h; cbn; [discriminate|].
  destruct (event_state k h0) as [[|]|].
  - intros H. injection H as _ <-. now left.
  - intros H. right. eapply IH; eassumption.
  - intros H. right. eapply IH; eassumption.
Qed.

Lemma same_events_Wait (k k' : Kernel) (hs : list HANDLE) (r : DWORD) :
  WaitForMultipleObjects k hs = Some (r, k') -> same_events k k'.
Proof.
  unfold WaitForMultipleObjects.
  destruct (forallb (valid_handle k) hs).
  - destruct (first_signalled k hs 0) as [[i h]|]; [|discriminate].
    intros H. injection H as _ <-. apply same_events_store.
  - intros H. injection H as _ <-. apply same_events_refl.
Qed.

Lemma same_answers_refl (p : Platform) : same_answers p p.
Proof. repeat split. Qed.

Lemma same_answers_trans (p1 p2 p3 : Platform) :
  same_answers p1 p2 -> same_answers p2 p3 -> same_answers p1 p3.
Proof.
  unfold same_answers. intros (A1 & A2 & A3 & A4) (B1 & B2 & B3 & B4).
  repeat split; congruence.
Qed.

Lemma same_but_thread_and_state_refl (d : AUDIO_SYS_DATA) :
  same_but_thread_and_state d d.
Proof. destruct d. reflexivity. Qed.

Lemma same_but_thread_and_state_trans (d1 d2 d3 : AUDIO_SYS_DATA) :
  same_but_thread_and_state d1 d2 -> same_but_thread_and_state d2 d3 ->
  same_but_thread_and_state d1 d3.
Proof.
  unfold same_but_thread_and_state. intros H1 H2.
  rewrite H2. rewrite H1. reflexivity.
Qed.

(** A step of the capture thread. *)
Lemma thread_step_effect (w w' : World) :
  thread_step w = Ok tt w' -> thread_effect w w'.
Proof.
  unfold thread_effect. destruct w as [d p]. monad. norm.
  destruct (hCaptureThread d) as [t|] eqn:Ht.
  2:{ intros H. injection H as <-. norm.
      split; [apply same_but_thread_and_state_refl|].
      split; [apply same_events_refl|]. split; [apply same_answers_refl|].
      split; [reflexivity|]. exists []. now rewrite app_nil_r. }
  branch.
  all: intros H; injection H as <-; norm.
  all: split; [destruct d; reflexivity|].
  all: split;
    [ first [ apply same_events_refl
            | match goal with
              | H : WaitForMultipleObjects _ _ = Some _ |- _ =>
                  apply same_events_Wait in H; exact H
              end ] |].
  all: split; [unfold same_answers; cbn; auto|].
  all: split; [reflexivity|].
  all: eexists; split; [extends|].
  all: repeat constructor; cbn; try reflexivity.
  all: try (apply is_null_false; assumption); try discriminate.
Qed.

Lemma same_slots (d d' : AUDIO_SYS_DATA) :
  same_but_thread_and_state d d' ->
  spCapture d' = spCapture d /\
  input_state_cb d' = input_state_cb d /\
  user_inputctx d' = user_inputctx d /\
  audio_write_cb d' = audio_write_cb d /\
  user_write_ctx d' = user_write_ctx d /\
  inputFrameCnt d' = inputFrameCnt d /\
  hDeviceName d' = hDeviceName d.
Proof. intros H. rewrite H. cbn. repeat split. Qed.

Lemma callback_event_ok_same (d d' : AUDIO_SYS_DATA) (e : Event) :
  same_but_thread_and_state d d' ->
  callback_event_ok d e -> callback_event_ok d' e.
Proof.
  intros H. destruct (same_slots d d' H) as (_ & A & B & C & D & _).
  destruct e; cbn; try tauto; rewrite ?A, ?B, ?C, ?D; tauto.
Qed.

Lemma thread_effect_refl (w : World) : thread_effect w w.
Proof.
  split; [apply same_but_thread_and_state_refl|].
  split; [apply same_events_refl|]. split; [apply same_answers_refl|].
  split; [reflexivity|]. exists []. now rewrite app_nil_r.
Qed.

Lemma thread_effect_trans (w1 w2 w3 : World) :
  thread_effect w1 w2 -> thread_effect w2 w3 -> thread_effect w1 w3.
Proof.
  intros (A1 & A2 & A3 & A4 & b1 & T1 & F1) (B1 & B2 & B3 & B4 & b2 & T2 & F2).
  split; [eapply same_but_thread_and_state_trans; eassumption|].
  split; [eapply same_events_trans; eassumption|].
  split; [eapply same_answers_trans; eassumption|].
  split; [congruence|].
  exists (b1 ++ b2). split; [rewrite T2, T1; now rewrite app_assoc|].
  apply Forall_app. split; [exact F1|].
  eapply Forall_impl; [|exact F2]. intros e He.
  destruct (same_slots _ _ A1) as (_ & A & B & C & D & _).
  destruct e; cbn in *; try tauto; rewrite <- ?A, <- ?B, <- ?C, <- ?D; tauto.
Qed.

Lemma run_thread_effect (n : nat) :
  forall w w', run_thread n w = Ok tt w' -> thread_effect w w'.
Proof.
  induction n as [|n IH]; intros w w'; cbn [run_thread].
  - destruct (has_returned w); [|discriminate].
    intros H. injection H as <-. apply thread_effect_refl.
  - destruct (has_returned w).
    + intros H. injection H as <-. apply thread_effect_refl.
    + unfold bind. destruct (thread_step w) as [[] w1| |] eqn:Hs;
        try discriminate.
      intros H. eapply thread_effect_trans;
        [apply thread_step_effect; exact Hs | apply IH; exact H].
Qed.

(** A happening. *)
Lemma happen_effect (e : Happening) (w w' : World) :
  happen e w = Ok tt w' ->
  same_but_thread_and_state (session w) (session w') /\
  same_events (kernel (platform w)) (kernel (platform w')) /\
  client_started (platform w') = client_started (platform w) /\
  exists body,
    trace (platform w') = trace (platform w) ++ body /\
    Forall (callback_event_ok (session w)) body.
Proof.
  destruct e; cbn [happen].
  - intros H. destruct (thread_step_effect w w' H) as (A & B & _ & C & D).
    repeat split; assumption.
  - destruct w as [d p]. unfold load_capture, load, update_platform, bind.
    intros H. injection H as <-. cbn.
    split; [apply same_but_thread_and_state_refl|].
    split; [apply same_events_SetEvent|]. split; [reflexivity|].
    exists []. now rewrite app_nil_r.
  - destruct w as [d p]. unfold update_platform.
    intros H. injection H as <-. cbn.
    split; [apply same_but_thread_and_state_refl|].
    split; [apply same_events_SetEvent|]. split; [reflexivity|].
    exists []. now rewrite app_nil_r.
  - destruct w as [d p]. unfold update_platform.
    intros H. injection H as <-. cbn.
    split; [apply same_but_thread_and_state_refl|].
    split; [apply same_events_refl|]. split; [reflexivity|].
    exists []. now rewrite app_nil_r.
Qed.

(** audio_input_start on a session that passes its guards. *)
Lemma audio_input_start_eq (d : AUDIO_SYS_DATA) (p : Platform) :
  passes_guards d ->
  audio_input_start (Some d) p =
  let result :=
    if Start_answer p =? S_OK then AUDIO_RESULT_OK else AUDIO_RESULT_ERROR in
  match hCaptureThread d with
  | Some _ => Ok (result, Some d) (stream_started p)
  | None =>
      let d' := set_hCaptureThread (Some new_thread) d in
      let p' := set_trace (trace p ++ [EvThreadCreate]) p in
      if is_null (native_handle_answer p) then
        Ok (AUDIO_RESULT_ERROR, Some d') p'
      else Ok (result, Some d') (stream_started p')
  end.
Proof.
  intros (Hb & Hw & Hc & Hs). apply is_null_false in Hb, Hw, Hc.
  unfold audio_input_start, on_session, audio_input_start_stream,
    audio_input_start_Exit, stream_started.
  cbv beta iota zeta delta [EXIT_ON_ERROR_IF emit load_capture load ask
    update_session update_platform bind ret fault].
  norm. rewrite Hb, Hw, Hc. cbn [orb].
  destruct (AUDIO_STATE_eqb_spec (current_input_state d) AUDIO_STATE_RUNNING)
    as [Er|Er]; [contradiction|].
  assert (HS : forall hr, (hr =? S_OK) = true -> SUCCEEDED hr = true).
  { intros hr E. apply Z.eqb_eq in E. subst hr. reflexivity. }
  assert (HE : SUCCEEDED E_FAIL = false) by reflexivity.
  destruct (hCaptureThread d) as [t|] eqn:Ht; norm; rewrite ?Hc; norm.
  - destruct (Start_answer p =? S_OK) eqn:E; cbn [negb].
    + rewrite (HS _ E). destruct d; cbn in *; subst; reflexivity.
    + rewrite HE. destruct (SUCCEEDED (Start_answer p));
        destruct d; cbn in *; subst; reflexivity.
  - destruct (is_null (native_handle_answer p)) eqn:En; norm.
    + rewrite HE. reflexivity.
    + rewrite Hc. norm.
      destruct (Start_answer p =? S_OK) eqn:E; cbn [negb].
      * rewrite (HS _ E). reflexivity.
      * rewrite HE. destruct (SUCCEEDED (Start_answer p)); reflexivity.
Qed.

Lemma passes_guards_dec (d : AUDIO_SYS_DATA) (p : Platform) :
  passes_guards d \/
  (exists r, (r = AUDIO_RESULT_INVALID_ARG \/ r = AUDIO_RESULT_INVALID_STATE)
             /\ audio_input_start (Some d) p = Ok (r, Some d) p).
Proof.
  unfold audio_input_start, passes_guards.
  destruct (is_null (hBufferReady (spCapture d))) eqn:Eb.
  { right. eexists. split; [left; reflexivity | reflexivity]. }
  destruct (is_null (audio_write_cb d)) eqn:Ew; cbn [orb].
  { right. eexists. split; [right; reflexivity | reflexivity]. }
  destruct (is_null (pAudioInputClient (spCapture d))) eqn:Ec; cbn [orb].
  { right. eexists. split; [right; reflexivity | reflexivity]. }
  destruct (AUDIO_STATE_eqb_spec (current_input_state d) AUDIO_STATE_RUNNING)
    as [Er|Er].
  { right. eexists. split; [right; reflexivity | reflexivity]. }
  left. apply is_null_false in Eb, Ew, Ec. repeat split; assumption.
Qed.

Lemma stream_started_effect (p : Platform) :
  kernel (stream_started p) = kernel p /\
  capture_answers (stream_started p) = capture_answers p /\
  same_answers p (stream_started p) /\
  trace (stream_started p) = trace p ++ [EvClientStart (Start_answer p)].
Proof.
  unfold stream_started, same_answers.
  destruct (SUCCEEDED (Start_answer p)); cbn; repeat split; reflexivity.
Qed.

(** What audio_input_start changes. *)
Lemma audio_input_start_effect (d : AUDIO_SYS_DATA) (p p' : Platform)
    (r : AUDIO_RESULT) (h : AUDIO_SYS_HANDLE) :
  audio_input_start (Some d) p = Ok (r, h) p' ->
  exists d',
    h = Some d' /\
    (d' = d \/
     (hCaptureThread d = None /\ passes_guards d /\
      d' = set_hCaptureThread (Some new_thread) d)) /\
    kernel p' = kernel p /\
    capture_answers p' = capture_answers p /\
    same_answers p p' /\
    exists body,
      trace p' = trace p ++ body /\
      filter is_delivery body = [] /\ filter is_callback body = [].
Proof.
  destruct (passes_guards_dec d p) as [Hg | (r0 & _ & ->)].
  2:{ intros H. injection H as <- <- <-. exists d.
      split; [reflexivity|]. split; [now left|].
      split; [reflexivity|]. split; [reflexivity|].
      split; [apply same_answers_refl|]. exists [].
      now rewrite app_nil_r. }
  rewrite (audio_input_start_eq d p Hg). cbv zeta.
  destruct (stream_started_effect p) as (K1 & Q1 & A1 & T1).
  destruct (stream_started_effect (set_trace (trace p ++ [EvThreadCreate]) p))
    as (K2 & Q2 & A2 & T2).
  destruct (hCaptureThread d) as [t|] eqn:Ht.
  - intros H. injection H as <- <- <-. exists d.
    split; [reflexivity|]. split; [now left|].
    split; [exact K1|]. split; [exact Q1|]. split; [exact A1|].
    eexists. split; [exact T1|]. split; reflexivity.
  - destruct (is_null (native_handle_answer p)).
    + intros H. injection H as <- <- <-. eexists.
      split; [reflexivity|].
      split; [right; split; [reflexivity|]; split; [exact Hg|reflexivity]|].
      split; [reflexivity|]. split; [reflexivity|].
      split; [unfold same_answers; cbn; auto|].
      eexists. split; [reflexivity|]. split; reflexivity.
    + intros H. injection H as <- <- <-. eexists.
      split; [reflexivity|].
      split; [right; split; [reflexivity|]; split; [exact Hg|reflexivity]|].
      split; [exact K2|]. split; [exact Q2|]. split; [exact A2|].
      eexists. split; [rewrite T2; cbn; rewrite <- app_assoc; reflexivity|].
      split; reflexivity.
Qed.

(** What audio_input_stop changes. *)
Lemma audio_input_stop_effect (d : AUDIO_SYS_DATA) (p p' : Platform)
    (r : AUDIO_RESULT) (h : AUDIO_SYS_HANDLE) :
  audio_input_stop (Some d) p = Ok (r, h) p' ->
  (current_input_state d <> AUDIO_STATE_RUNNING /\
   r = AUDIO_RESULT_INVALID_STATE /\ h = Some d /\ p' = p)
  \/
  (current_input_state d = AUDIO_STATE_RUNNING /\
   pAudioInputClient (spCapture d) <> nullptr /\
   r = AUDIO_RESULT_OK /\
   exists d',
     h = Some d' /\ hCaptureThread d' = None /\
     same_but_thread_and_state d d' /\
     same_events (kernel p) (kernel p') /\
     same_answers p p' /\
     client_started p' = false /\
     exists body,
       trace p'
       = trace p
         ++ [EvClientStop;
             EvSetEvent (hCaptureThreadShouldExit (spCapture d))]
         ++ body /\
       Forall (callback_event_ok d) body /\
       (hCaptureThread d = None -> body = [])).
Proof.
  destruct (AUDIO_STATE_eqb_spec (current_input_state d) AUDIO_STATE_RUNNING)
    as [Er|Er].
  2:{ rewrite (audio_input_stop_not_running d p Er).
      intros H. injection H as <- <- <-. left. repeat split. exact Er. }
  intros H. right. split; [exact Er|].
  assert (Ec : is_null (pAudioInputClient (spCapture d)) = false).
  { revert H. unfold audio_input_stop. rewrite Er.
    cbn [AUDIO_STATE_eqb negb]. unfold on_session, Stop_client.
    cbv beta iota zeta delta [emit load_capture load ask update_session
      update_platform bind ret fault]. norm.
    destruct (is_null (pAudioInputClient (spCapture d)));
      [discriminate | reflexivity]. }
  split; [apply is_null_false; exact Ec|].
  revert H. unfold audio_input_stop. rewrite Er. cbn [AUDIO_STATE_eqb negb].
  unfold on_session, Stop_client.
  cbv beta iota zeta delta [emit load_capture load ask update_session
    update_platform bind ret fault]. norm. rewrite Ec. norm.
  destruct (hCaptureThread d) as [t|] eqn:Ht.
  2:{ intros H. injection H as <- <- <-. split; [reflexivity|].
      exists d. split; [reflexivity|]. split; [exact Ht|].
      split; [apply same_but_thread_and_state_refl|]. cbn.
      split; [apply same_events_SetEvent|].
      split; [unfold same_answers; cbn; auto|]. split; [reflexivity|].
      exists []. rewrite <- !app_assoc. cbn.
      split; [reflexivity|]. split; [constructor | reflexivity]. }
  unfold join.
  cbv beta iota zeta delta [emit load_capture load ask update_session
    update_platform bind ret fault]. norm.
  set (w1 := mkWorld d _).
  destruct (run_thread _ w1) as [[] w2| |] eqn:Hrun; try discriminate.
  intros H. injection H as <- <- <-. split; [reflexivity|].
  destruct (run_thread_effect _ _ _ Hrun) as (A & B & C & D & body & T & F).
  unfold w1 in *. cbn [session platform] in *.
  eexists. split; [reflexivity|]. split; [reflexivity|]. cbn.
  split.
  { unfold same_but_thread_and_state in *. cbn. rewrite A at 1.
    reflexivity. }
  split; [eapply same_events_trans; [apply same_events_SetEvent | exact B]|].
  split; [exact C|]. split; [rewrite D; reflexivity|].
  exists (body ++ [EvThreadJoin]). rewrite T. cbn.
  split; [rewrite <- !app_assoc; reflexivity|].
  split; [|discriminate].
  apply Forall_app. split; [exact F | repeat constructor].
Qed.

(** What audio_set_options changes. *)
Lemma audio_set_options_effect (n1 n2 name : string) (value : option Pointee)
    (d : AUDIO_SYS_DATA) (r : AUDIO_RESULT) (h : AUDIO_SYS_HANDLE) :
  audio_set_options n1 n2 (Some d) name value = Some (r, h) ->
  (r = AUDIO_RESULT_INVALID_ARG /\ h = Some d) \/
  (r = AUDIO_RESULT_OK /\
   ((exists v, h = Some (set_inputFrameCnt v d)) \/
    (exists s, h = Some (set_hDeviceName (Some s) d)))).
Proof.
  unfold audio_set_options, STRING_construct, STRING_copy.
  destruct (String.eqb n1 name), (String.eqb n2 name),
    (hDeviceName d), value as [[i|cs]|]; cbn; intros H;
    try discriminate; injection H as <- <-.
  all: first [ left; split; reflexivity
             | right; split; [reflexivity|]; left; eexists; reflexivity
             | right; split; [reflexivity|]; right; eexists; reflexivity ].
Qed.

(** What audio_setcallbacks changes. *)
Lemma audio_setcallbacks_effect (d : AUDIO_SYS_DATA)
    (ocb octx icb ictx wcb wctx ecb ectx : ptr)
    (r : AUDIO_RESULT) (h : AUDIO_SYS_HANDLE) :
  audio_setcallbacks (Some d) ocb octx icb ictx wcb wctx ecb ectx = (r, h) ->
  (wcb = nullptr /\ r = AUDIO_RESULT_INVALID_ARG /\ h = Some d) \/
  (wcb <> nullptr /\ r = AUDIO_RESULT_OK /\
   h = Some
         (set_user_write_ctx wctx
            (set_audio_write_cb wcb
               (set_user_outputctx octx
                  (set_output_state_cb ocb
                     (set_user_inputctx ictx
                        (set_input_state_cb icb
                           (set_user_errorctx ecb
                              (set_error_cb ecb d))))))))).
Proof.
  unfold audio_setcallbacks.
  destruct (is_null wcb) eqn:E; cbn [negb]; intros H; injection H as <- <-.
  - left. apply is_null_true in E. repeat split. exact E.
  - right. apply is_null_false in E. repeat split. exact E.
Qed.

Lemma quiet_events_ok (d : AUDIO_SYS_DATA) (body : list Event) :
  filter is_delivery body = [] -> filter is_callback body = [] ->
  Forall (callback_event_ok d) body.
Proof.
  induction body as [|e body IH]; [constructor|].
  cbn [filter]. intros H1 H2.
  destruct (is_delivery e) eqn:E1; [discriminate|].
  destruct (is_callback e) eqn:E2; [discriminate|].
  constructor; [destruct e; cbn in *; try discriminate; exact I | auto].
Qed.

Lemma app_same_nil {A} (l body : list A) : l = l ++ body -> body = [].
Proof.
  intros H. rewrite <- (app_nil_r l) in H at 1.
  apply app_inv_head in H. now symmetry.
Qed.

(** One step of a session. *)
Lemma session_step_effect (w w' : World) :
  session_step w w' ->
  spCapture (session w') = spCapture (session w) /\
  same_events (kernel (platform w)) (kernel (platform w')) /\
  exists body,
    trace (platform w') = trace (platform w) ++ body /\
    Forall (callback_event_ok (session w)) body /\
    (hCaptureThread (session w) = None -> filter is_delivery body = []).
Proof.
  destruct 1 as [w ocb octx icb ictx wcb wctx ecb ectx r d Hset
                | w n1 n2 name value r d Hset
                | w r d p Hstart
                | w r d p Hstop
                | w e w' Hstep]; cbn [session platform].
  - destruct (audio_setcallbacks_keeps _ _ _ _ _ _ _ _ _ _ _ Hset)
      as (_ & Hcap & _).
    split; [exact Hcap|]. split; [apply same_events_refl|].
    exists []. rewrite app_nil_r. repeat split. constructor.
  - destruct (audio_set_options_keeps _ _ _ _ _ _ _ Hset) as (_ & Hcap & _).
    split; [exact Hcap|]. split; [apply same_events_refl|].
    exists []. rewrite app_nil_r. repeat split. constructor.
  - destruct (audio_input_start_effect _ _ _ _ _ Hstart)
      as (d' & Hd & Hcase & K & _ & _ & body & T & F1 & F2).
    injection Hd as ->.
    split; [destruct Hcase as [-> | (_ & _ & ->)]; reflexivity|].
    split; [rewrite K; apply same_events_refl|].
    exists body. split; [exact T|].
    split; [now apply quiet_events_ok | intros _; exact F1].
  - destruct (audio_input_stop_effect _ _ _ _ _ Hstop)
      as [(_ & _ & Hd & ->)
         | (_ & _ & _ & d' & Hd & _ & A & B & _ & _ & body & T & F & N)];
      injection Hd as ->.
    + split; [reflexivity|]. split; [apply same_events_refl|].
      exists []. rewrite app_nil_r. repeat split. constructor.
    + split; [apply (same_slots _ _ A)|]. split; [exact B|].
      eexists. split; [exact T|].
      split; [repeat constructor; exact F|].
      intros Hn. rewrite (N Hn). reflexivity.
  - destruct (happen_effect e w w' Hstep) as (A & B & _ & body & T & F).
    split; [apply (same_slots _ _ A)|]. split; [exact B|].
    exists body. split; [exact T|]. split; [exact F|].
    intros Hn. destruct e; cbn [happen] in Hstep.
    + rewrite (thread_step_idle w Hn) in Hstep. injection Hstep as <-.
      apply app_same_nil in T. now subst body.
    + destruct w as [d p].
      unfold load_capture, load, update_platform, bind in Hstep.
      injection Hstep as <-. cbn in T. apply app_same_nil in T.
      now subst body.
    + destruct w as [d p]. unfold update_platform in Hstep.
      injection Hstep as <-. cbn in T. apply app_same_nil in T.
      now subst body.
    + destruct w as [d p]. unfold update_platform in Hstep.
      injection Hstep as <-. cbn in T. apply app_same_nil in T.
      now subst body.
Qed.

Lemma session_step_reachable (w w' : World) :
  reachable w -> session_step w w' -> reachable w'.
Proof.
  intros Hr Hs. destruct Hs.
  - eapply reach_setcallbacks; eassumption.
  - eapply reach_set_options; eassumption.
  - eapply reach_start; eassumption.
  - eapply reach_stop; eassumption.
  - eapply reach_happen; eassumption.
Qed.

Lemma session_steps_reachable (w w' : World) :
  session_steps w w' -> reachable w -> reachable w'.
Proof.
  induction 1 as [|w1 w2 w3 Hs _ IH]; intros Hr; [exact Hr|].
  apply IH. eapply session_step_reachable; eassumption.
Qed.

Lemma session_steps_capture (w w' : World) :
  session_steps w w' ->
  spCapture (session w') = spCapture (session w) /\
  forall h,
    valid_handle (kernel (platform w')) h
    = valid_handle (kernel (platform w)) h.
Proof.
  induction 1 as [|w1 w2 w3 Hs _ IH]; [split; reflexivity|].
  destruct (session_step_effect w1 w2 Hs) as (A & B & _).
  destruct IH as [A' B']. split; [congruence|].
  intros h. rewrite B'. apply B.
Qed.

(** X6: whatever the controller calls (audio_setcallbacks,
    audio_set_options, audio_input_start, audio_input_stop) and whatever
    the capture thread and the platform do in between, the capture object
    of the session (client pointer, format, the two event handles, the
    promise) stays as creation left it, and no event is created or closed:
    the same handles are events of the kernel before and after. *)
Theorem capture_object_never_changes (w w' : World) :
  session_steps w w' ->
  spCapture (session w') = spCapture (session w) /\
  forall h,
    valid_handle (kernel (platform w')) h
    = valid_handle (kernel (platform w)) h.
Proof. exact (session_steps_capture w w'). Qed.

Lemma capture_object_never_changes_witness :
  session_steps registered_world running_world /\
  spCapture (session running_world) = spCapture (session registered_world) /\
  valid_handle (kernel (platform running_world)) 101 = true /\
  valid_handle (kernel (platform running_world)) 102 = true.
Proof.
  assert (H : session_steps registered_world running_world).
  { apply (steps_more registered_world started_world).
    - apply (step_start registered_world AUDIO_RESULT_OK).
      vm_compute. reflexivity.
    - apply (steps_more started_world running_world); [|apply steps_none].
      apply (step_happen started_world ThreadRuns);
        [vm_compute; reflexivity | reflexivity]. }
  split; [exact H|].
  destruct (capture_object_never_changes _ _ H) as [A B].
  split; [exact A|]. split; rewrite B; vm_compute; reflexivity.
Defined.



(** A session that has a thread has a write callback. *)
Lemma reachable_write_cb (w : World) :
  reachable w ->
  hCaptureThread (session w) <> None ->
  audio_write_cb (session w) <> nullptr.
Proof.
  induction 1 as [a p0 d p Hc
                 | w ocb octx icb ictx wcb wctx ecb ectx r d Hr IH Hset
                 | w n1 n2 name value r d Hr IH Hset
                 | w r d p Hr IH Hstart
                 | w r d p Hr IH Hstop
                 | w e w' Hr IH Hstep]; cbn [session].
  - destruct (audio_create_fresh a p0 p d Hc) as [Ht _]. congruence.
  - destruct (audio_setcallbacks_effect _ _ _ _ _ _ _ _ _ _ _ Hset)
      as [(_ & _ & Hd) | (Hw & _ & Hd)]; injection Hd as ->.
    + exact IH.
    + intros _. exact Hw.
  - destruct (audio_set_options_effect _ _ _ _ _ _ _ Hset)
      as [(_ & Hd) | (_ & [(v & Hd) | (s & Hd)])]; injection Hd as ->;
      exact IH.
  - destruct (audio_input_start_effect _ _ _ _ _ Hstart)
      as (d' & Hd & Hcase & _). injection Hd as ->.
    destruct Hcase as [-> | (_ & (_ & Hw & _) & ->)]; [exact IH|].
    intros _. exact Hw.
  - destruct (audio_input_stop_effect _ _ _ _ _ Hstop)
      as [(_ & _ & Hd & _) | (_ & _ & _ & d' & Hd & Hn & _)];
      injection Hd as ->; [exact IH | congruence].
  - destruct (happen_effect e w w' Hstep) as (A & _).
    destruct (same_slots _ _ A) as (_ & _ & _ & Hw & _). rewrite Hw.
    intros Ht. apply IH. intros Hn. apply Ht.
    destruct e; cbn [happen] in Hstep.
    + rewrite (thread_step_idle w Hn) in Hstep. injection Hstep as <-.
      exact Hn.
    + destruct w as [d p].
      unfold load_capture, load, update_platform, bind in Hstep.
      injection Hstep as <-. exact Hn.
    + destruct w as [d p]. unfold update_platform in Hstep.
      injection Hstep as <-. exact Hn.
    + destruct w as [d p]. unfold update_platform in Hstep.
      injection Hstep as <-. exact Hn.
Qed.

Lemma no_delivery_registered (body : list Event) :
  filter is_delivery body = [] -> Forall write_cb_registered body.
Proof.
  induction body as [|e body IH]; [constructor|].
  cbn [filter]. destruct (is_delivery e) eqn:E; [discriminate|].
  intros H. constructor; [destruct e; cbn in *; try discriminate; exact I|].
  now apply IH.
Qed.

(** X8: in one step of a reachable session (a controller call, a step of
    the capture thread, a platform happening), every callback invocation
    names the function and the context that are registered in the session
    when the step begins, the capture thread reading the slots anew at
    each use; and every delivery goes to a write callback that is not
    null. *)
Theorem deliveries_go_to_the_registered_callback (w w' : World) :
  reachable w ->
  session_step w w' ->
  exists body,
    trace (platform w') = trace (platform w) ++ body /\
    Forall (callback_event_ok (session w)) body /\
    Forall write_cb_registered body.
Proof.
  intros Hr Hs.
  destruct (session_step_effect w w' Hs) as (_ & _ & body & T & F & N).
  exists body. split; [exact T|]. split; [exact F|].
  destruct (hCaptureThread (session w)) as [t|] eqn:Ht.
  - assert (Hw : audio_write_cb (session w) <> nullptr)
      by (apply (reachable_write_cb w Hr); congruence).
    eapply Forall_impl; [|exact F].
    intros e. destruct e; cbn; try tauto. intros [-> _]. exact Hw.
  - apply no_delivery_registered. now apply N.
Qed.




Lemma draining_world_reachable : reachable draining_world.
Proof.
  apply (reach_happen
           (after [PacketsArrive [stop_packet; plain_packet]] running_world)
           ThreadRuns); [|vm_compute; reflexivity|reflexivity].
  apply (reach_happen running_world
           (PacketsArrive [stop_packet; plain_packet]));
    [exact running_world_reachable | vm_compute; reflexivity | reflexivity].
Defined.

Lemma deliveries_go_to_the_registered_callback_witness :
  reachable draining_world /\
  session_step draining_world delivered_world /\
  audio_write_cb (session draining_world) = 15 /\
  exists body,
    trace (platform delivered_world)
    = trace (platform draining_world) ++ body /\
    Forall (callback_event_ok (session draining_world)) body /\
    Forall write_cb_registered body.
Proof.
  assert (Hs : session_step draining_world delivered_world).
  { apply (step_happen draining_world ThreadRuns);
      [vm_compute; reflexivity | reflexivity]. }
  split; [exact draining_world_reachable|]. split; [exact Hs|].
  split; [reflexivity|].
  exact (deliveries_go_to_the_registered_callback _ _
           draining_world_reachable Hs).
Defined.

(** One step of a session whose thread is dead. *)
Lemma thread_dead_step (w w' : World) :
  thread_dead w ->
  session_step w w' ->
  thread_dead w' /\
  hCaptureThread (session w') = hCaptureThread (session w) /\
  current_input_state (session w') = current_input_state (session w) /\
  exists body,
    trace (platform w') = trace (platform w) ++ body /\
    filter is_delivery body = [] /\ filter is_callback body = [].
Proof.
  intros ((t & Ht & Hpc) & Hst) Hs.
  assert (Hgoal :
    hCaptureThread (session w') = hCaptureThread (session w) /\
    current_input_state (session w') = current_input_state (session w) /\
    exists body,
      trace (platform w') = trace (platform w) ++ body /\
      filter is_delivery body = [] /\ filter is_callback body = []).
  { destruct Hs as [w ocb octx icb ictx wcb wctx ecb ectx r d Hset
                   | w n1 n2 name value r d Hset
                   | w r d p Hstart
                   | w r d p Hstop
                   | w e w' Hstep]; cbn [session platform].
    - destruct (audio_setcallbacks_keeps _ _ _ _ _ _ _ _ _ _ _ Hset)
        as (A & _ & B & _).
      split; [exact A|]. split; [exact B|].
      exists []. now rewrite app_nil_r.
    - destruct (audio_set_options_keeps _ _ _ _ _ _ _ Hset) as (A & _ & B).
      split; [exact A|]. split; [exact B|].
      exists []. now rewrite app_nil_r.
    - destruct (audio_input_start_effect _ _ _ _ _ Hstart)
        as (d' & Hd & Hcase & _ & _ & _ & body & T & F1 & F2).
      injection Hd as ->.
      destruct Hcase as [-> | (Hn & _)]; [|congruence].
      split; [reflexivity|]. split; [reflexivity|].
      exists body. repeat split; assumption.
    - rewrite (audio_input_stop_not_running _ _ Hst) in Hstop.
      injection Hstop as _ <- <-.
      split; [reflexivity|]. split; [reflexivity|].
      exists []. now rewrite app_nil_r.
    - destruct e; cbn [happen] in Hstep.
      + destruct (thread_step_returned w t Ht Hpc)
          as (w1 & Hs1 & Ht1 & Hp & _ & _ & _ & Hst1).
        rewrite Hs1 in Hstep. injection Hstep as <-.
        split; [congruence|]. split; [exact Hst1|].
        exists []. rewrite Hp. now rewrite app_nil_r.
      + destruct w as [d p].
        unfold load_capture, load, update_platform, bind in Hstep.
        injection Hstep as <-. cbn.
        split; [reflexivity|]. split; [reflexivity|].
        exists []. now rewrite app_nil_r.
      + destruct w as [d p]. unfold update_platform in Hstep.
        injection Hstep as <-. cbn.
        split; [reflexivity|]. split; [reflexivity|].
        exists []. now rewrite app_nil_r.
      + destruct w as [d p]. unfold update_platform in Hstep.
        injection Hstep as <-. cbn.
        split; [reflexivity|]. split; [reflexivity|].
        exists []. now rewrite app_nil_r. }
  destruct Hgoal as (A & B & C).
  split; [|repeat split; assumption].
  split; [exists t; split; [congruence | exact Hpc] | congruence].
Qed.

(** X9: once the capture thread has returned on its own (the state is not
    RUNNING and nobody has joined it), no sequence of controller calls and
    happenings brings capture back: the std::thread stays joinable, so
    audio_input_start creates no new thread and changes nothing in the
    session, the persisted state keeps its value, audio_input_stop returns
    INVALID_STATE without joining, and no packet is delivered and no
    callback invoked ever again. *)
Theorem dead_thread_is_never_replaced (w w' : World) :
  thread_dead w ->
  session_steps w w' ->
  hCaptureThread (session w') = hCaptureThread (session w) /\
  current_input_state (session w') = current_input_state (session w) /\
  (exists body,
     trace (platform w') = trace (platform w) ++ body /\
     filter is_delivery body = [] /\ filter is_callback body = []) /\
  audio_input_stop (Some (session w')) (platform w')
  = Ok (AUDIO_RESULT_INVALID_STATE, Some (session w')) (platform w') /\
  forall r h p,
    audio_input_start (Some (session w')) (platform w') = Ok (r, h) p ->
    h = Some (session w').
Proof.
  intros Hd Hs. induction Hs as [w|w1 w2 w3 Hs _ IH].
  - split; [reflexivity|]. split; [reflexivity|].
    split; [exists []; now rewrite app_nil_r|].
    destruct Hd as ((t & Ht & Hpc) & Hst).
    split; [now apply audio_input_stop_not_running|].
    intros r h p Hstart.
    destruct (audio_input_start_effect _ _ _ _ _ Hstart)
      as (d' & -> & [-> | (Hn & _)] & _); [reflexivity | congruence].
  - destruct (thread_dead_step w1 w2 Hd Hs)
      as (Hd2 & A & B & b1 & T1 & F1 & G1).
    destruct (IH Hd2) as (A' & B' & (b2 & T2 & F2 & G2) & S & R).
    split; [congruence|]. split; [congruence|].
    split; [|split; assumption].
    exists (b1 ++ b2). split; [rewrite T2, T1; now rewrite app_assoc|].
    rewrite !filter_app, F1, F2, G1, G2. split; reflexivity.
Qed.

Lemma dead_thread_is_never_replaced_witness :
  reachable dead_world /\
  thread_dead dead_world /\
  session_steps dead_world dead_world_restarted /\
  hCaptureThread (session dead_world_restarted)
  = hCaptureThread (session dead_world) /\
  current_input_state (session dead_world_restarted) = AUDIO_STATE_STOPPED /\
  audio_input_stop (Some (session dead_world_restarted))
    (platform dead_world_restarted)
  = Ok (AUDIO_RESULT_INVALID_STATE, Some (session dead_world_restarted))
      (platform dead_world_restarted).
Proof.
  assert (Hr : reachable dead_world).
  { apply (reach_happen
             (after [AnswersChange (E_FAIL, nullptr) 401 501 S_OK]
                started_world) ThreadRuns);
      [|vm_compute; reflexivity|reflexivity].
    apply (reach_happen started_world
             (AnswersChange (E_FAIL, nullptr) 401 501 S_OK));
      [exact started_world_reachable | vm_compute; reflexivity
      | reflexivity]. }
  assert (Hd : thread_dead dead_world).
  { split; [|vm_compute; discriminate].
    eexists. split; vm_compute; reflexivity. }
  assert (Hs : session_steps dead_world dead_world_restarted).
  { apply (steps_more dead_world dead_world_restarted); [|apply steps_none].
    apply (step_start dead_world AUDIO_RESULT_OK). vm_compute. reflexivity. }
  split; [exact Hr|]. split; [exact Hd|]. split; [exact Hs|].
  destruct (dead_thread_is_never_replaced _ _ Hd Hs) as (A & B & _ & S & _).
  split; [exact A|]. split; [rewrite B; vm_compute; reflexivity | exact S].
Defined.

(** X10: on a session that passes the two guards, audio_input_start
    returns OK exactly when IAudioClient::Start returned S_OK (and, when it
    had to create the thread, the thread has a native handle); every other
    result of Start, success codes other than S_OK included, gives ERROR.
    In both cases the session has a capture thread afterwards and the
    persisted state is untouched. *)
Theorem audio_input_start_ok_iff (d : AUDIO_SYS_DATA) (p : Platform) :
  passes_guards d ->
  exists r d' p',
    audio_input_start (Some d) p = Ok (r, Some d') p' /\
    (r = AUDIO_RESULT_OK <->
     Start_answer p = S_OK /\
     (hCaptureThread d = None -> native_handle_answer p <> nullptr)) /\
    (r = AUDIO_RESULT_OK \/ r = AUDIO_RESULT_ERROR) /\
    hCaptureThread d' <> None /\
    current_input_state d' = current_input_state d.
Proof.
  intros Hg. rewrite (audio_input_start_eq d p Hg). cbv zeta.
  destruct (hCaptureThread d) as [t|] eqn:Ht.
  - eexists _, _, _. split; [reflexivity|]. rewrite Ht.
    destruct (Start_answer p =? S_OK) eqn:E.
    + apply Z.eqb_eq in E.
      split; [split; [intros _; split; [exact E | discriminate]
                     | reflexivity]|].
      split; [now left|]. split; [discriminate | reflexivity].
    + apply Z.eqb_neq in E.
      split; [split; [discriminate | intros [H _]; contradiction]|].
      split; [now right|]. split; [discriminate | reflexivity].
  - destruct (is_null (native_handle_answer p)) eqn:En.
    + apply is_null_true in En.
      eexists _, _, _. split; [reflexivity|].
      split; [split; [discriminate
                     | intros [_ H]; exfalso; now apply H]|].
      split; [now right|]. split; [discriminate | reflexivity].
    + apply is_null_false in En.
      eexists _, _, _. split; [reflexivity|].
      destruct (Start_answer p =? S_OK) eqn:E.
      * apply Z.eqb_eq in E.
        split; [split; [intros _; split; [exact E | intros _; exact En]
                       | reflexivity]|].
        split; [now left|]. split; [discriminate | reflexivity].
      * apply Z.eqb_neq in E.
        split; [split; [discriminate | intros [H _]; contradiction]|].
        split; [now right|]. split; [discriminate | reflexivity].
Qed.

Lemma audio_input_start_ok_iff_witness :
  passes_guards registered_session /\
  exists d' p',
    audio_input_start (Some registered_session) reluctant_platform
    = Ok (AUDIO_RESULT_ERROR, Some d') p' /\
    hCaptureThread d' <> None.
Proof.
  assert (Hg : passes_guards registered_session).
  { repeat split; vm_compute; try lia; discriminate. }
  split; [exact Hg|].
  destruct (audio_input_start_ok_iff registered_session reluctant_platform Hg)
    as (r & d' & p' & Hs & Hiff & [Hr | Hr] & Ht & _).
  - exfalso. apply Hiff in Hr. destruct Hr as [Hr _].
    vm_compute in Hr. discriminate Hr.
  - subst r. exists d', p'. split; [exact Hs | exact Ht].
Defined.

(** X11: when audio_input_start has created the thread and returns ERROR
    because Start did not return S_OK, the thread is left behind: once it
    runs its entry the persisted state is RUNNING and the thread waits, a
    second audio_input_start is rejected with INVALID_STATE, and only
    audio_input_stop, which returns OK, joins the thread and brings the
    state back to STOPPED. *)
Theorem failed_start_leaves_the_thread (d : AUDIO_SYS_DATA) (p : Platform) :
  passes_guards d ->
  hCaptureThread d = None ->
  native_handle_answer p <> nullptr ->
  Start_answer p <> S_OK ->
  FAILED (fst (GetService_answer p)) = false ->
  new_answer p <> nullptr ->
  exists d1 p1 w2 d3 p3,
    audio_input_start (Some d) p = Ok (AUDIO_RESULT_ERROR, Some d1) p1 /\
    hCaptureThread d1 = Some new_thread /\
    thread_step (mkWorld d1 p1) = Ok tt w2 /\
    current_input_state (session w2) = AUDIO_STATE_RUNNING /\
    thread_at w2 AtWait /\
    audio_input_start (Some (session w2)) (platform w2)
    = Ok (AUDIO_RESULT_INVALID_STATE, Some (session w2)) (platform w2) /\
    audio_input_stop (Some (session w2)) (platform w2)
    = Ok (AUDIO_RESULT_OK, Some d3) p3 /\
    hCaptureThread d3 = None /\
    current_input_state d3 = AUDIO_STATE_STOPPED.
Proof.
  intros Hg Ht Hn Hs Hsvc Hnew.
  pose proof Hg as (Hb & Hw & Hc & Hst).
  pose proof (audio_input_start_eq d p Hg) as Heq. cbv zeta in Heq.
  rewrite Ht in Heq. apply is_null_false in Hn. rewrite Hn in Heq.
  apply Z.eqb_neq in Hs. rewrite Hs in Heq.
  set (d1 := set_hCaptureThread (Some new_thread) d) in *.
  set (p1 := stream_started _) in *.
  destruct (stream_started_effect (set_trace (trace p ++ [EvThreadCreate]) p))
    as (_ & _ & (A1 & A2 & _) & _). fold p1 in A1, A2. cbn in A1, A2.
  destruct (captureThreadProc_entry_runs (mkWorld d1 p1))
    as (w2 & t2 & Hstep & Hrun & Ht2 & Hpc2 & Hfr);
    [reflexivity | exact Hc | cbn; rewrite A1; exact Hsvc
    | cbn; rewrite A2; exact Hnew |].
  destruct Hfr as [Fcap Fwcb _ _ _ _ _ _ _ _]. cbn [session platform] in *.
  assert (Hc2 : pAudioInputClient (spCapture (session w2)) <> nullptr)
    by (rewrite Fcap; exact Hc).
  destruct (audio_input_stop_running (session w2) (platform w2) Hrun Hc2)
    as (d3 & p3 & body & Hstop & Hnone & _ & _ & _ & Hstopped & _).
  { intros t0 Ht0. rewrite Ht2 in Ht0. injection Ht0 as <-.
    rewrite Hpc2. split; discriminate. }
  exists d1, p1, w2, d3, p3.
  split; [exact Heq|]. split; [reflexivity|]. split; [exact Hstep|].
  split; [exact Hrun|]. split; [exists t2; split; assumption|].
  split.
  { unfold audio_input_start. rewrite Fcap, Fwcb.
    apply is_null_false in Hb, Hw, Hc. unfold d1. cbn. rewrite Hb, Hw, Hc.
    rewrite Hrun. reflexivity. }
  split; [exact Hstop|]. split; [exact Hnone|].
  apply (Hstopped t2 Ht2). rewrite Hpc2. discriminate.
Qed.

Lemma failed_start_leaves_the_thread_witness :
  passes_guards registered_session /\
  hCaptureThread registered_session = None /\
  Start_answer reluctant_platform <> S_OK /\
  exists d1 p1 w2,
    audio_input_start (Some registered_session) reluctant_platform
    = Ok (AUDIO_RESULT_ERROR, Some d1) p1 /\
    thread_step (mkWorld d1 p1) = Ok tt w2 /\
    current_input_state (session w2) = AUDIO_STATE_RUNNING.
Proof.
  assert (Hg : passes_guards registered_session).
  { repeat split; vm_compute; try lia; discriminate. }
  assert (Hs : Start_answer reluctant_platform <> S_OK)
    by (vm_compute; lia).
  split; [exact Hg|]. split; [reflexivity|]. split; [exact Hs|].
  destruct (failed_start_leaves_the_thread registered_session
              reluctant_platform Hg eq_refl)
    as (d1 & p1 & w2 & _ & _ & H1 & _ & H2 & H3 & _);
    [vm_compute; lia | exact Hs | reflexivity | vm_compute; lia |].
  exists d1, p1, w2. repeat split; assumption.
Defined.

(** X12: audio_input_stop called right after a successful
    audio_input_start, before the new thread has executed its entry, finds
    the persisted state not RUNNING and returns INVALID_STATE without
    setting the shutdown event or joining; the thread then runs its entry,
    stores RUNNING and waits, with the native stream started. *)
Theorem stop_before_the_thread_runs_is_rejected (d : AUDIO_SYS_DATA)
    (p : Platform) :
  hCaptureThread d = None ->
  current_input_state d <> AUDIO_STATE_RUNNING ->
  startable d p ->
  exists d1 p1 w2,
    audio_input_start (Some d) p = Ok (AUDIO_RESULT_OK, Some d1) p1 /\
    audio_input_stop (Some d1) p1
    = Ok (AUDIO_RESULT_INVALID_STATE, Some d1) p1 /\
    thread_step (mkWorld d1 p1) = Ok tt w2 /\
    current_input_state (session w2) = AUDIO_STATE_RUNNING /\
    thread_at w2 AtWait /\
    client_started (platform w2) = true.
Proof.
  intros Ht Hst Hok.
  pose proof Hok as (Hb & Hw & Hc & Hn & Hs & Hsvc & Hnew).
  rewrite (audio_input_start_spawns d p Ht Hst Hok).
  eexists _, _. 
  destruct (captureThreadProc_entry_runs
              (mkWorld (set_hCaptureThread (Some new_thread) d)
                 (set_client_started true
                    (set_trace (trace p ++ [EvThreadCreate; EvClientStart S_OK])
                       p))))
    as (w2 & t2 & Hstep & Hrun & Ht2 & Hpc2 & Hfr);
    [reflexivity | exact Hc | exact Hsvc | exact Hnew |].
  exists w2. split; [reflexivity|].
  split; [apply audio_input_stop_not_running; exact Hst|].
  split; [exact Hstep|]. split; [exact Hrun|].
  split; [exists t2; split; assumption|].
  destruct Hfr as [_ _ _ _ _ _ _ _ Fstarted _]. rewrite Fstarted.
  reflexivity.
Qed.

Lemma stop_before_the_thread_runs_is_rejected_witness :
  hCaptureThread registered_session = None /\
  current_input_state registered_session <> AUDIO_STATE_RUNNING /\
  startable registered_session sample_platform /\
  audio_input_stop (Some (session started_world)) (platform started_world)
  = Ok (AUDIO_RESULT_INVALID_STATE, Some (session started_world))
      (platform started_world).
Proof.
  assert (Hst : current_input_state registered_session <> AUDIO_STATE_RUNNING)
    by (vm_compute; discriminate).
  assert (Hok : startable registered_session sample_platform).
  { unfold startable. repeat split; try reflexivity; vm_compute; lia. }
  split; [reflexivity|]. split; [exact Hst|]. split; [exact Hok|].
  destruct (stop_before_the_thread_runs_is_rejected registered_session
              sample_platform eq_refl Hst Hok)
    as (d1 & p1 & w2 & H1 & H2 & _).
  assert (E : audio_input_start (Some registered_session) sample_platform
              = Ok (AUDIO_RESULT_OK, Some (session started_world))
                  (platform started_world))
    by (vm_compute; reflexivity).
  rewrite E in H1. injection H1 as <- <-. exact H2.
Defined.

Lemma WASAPICapture_ctor_fresh (a : Activation) (k : Kernel) :
  pAudioInputClient (fst (WASAPICapture_ctor a k)) = nullptr /\
  m_promise (fst (WASAPICapture_ctor a k)) = None /\
  audioInFormat (fst (WASAPICapture_ctor a k)) = unset_format a.
Proof.
  destruct (WASAPICapture_ctor_cases a k)
    as [(_ & _ & ->) | [(_ & _ & ->) | (_ & ->)]]; repeat split.
Qed.

Lemma audio_create_client_cases (a : Activation) (p0 p : Platform)
    (d : AUDIO_SYS_DATA) :
  audio_create a p0 = Ok (Some d) p ->
  (FAILED (activateResult a) = true /\
   pAudioInputClient (spCapture d) = nullptr /\
   m_promise (spCapture d) = Some (GetActivateResult_hr a) /\
   trace p = trace p0 ++ [EvPromiseSet (GetActivateResult_hr a)])
  \/
  (activation_succeeds a /\
   pAudioInputClient (spCapture d) = CopyTo_out a /\
   pAudioInputClient (spCapture d) <> nullptr /\
   audioInFormat (spCapture d) = capture_format /\
   nBlockAlign (audioInFormat (spCapture d)) = 2 /\
   m_promise (spCapture d) = Some (SetEventHandle_hr a) /\
   trace p = trace p0 ++ [EvPromiseSet (SetEventHandle_hr a)]).
Proof.
  rewrite audio_create_eq. cbv zeta.
  destruct (FAILED (ActivateAudioInterfaceAsync_hr a)) eqn:E0;
    [discriminate|].
  destruct (FAILED (GetActivateResult_hr a)) eqn:E1; [discriminate|].
  destruct (FAILED (activateResult a)) eqn:E2.
  { intros H. injection H as <- <-. left. cbn. repeat split.
    apply WASAPICapture_ctor_fresh. }
  destruct (is_null (punkAudioInterface a)) eqn:E3; [discriminate|].
  destruct (is_null (CopyTo_out a)) eqn:E4; [discriminate|].
  destruct (FAILED (Initialize_hr a)) eqn:E5; [discriminate|].
  destruct (FAILED (SetEventHandle_hr a)) eqn:E6; [discriminate|].
  intros H. injection H as <- <-. right.
  apply is_null_false in E3, E4. cbn.
  split; [repeat split; assumption|]. repeat split. exact E4.
Qed.

(** X13: a session returned by audio_create either has no client, which is
    the case exactly when the activation was reported as failed (the
    promise then holds the result of GetActivateResult), or has the client
    the activation handed out, with the capture format stored, a block
    alignment of 2 bytes, and the result of SetEventHandle in the
    promise. *)
Theorem audio_create_client (a : Activation) (p0 p : Platform)
    (d : AUDIO_SYS_DATA) :
  audio_create a p0 = Ok (Some d) p ->
  (FAILED (activateResult a) = true /\
   pAudioInputClient (spCapture d) = nullptr /\
   m_promise (spCapture d) = Some (GetActivateResult_hr a) /\
   trace p = trace p0 ++ [EvPromiseSet (GetActivateResult_hr a)])
  \/
  (activation_succeeds a /\
   pAudioInputClient (spCapture d) = CopyTo_out a /\
   pAudioInputClient (spCapture d) <> nullptr /\
   audioInFormat (spCapture d) = capture_format /\
   nBlockAlign (audioInFormat (spCapture d)) = 2 /\
   m_promise (spCapture d) = Some (SetEventHandle_hr a) /\
   trace p = trace p0 ++ [EvPromiseSet (SetEventHandle_hr a)]).
Proof. exact (audio_create_client_cases a p0 p d). Qed.

Lemma audio_create_client_witness :
  audio_create good_activation quiet_platform
  = Ok (Some sample_session) sample_platform /\
  pAudioInputClient (spCapture sample_session) = 202 /\
  nBlockAlign (audioInFormat (spCapture sample_session)) = 2.
Proof.
  assert (H : audio_create good_activation quiet_platform
              = Ok (Some sample_session) sample_platform)
    by (vm_compute; reflexivity).
  split; [exact H|].
  destruct (audio_create_client _ _ _ _ H)
    as [(E & _) | (_ & Hc & _ & _ & Hal & _)].
  - vm_compute in E. discriminate E.
  - split; [exact Hc | exact Hal].
Defined.

(** The capture object of a reachable session is the one its creation
    left. *)
Lemma reachable_capture_created (w : World) :
  reachable w ->
  exists a p0 d0 p1,
    audio_create a p0 = Ok (Some d0) p1 /\
    spCapture (session w) = spCapture d0.
Proof.
  induction 1 as [a p0 d p Hc
                 | w ocb octx icb ictx wcb wctx ecb ectx r d Hr IH Hset
                 | w n1 n2 name value r d Hr IH Hset
                 | w r d p Hr IH Hstart
                 | w r d p Hr IH Hstop
                 | w e w' Hr IH Hstep].
  - exists a, p0, d, p. split; [exact Hc | reflexivity].
  - destruct IH as (a & p0 & d0 & p1 & Hc & E).
    exists a, p0, d0, p1. split; [exact Hc|]. rewrite <- E.
    apply (session_step_effect w (mkWorld d (platform w))).
    eapply step_setcallbacks; eassumption.
  - destruct IH as (a & p0 & d0 & p1 & Hc & E).
    exists a, p0, d0, p1. split; [exact Hc|]. rewrite <- E.
    apply (session_step_effect w (mkWorld d (platform w))).
    eapply step_set_options; eassumption.
  - destruct IH as (a & p0 & d0 & p1 & Hc & E).
    exists a, p0, d0, p1. split; [exact Hc|]. rewrite <- E.
    apply (session_step_effect w (mkWorld d p)).
    eapply step_start; eassumption.
  - destruct IH as (a & p0 & d0 & p1 & Hc & E).
    exists a, p0, d0, p1. split; [exact Hc|]. rewrite <- E.
    apply (session_step_effect w (mkWorld d p)).
    eapply step_stop; eassumption.
  - destruct IH as (a & p0 & d0 & p1 & Hc & E).
    exists a, p0, d0, p1. split; [exact Hc|]. rewrite <- E.
    apply (session_step_effect w w').
    eapply step_happen; eassumption.
Qed.

Lemma reachable_format (w : World) :
  reachable w ->
  pAudioInputClient (spCapture (session w)) <> nullptr ->
  audioInFormat (spCapture (session w)) = capture_format.
Proof.
  intros Hr Hc.
  destruct (reachable_capture_created w Hr) as (a & p0 & d0 & p1 & Hcr & E).
  rewrite E in *.
  destruct (audio_create_client_cases _ _ _ _ Hcr)
    as [(_ & Hn & _) | (_ & _ & _ & Hf & _)]; [contradiction | exact Hf].
Qed.

(** X14: on every reachable session, the entry of the capture thread, when
    the capture service is acquired, asks new for inputFrameCnt times 2
    bytes reduced modulo 2^64, the width of size_t in the 64-bit build.
    When new returns a block, the thread records it as the scratch buffer
    with that size as capacity and the write offset 0, and is at its wait:
    320 bytes for the frame count audio_create sets.  When new throws, the
    thread is aborted: no buffer is recorded and the wait is not
    reached. *)
Theorem capture_buffer_size (w : World) (t : CaptureThread) :
  reachable w ->
  hCaptureThread (session w) = Some t ->
  pc t = AtEntry ->
  FAILED (fst (GetService_answer (platform w))) = false ->
  let size := to_size_t (inputFrameCnt (session w) * 2) in
  exists w' t' body,
    thread_step w = Ok tt w' /\
    hCaptureThread (session w') = Some t' /\
    trace (platform w') = trace (platform w) ++ body /\
    (new_answer (platform w) <> nullptr ->
     pc t' = AtWait /\
     audioBuff t' = mkAudioDataBuffer (new_answer (platform w)) 0 size /\
     In (EvNewArray size (new_answer (platform w))) body) /\
    (new_answer (platform w) = nullptr ->
     pc t' = Aborted /\
     pAudioData (audioBuff t') = nullptr /\
     allocations body = [] /\
     In (EvBadAlloc size) body /\ In EvTerminate body).
Proof.
  intros Hr Ht Hpc Hsvc size. subst size.
  destruct (reachable_inv w Hr) as [I1 _].
  destruct (I1 t Ht) as [Hc _].
  pose proof (reachable_format w Hr Hc) as Hf.
  apply is_null_false in Hc.
  destruct w as [d p]. cbn [session platform] in *.
  monad_keep_exit. norm. rewrite Ht. norm. rewrite Hpc. norm.
  destruct (is_null (input_state_cb d)); norm; rewrite Hc; norm;
    rewrite Hsvc; norm; rewrite Hf;
    change (nBlockAlign capture_format) with 2;
    destruct (is_null (new_answer p)) eqn:En; norm; rewrite ?En; norm.
  all: eexists _, _, _; split; [reflexivity|]; norm.
  all: split; [reflexivity|].
  all: split; [extends|].
  all: first [ apply is_null_true in En | apply is_null_false in En ].
  all: split; [intros Hn | intros Hn]; try contradiction.
  all: cbn; tauto.
Qed.

Lemma capture_buffer_size_witness :
  reachable started_world /\
  hCaptureThread (session started_world) = Some new_thread /\
  new_answer (platform started_world) <> nullptr /\
  (exists w' t' body,
     thread_step started_world = Ok tt w' /\
     hCaptureThread (session w') = Some t' /\
     trace (platform w') = trace (platform started_world) ++ body /\
     pc t' = AtWait /\
     audioBuff t' = mkAudioDataBuffer 401 0 320 /\
     In (EvNewArray 320 401) body) /\
  reachable starved_world /\
  new_answer (platform starved_world) = nullptr /\
  exists w' t' body,
    thread_step starved_world = Ok tt w' /\
    hCaptureThread (session w') = Some t' /\
    trace (platform w') = trace (platform starved_world) ++ body /\
    pc t' = Aborted /\
    In (EvBadAlloc 18446744073709551614) body.
Proof.
  assert (Hn : new_answer (platform started_world) <> nullptr)
    by (vm_compute; lia).
  split; [exact started_world_reachable|]. split; [reflexivity|].
  split; [exact Hn|]. split.
  - destruct (capture_buffer_size started_world new_thread
                started_world_reachable eq_refl eq_refl eq_refl)
      as (w' & t' & body & Hs & Ht & Htr & Hok & _).
    destruct (Hok Hn) as (Hpc & Hb & Hin).
    exists w', t', body. repeat split; assumption.
  - split; [exact starved_world_reachable|]. split; [reflexivity|].
    destruct (capture_buffer_size starved_world new_thread
                starved_world_reachable eq_refl eq_refl eq_refl)
      as (w' & t' & body & Hs & Ht & Htr & _ & Hfail).
    destruct (Hfail eq_refl) as (Hpc & _ & _ & Hin & _).
    exists w', t', body. repeat split; assumption.
Defined.

(** ** Deliveries *)

Lemma thread_at_not_returned (w : World) (l : ProgramPoint) :
  thread_at w l -> l <> Returned -> has_returned w = false.
Proof.
  intros (t & Ht & Hpc) Hl. unfold has_returned. rewrite Ht, Hpc.
  destruct l; try reflexivity. contradiction.
Qed.

(** A queue of deliverable packets is delivered in order to the write
    callback of the session; the kernel is left alone. *)
Lemma drain_in_order (q : list PacketAnswer) :
  Forall deliverable q ->
  forall (w : World),
  thread_at w AtDrain ->
  capture_answers (platform w) = q ->
  exists w' body,
    happenings (repeat ThreadRuns (List.length q)) w = Ok tt w' /\
    (forall fuel,
       run_thread (List.length q + fuel) w = run_thread fuel w') /\
    thread_at w' AtDrain /\
    capture_answers (platform w') = [] /\
    trace (platform w') = trace (platform w) ++ body /\
    filter is_delivery body = map (delivery_of (session w)) q /\
    thread_effect w w' /\
    kernel (platform w') = kernel (platform w) /\
    (Forall (fun a => write_result a = 0) q ->
     current_input_state (session w') = current_input_state (session w)).
Proof.
  induction 1 as [|a q Ha Hq IH]; intros w Hat Hw.
  - exists w, []. cbn [List.length repeat happenings Nat.add map filter].
    rewrite app_nil_r.
    split; [reflexivity|]. split; [reflexivity|]. split; [exact Hat|].
    split; [exact Hw|]. split; [reflexivity|]. split; [reflexivity|].
    split; [apply thread_effect_refl|]. split; reflexivity.
  - pose proof Hat as (t & Ht & Hpc).
    destruct (drain_delivers w t a q Ht Hpc Hw Ha)
      as (w1 & Hstep & Ht1 & Hq1 & Hst1 & Htr1).
    pose proof (thread_step_effect w w1 Hstep) as Heff.
    assert (Hk : kernel (platform w1) = kernel (platform w)).
    { revert Hstep. destruct w as [d p]. cbn [session platform] in *.
      destruct Ha as (Hs & Hl & Hb). apply Z.eqb_neq in Hl.
      monad. norm. rewrite Ht. norm. rewrite Hpc. norm. rewrite Hw. norm.
      rewrite Hs. norm. rewrite Hl. norm. rewrite Hb. norm.
      destruct (write_result a =? 0); norm;
        [|destruct (is_null (input_state_cb d)); norm];
        intros H; injection H as H; rewrite <- H; reflexivity. }
    destruct (IH w1) as (w' & body & Hrun & Hfuel & Hat' & Hq' & Htr' & Hdel
                         & Heff' & Hk' & Hst').
    { eexists. split; [exact Ht1|reflexivity]. }
    { exact Hq1. }
    destruct Heff as (A & _).
    destruct (same_slots _ _ A) as (_ & _ & _ & Hwcb & Hwctx & _).
    eexists w', _. cbn [List.length repeat happenings happen].
    unfold bind at 1. rewrite Hstep. split; [exact Hrun|].
    split.
    { intros fuel. cbn [Nat.add run_thread].
      rewrite (thread_at_not_returned w AtDrain Hat) by discriminate.
      unfold bind. rewrite Hstep. apply Hfuel. }
    split; [exact Hat'|]. split; [exact Hq'|].
    split; [rewrite Htr', Htr1; rewrite <- !app_assoc; reflexivity|].
    split.
    { rewrite !filter_app, Hdel. cbn [map].
      unfold delivery_of. rewrite Hwcb, Hwctx.
      destruct (write_result a =? 0); cbn; [reflexivity|].
      unfold notify_events. destruct (is_null _); reflexivity. }
    split; [eapply thread_effect_trans;
              [apply thread_step_effect; exact Hstep | exact Heff']|].
    split; [congruence|].
    intros Hall. inversion Hall as [|a0 q0 Ha0 Hq0]; subst.
    rewrite (Hst' Hq0), Hst1. apply Z.eqb_eq in Ha0. now rewrite Ha0.
Qed.

Lemma happenings_app (es1 es2 : list Happening) (w : World) :
  happenings (es1 ++ es2) w
  = match happenings es1 w with
    | Ok _ w1 => happenings es2 w1
    | Fault => Fault
    | Hang => Hang
    end.
Proof.
  revert w. induction es1 as [|e es1 IH]; intros w; [reflexivity|].
  cbn [app happenings]. unfold bind.
  destruct (happen e w) as [[] w1| |]; [apply IH | reflexivity..].
Qed.

(** The drain loop finds the queue empty: back to the wait, the kernel
    left alone. *)
Lemma drain_ends_quietly (w : World) (t : CaptureThread) :
  hCaptureThread (session w) = Some t ->
  pc t = AtDrain ->
  capture_answers (platform w) = [] ->
  thread_step w
  = Ok tt (mkWorld (set_hCaptureThread (Some (set_pc AtWait t)) (session w))
             (set_trace (trace (platform w) ++ [EvGetNextPacketSize S_OK 0])
                (platform w))).
Proof.
  intros Ht Hpc Hq. destruct w as [d p]. cbn [session platform] in *.
  monad. norm. rewrite Ht. norm. rewrite Hpc. norm. rewrite Hq. norm. cbn.
  reflexivity.
Qed.

(** The wait is satisfied by the buffer-ready event alone. *)
Lemma wait_buffer_ready (k : Kernel) (hExit hReady : HANDLE) :
  hExit <> nullptr -> hReady <> nullptr -> hExit <> hReady ->
  event_state k hExit = Some false ->
  event_state k hReady <> None ->
  WaitForMultipleObjects (SetEvent k hReady) [hExit; hReady]
  = Some (WAIT_OBJECT_0 + 1, event_store (SetEvent k hReady) hReady false) /\
  event_state (event_store (SetEvent k hReady) hReady false) hReady
  = Some false /\
  event_state (event_store (SetEvent k hReady) hReady false) hExit
  = Some false.
Proof.
  intros Hx Hr Hne Sx Sr.
  apply is_null_false in Hx, Hr.
  assert (Vr : valid_handle k hReady = true).
  { unfold valid_handle. rewrite Hr. cbn.
    destruct (event_state k hReady); [reflexivity | contradiction]. }
  assert (Vx : valid_handle k hExit = true).
  { unfold valid_handle. rewrite Hx, Sx. reflexivity. }
  unfold SetEvent. rewrite Vr.
  assert (Ex : event_state (event_store k hReady true) hExit = Some false).
  { rewrite event_state_store.
    destruct (hExit =? hReady) eqn:E; [|exact Sx].
    apply Z.eqb_eq in E. contradiction. }
  assert (Er : event_state (event_store k hReady true) hReady = Some true).
  { rewrite event_state_store, Z.eqb_refl.
    destruct (event_state k hReady); [reflexivity | contradiction]. }
  split.
  - unfold WaitForMultipleObjects. cbn [forallb].
    rewrite !valid_handle_store, Vx, Vr. cbn [andb first_signalled].
    rewrite Ex, Er. reflexivity.
  - split.
    + rewrite event_state_store, Z.eqb_refl, Er. reflexivity.
    + rewrite event_state_store.
      destruct (hExit =? hReady) eqn:E; [|exact Ex].
      apply Z.eqb_eq in E. contradiction.
Qed.

(** X15: when packets arrive while the capture thread waits with nothing
    queued and the shutdown event unsignalled, the thread wakes up, hands
    every packet to the write callback and context of the session, in the
    order of arrival, finds the queue empty and goes back to the wait; the
    buffer-ready event has been consumed, and the persisted state is
    unchanged when no delivery asked to stop. *)
Theorem packets_are_delivered_in_order (w : World) (t : CaptureThread)
    (q : list PacketAnswer) :
  let hExit := hCaptureThreadShouldExit (spCapture (session w)) in
  let hReady := hBufferReady (spCapture (session w)) in
  let k := kernel (platform w) in
  hCaptureThread (session w) = Some t ->
  pc t = AtWait ->
  capture_answers (platform w) = [] ->
  Forall deliverable q ->
  hExit <> nullptr -> hReady <> nullptr -> hExit <> hReady ->
  event_state k hExit = Some false ->
  event_state k hReady <> None ->
  exists w' body,
    happenings (PacketsArrive q :: repeat ThreadRuns (2 + List.length q)) w
    = Ok tt w' /\
    thread_at w' AtWait /\
    capture_answers (platform w') = [] /\
    trace (platform w') = trace (platform w) ++ body /\
    filter is_delivery body = map (delivery_of (session w)) q /\
    event_state (kernel (platform w')) hReady = Some false /\
    event_state (kernel (platform w')) hExit = Some false /\
    (Forall (fun a => write_result a = 0) q ->
     current_input_state (session w') = current_input_state (session w)).
Proof.
  intros hExit hReady k Ht Hpc Hq0 Hq Hx Hr Hne Sx Sr.
  destruct (wait_buffer_ready k hExit hReady Hx Hr Hne Sx Sr)
    as (HW & Sr' & Sx').
  destruct w as [d p]. subst hExit hReady k. cbn [session platform] in *.
  set (k1 := event_store _ _ false) in *.
  (* the packets arrive and the wait is satisfied *)
  set (w1 := mkWorld (set_hCaptureThread (Some (set_pc AtDrain t)) d)
               (set_trace (trace p ++ [EvWait (WAIT_OBJECT_0 + 1)])
                  (set_kernel k1
                     (set_kernel (SetEvent (kernel p) (hBufferReady (spCapture d)))
                        (set_capture_answers (capture_answers p ++ q) p))))).
  assert (H1 : happenings [PacketsArrive q; ThreadRuns] (mkWorld d p)
               = Ok tt w1).
  { cbn [happenings happen].
    unfold load_capture, load, update_platform, bind at 1 2 3. norm.
    monad. norm. rewrite Ht. norm. rewrite Hpc. norm. rewrite HW. norm.
    reflexivity. }
  assert (Hat1 : thread_at w1 AtDrain).
  { eexists. split; reflexivity. }
  assert (Hq1 : capture_answers (platform w1) = q).
  { unfold w1. cbn. now rewrite Hq0. }
  destruct (drain_in_order q Hq w1 Hat1 Hq1)
    as (w2 & body & Hrun & _ & (t2 & Ht2 & Hpc2) & Hq2 & Htr2 & Hdel & Heff
        & Hk2 & Hst2).
  pose proof (drain_ends_quietly w2 t2 Ht2 Hpc2 Hq2) as H3.
  eexists _, _.
  change (PacketsArrive q :: repeat ThreadRuns (2 + List.length q))
    with ([PacketsArrive q; ThreadRuns]
          ++ ThreadRuns :: repeat ThreadRuns (List.length q)).
  rewrite repeat_cons. rewrite happenings_app, H1.
  rewrite happenings_app, Hrun.
  cbn [happenings happen]. unfold bind. rewrite H3. unfold ret.
  split; [reflexivity|]. cbn [session platform].
  split; [eexists; split; reflexivity|]. cbn.
  split; [exact Hq2|].
  split; [rewrite Htr2; unfold w1; cbn; rewrite <- !app_assoc; reflexivity|].
  split.
  { cbn [app filter is_delivery]. rewrite filter_app, Hdel. cbn.
    now rewrite app_nil_r. }
  rewrite Hk2. unfold w1. cbn.
  split; [exact Sr'|]. split; [exact Sx'|].
  intros Hall. rewrite (Hst2 Hall). reflexivity.
Qed.

Lemma packets_are_delivered_in_order_witness :
  hCaptureThread (session running_world)
  = Some (mkCaptureThread AtWait 301 (mkAudioDataBuffer 401 0 320) 0) /\
  capture_answers (platform running_world) = [] /\
  Forall deliverable three_packets /\
  event_state (kernel (platform running_world)) 102 = Some false /\
  event_state (kernel (platform running_world)) 101 = Some false /\
  exists w' body,
    happenings (PacketsArrive three_packets :: repeat ThreadRuns 5)
      running_world = Ok tt w' /\
    thread_at w' AtWait /\
    trace (platform w') = trace (platform running_world) ++ body /\
    filter is_delivery body
    = [EvGetBufferAndCallBackClient 15 16 S_OK;
       EvGetBufferAndCallBackClient 15 16 S_OK;
       EvGetBufferAndCallBackClient 15 16 S_OK].
Proof.
  assert (Ht : hCaptureThread (session running_world)
               = Some (mkCaptureThread AtWait 301
                         (mkAudioDataBuffer 401 0 320) 0))
    by (vm_compute; reflexivity).
  assert (Hq : capture_answers (platform running_world) = [])
    by (vm_compute; reflexivity).
  assert (Hd : Forall deliverable three_packets).
  { repeat constructor; vm_compute; try reflexivity; lia. }
  assert (Sx : event_state (kernel (platform running_world)) 102
               = Some false) by (vm_compute; reflexivity).
  assert (Sr : event_state (kernel (platform running_world)) 101
               = Some false) by (vm_compute; reflexivity).
  split; [exact Ht|]. split; [exact Hq|]. split; [exact Hd|].
  split; [exact Sx|]. split; [exact Sr|].
  destruct (packets_are_delivered_in_order running_world _ three_packets
              Ht eq_refl Hq Hd)
    as (w' & body & Hrun & Hat & _ & Htr & Hdel & _);
    [vm_compute; lia | vm_compute; lia | vm_compute; lia | exact Sx
    | vm_compute; discriminate |].
  exists w', body. split; [exact Hrun|]. split; [exact Hat|].
  split; [exact Htr | exact Hdel].
Defined.

(** ** Stopping a thread in the drain loop and at the wait *)

(** A wait that returns with a result other than "buffer ready": the
    thread runs the code at the Exit label. *)
Lemma wait_exit_step (w : World) (t : CaptureThread) (r : DWORD)
    (k' : Kernel) :
  hCaptureThread (session w) = Some t ->
  pc t = AtWait ->
  WaitForMultipleObjects (kernel (platform w))
    [hCaptureThreadShouldExit (spCapture (session w));
     hBufferReady (spCapture (session w))] = Some (r, k') ->
  (WAIT_OBJECT_0 + 1 =? r) = false ->
  thread_step w
  = Ok tt
      (mkWorld
         (set_hCaptureThread (Some (exit_thread t))
            (set_current_input_state AUDIO_STATE_STOPPED (session w)))
         (set_trace
            (trace (platform w) ++ [EvWait r] ++ exit_events (session w) t)
            (set_kernel k' (platform w)))).
Proof.
  intros Ht Hpc HW Hr. destruct w as [d p]. cbn [session platform] in *.
  monad_keep_exit. norm. rewrite Ht. norm. rewrite Hpc. norm.
  rewrite HW. norm. rewrite Hr. rewrite captureThreadProc_Exit_spec. norm.
  rewrite <- app_assoc. reflexivity.
Qed.

Lemma run_thread_returned (n : nat) (w : World) (t : CaptureThread) :
  hCaptureThread (session w) = Some t -> pc t = Returned ->
  run_thread n w = Ok tt w.
Proof.
  intros Ht Hpc. apply run_thread_done. unfold has_returned.
  now rewrite Ht, Hpc.
Qed.

(** The world in which audio_input_stop joins the thread. *)
Lemma audio_input_stop_join (d : AUDIO_SYS_DATA) (p : Platform)
    (t : CaptureThread) :
  current_input_state d = AUDIO_STATE_RUNNING ->
  pAudioInputClient (spCapture d) <> nullptr ->
  hCaptureThread d = Some t ->
  audio_input_stop (Some d) p
  = match
      run_thread (4 + List.length (capture_answers p))
        (mkWorld d
           (set_trace
              (trace p
               ++ [EvClientStop;
                   EvSetEvent (hCaptureThreadShouldExit (spCapture d))])
              (set_kernel
                 (SetEvent (kernel p)
                    (hCaptureThreadShouldExit (spCapture d)))
                 (set_client_started false p))))
    with
    | Ok _ w2 =>
        Ok (AUDIO_RESULT_OK, Some (set_hCaptureThread None (session w2)))
           (set_trace (trace (platform w2) ++ [EvThreadJoin]) (platform w2))
    | Fault => Fault
    | Hang => Hang
    end.
Proof.
  intros Hst Hc Ht. apply is_null_false in Hc.
  unfold audio_input_stop. rewrite Hst. cbn [AUDIO_STATE_eqb negb].
  unfold on_session, Stop_client, join.
  cbv beta iota zeta delta [emit load_capture load ask update_session
    update_platform bind ret fault]. norm. rewrite Hc. norm. rewrite Ht.
  norm. rewrite <- app_assoc. cbn [app].
  match goal with
  | |- context [run_thread _ (mkWorld d ?p1)] =>
      match goal with
      | |- _ = match run_thread _ (mkWorld d ?p2) with _ => _ end =>
          change p1 with p2
      end
  end.
  match goal with
  | |- context [run_thread ?n ?w] => destruct (run_thread n w) as [[] w2| |]
  end; reflexivity.
Qed.

Lemma exit_events_no_delivery (d : AUDIO_SYS_DATA) (t : CaptureThread) :
  filter is_delivery (exit_events d t) = [].
Proof.
  unfold exit_events.
  destruct (is_null (input_state_cb d)), (is_null (pCaptureClient t));
    reflexivity.
Qed.

(** X16: audio_input_stop on a session whose thread is in the drain loop
    returns OK only after the thread has delivered every packet still
    queued, in order: the drain loop does not look at the shutdown event,
    so the packets are delivered after the native stream was stopped; then
    the thread exits, is joined, and the state is STOPPED. *)
Theorem stop_lets_the_drain_loop_finish (d : AUDIO_SYS_DATA) (p : Platform)
    (t : CaptureThread) :
  current_input_state d = AUDIO_STATE_RUNNING ->
  pAudioInputClient (spCapture d) <> nullptr ->
  hCaptureThread d = Some t ->
  pc t = AtDrain ->
  Forall deliverable (capture_answers p) ->
  exists d' p' body,
    audio_input_stop (Some d) p = Ok (AUDIO_RESULT_OK, Some d') p' /\
    trace p'
    = trace p
      ++ [EvClientStop; EvSetEvent (hCaptureThreadShouldExit (spCapture d))]
      ++ body ++ [EvThreadJoin] /\
    filter is_delivery body = map (delivery_of d) (capture_answers p) /\
    capture_answers p' = [] /\
    hCaptureThread d' = None /\
    current_input_state d' = AUDIO_STATE_STOPPED.
Proof.
  intros Hst Hc Ht Hpc Hq.
  rewrite (audio_input_stop_join d p t Hst Hc Ht).
  set (w1 := mkWorld d _).
  assert (Hat1 : thread_at w1 AtDrain) by (exists t; split; assumption).
  destruct (drain_in_order _ Hq w1 Hat1 eq_refl)
    as (w2 & body & _ & Hfuel & (t2 & Ht2 & Hpc2) & Hq2 & Htr2 & Hdel & Heff
        & Hk2 & _).
  replace (4 + List.length (capture_answers p))%nat
    with (List.length (capture_answers p) + 4)%nat by lia.
  change (capture_answers (platform w1)) with (capture_answers p) in Hfuel.
  rewrite Hfuel.
  (* the queue is found empty *)
  cbn [run_thread].
  rewrite (thread_at_not_returned w2 AtDrain) by
    (try discriminate; exists t2; split; assumption).
  unfold bind at 1. rewrite (drain_ends_quietly w2 t2 Ht2 Hpc2 Hq2).
  set (w3 := mkWorld _ _).
  (* the wait finds the shutdown event *)
  destruct Heff as (A & _).
  destruct (same_slots _ _ A) as (Hcap & Hicb & Hictx & _).
  destruct (SetEvent_wait_exits (kernel p)
              (hCaptureThreadShouldExit (spCapture d))
              (hBufferReady (spCapture d))) as (r & k' & HW & Hr).
  assert (H3 : thread_step w3
               = Ok tt
                   (mkWorld
                      (set_hCaptureThread (Some (exit_thread (set_pc AtWait t2)))
                         (set_current_input_state AUDIO_STATE_STOPPED
                            (session w3)))
                      (set_trace
                         (trace (platform w3) ++ [EvWait r]
                          ++ exit_events (session w3) (set_pc AtWait t2))
                         (set_kernel k' (platform w3))))).
  { apply wait_exit_step; [reflexivity | reflexivity | | exact Hr].
    unfold w3. cbn [session platform kernel set_trace spCapture
                    set_hCaptureThread].
    rewrite Hk2, Hcap. exact HW. }
  assert (R3 : has_returned w3 = false) by reflexivity.
  rewrite R3. unfold bind at 1. rewrite H3.
  set (w4 := mkWorld _ _).
  assert (R4 : has_returned w4 = true) by reflexivity.
  rewrite R4.
  eexists _, _,
    (body ++ [EvGetNextPacketSize S_OK 0] ++ [EvWait r]
     ++ exit_events (session w3) (set_pc AtWait t2)).
  split; [reflexivity|].
  cbn [session platform trace set_trace capture_answers set_kernel
       hCaptureThread set_hCaptureThread current_input_state
       set_current_input_state].
  split.
  { unfold w4, w3. cbn [session platform trace set_trace set_kernel].
    rewrite Htr2. unfold w1. cbn [platform trace set_trace].
    rewrite <- !app_assoc. reflexivity. }
  split.
  { rewrite !filter_app, Hdel, exit_events_no_delivery. cbn.
    now rewrite app_nil_r. }
  split; [exact Hq2|]. split; reflexivity.
Qed.

Lemma stop_lets_the_drain_loop_finish_witness :
  current_input_state (session draining_world) = AUDIO_STATE_RUNNING /\
  hCaptureThread (session draining_world)
  = Some (mkCaptureThread AtDrain 301 (mkAudioDataBuffer 401 0 320) 0) /\
  capture_answers (platform draining_world) = [stop_packet; plain_packet] /\
  exists d' p' body,
    audio_input_stop (Some (session draining_world))
      (platform draining_world) = Ok (AUDIO_RESULT_OK, Some d') p' /\
    filter is_delivery body
    = [EvGetBufferAndCallBackClient 15 16 S_OK;
       EvGetBufferAndCallBackClient 15 16 S_OK] /\
    trace p'
    = trace (platform draining_world)
      ++ [EvClientStop; EvSetEvent 102] ++ body ++ [EvThreadJoin] /\
    capture_answers p' = [].
Proof.
  assert (Hst : current_input_state (session draining_world)
                = AUDIO_STATE_RUNNING) by (vm_compute; reflexivity).
  assert (Ht : hCaptureThread (session draining_world)
               = Some (mkCaptureThread AtDrain 301
                         (mkAudioDataBuffer 401 0 320) 0))
    by (vm_compute; reflexivity).
  assert (Hq : capture_answers (platform draining_world)
               = [stop_packet; plain_packet]) by (vm_compute; reflexivity).
  split; [exact Hst|]. split; [exact Ht|]. split; [exact Hq|].
  assert (Hc : pAudioInputClient (spCapture (session draining_world))
               <> nullptr) by (vm_compute; lia).
  assert (Hd : Forall deliverable (capture_answers (platform draining_world))).
  { rewrite Hq. repeat constructor; vm_compute; try reflexivity; lia. }
  destruct (stop_lets_the_drain_loop_finish (session draining_world)
              (platform draining_world) _ Hst Hc Ht eq_refl Hd)
    as (d' & p' & body & Hs & Htr & Hdel & Hq' & _).
  exists d', p', body. split; [exact Hs|].
  split; [rewrite Hdel, Hq; reflexivity|].
  split; [exact Htr | exact Hq'].
Defined.

Lemma run_thread_S (n : nat) (w : World) :
  run_thread (S n) w
  = if has_returned w then Ok tt w else (thread_step ;;; run_thread n) w.
Proof. reflexivity. Qed.

(** X17: audio_input_stop on a session whose thread is at its wait with
    the buffer-ready event not signalled, the thread being idle: SetEvent
    on the shutdown handle satisfies the wait with WAIT_OBJECT_0, the
    thread goes straight to its exit code, nothing is delivered, the
    queue of the capture client is not touched and the buffer-ready event
    stays unsignalled; the thread is joined and the state is STOPPED. *)
Theorem stop_at_the_wait_delivers_nothing (d : AUDIO_SYS_DATA)
    (p : Platform) (t : CaptureThread) :
  let hExit := hCaptureThreadShouldExit (spCapture d) in
  let hReady := hBufferReady (spCapture d) in
  current_input_state d = AUDIO_STATE_RUNNING ->
  pAudioInputClient (spCapture d) <> nullptr ->
  hCaptureThread d = Some t ->
  pc t = AtWait ->
  valid_handle (kernel p) hExit = true ->
  hReady <> nullptr ->
  event_state (kernel p) hReady = Some false ->
  exists d' p',
    audio_input_stop (Some d) p = Ok (AUDIO_RESULT_OK, Some d') p' /\
    trace p'
    = trace p
      ++ [EvClientStop; EvSetEvent hExit; EvWait WAIT_OBJECT_0]
      ++ exit_events d t ++ [EvThreadJoin] /\
    filter is_delivery (exit_events d t) = [] /\
    capture_answers p' = capture_answers p /\
    event_state (kernel p') hReady = Some false /\
    hCaptureThread d' = None /\
    current_input_state d' = AUDIO_STATE_STOPPED.
Proof.
  intros hExit hReady Hst Hc Ht Hpc Vx Hr Sr.
  rewrite (audio_input_stop_join d p t Hst Hc Ht).
  set (w1 := mkWorld d _).
  assert (Sx : exists b, event_state (kernel p) hExit = Some b).
  { unfold valid_handle in Vx. destruct (event_state (kernel p) hExit);
      [eexists; reflexivity | now rewrite andb_false_r in Vx]. }
  destruct Sx as [bx Sx].
  assert (HW : WaitForMultipleObjects (SetEvent (kernel p) hExit)
                 [hExit; hReady]
               = Some (WAIT_OBJECT_0,
                       event_store (SetEvent (kernel p) hExit) hExit false)).
  { unfold SetEvent, WaitForMultipleObjects. rewrite Vx. cbn [forallb].
    rewrite !valid_handle_store, Vx. unfold valid_handle at 1.
    apply is_null_false in Hr. rewrite Hr, Sr. cbn [negb andb].
    cbn [first_signalled]. rewrite event_state_store, Z.eqb_refl, Sx.
    reflexivity. }
  assert (Hr0 : (WAIT_OBJECT_0 + 1 =? WAIT_OBJECT_0) = false) by reflexivity.
  pose proof (wait_exit_step w1 t WAIT_OBJECT_0 _ Ht Hpc HW Hr0) as H1.
  change (4 + List.length (capture_answers p))%nat
    with (S (3 + List.length (capture_answers p))).
  rewrite run_thread_S.
  assert (R1 : has_returned w1 = false).
  { unfold has_returned, w1. cbn [session]. rewrite Ht, Hpc. reflexivity. }
  rewrite R1. unfold bind at 1. rewrite H1.
  set (w2 := mkWorld _ _).
  rewrite (run_thread_returned _ w2 (exit_thread t)) by reflexivity.
  exists (set_hCaptureThread None (session w2)).
  eexists. split; [reflexivity|].
  unfold w2, w1.
  cbn [session platform trace set_trace capture_answers set_kernel
       set_client_started hCaptureThread set_hCaptureThread
       current_input_state set_current_input_state kernel].
  split; [rewrite <- !app_assoc; reflexivity|].
  split; [apply exit_events_no_delivery|].
  split; [reflexivity|].
  split; [|split; reflexivity].
  unfold SetEvent. rewrite Vx. rewrite !event_state_store.
  destruct (hReady =? hExit) eqn:E; [|exact Sr].
  rewrite Z.eqb_refl, Sx. reflexivity.
Qed.

Lemma stop_at_the_wait_delivers_nothing_witness :
  current_input_state (session running_world) = AUDIO_STATE_RUNNING /\
  hCaptureThread (session running_world)
  = Some (mkCaptureThread AtWait 301 (mkAudioDataBuffer 401 0 320) 0) /\
  event_state (kernel (platform running_world)) 101 = Some false /\
  exists d' p',
    audio_input_stop (Some (session running_world))
      (platform running_world) = Ok (AUDIO_RESULT_OK, Some d') p' /\
    trace p'
    = trace (platform running_world)
      ++ [EvClientStop; EvSetEvent 102; EvWait WAIT_OBJECT_0;
          EvDeleteArray 401; EvStoreInputState AUDIO_STATE_STOPPED;
          EvInputStateCb 13 14 AUDIO_STATE_STOPPED; EvRelease 301;
          EvThreadJoin] /\
    current_input_state d' = AUDIO_STATE_STOPPED.
Proof.
  assert (Hst : current_input_state (session running_world)
                = AUDIO_STATE_RUNNING) by (vm_compute; reflexivity).
  assert (Ht : hCaptureThread (session running_world)
               = Some (mkCaptureThread AtWait 301
                         (mkAudioDataBuffer 401 0 320) 0))
    by (vm_compute; reflexivity).
  assert (Sr : event_state (kernel (platform running_world)) 101
               = Some false) by (vm_compute; reflexivity).
  split; [exact Hst|]. split; [exact Ht|]. split; [exact Sr|].
  assert (Hc : pAudioInputClient (spCapture (session running_world))
               <> nullptr) by (vm_compute; lia).
  destruct (stop_at_the_wait_delivers_nothing (session running_world)
              (platform running_world) _ Hst Hc Ht eq_refl)
    as (d' & p' & Hs & Htr & _ & _ & _ & _ & Hst');
    [vm_compute; reflexivity | vm_compute; lia | exact Sr |].
  exists d', p'. split; [exact Hs|]. split; [exact Htr | exact Hst'].
Defined.

(** ** Options *)

Lemma to_size_t_int (i : Z) :
  - 2 ^ 31 <= i < 2 ^ 31 ->
  to_size_t i = (if 0 <=? i then i else 2 ^ 64 + i) /\
  to_size_t (to_size_t i * 2) = (if 0 <=? i then 2 * i else 2 ^ 64 + 2 * i).
Proof.
  intros Hi. unfold to_size_t, size_t_width.
  destruct (0 <=? i) eqn:E.
  - apply Z.leb_le in E. rewrite (Z.mod_small i) by lia.
    split; [reflexivity|]. rewrite Z.mod_small by lia. lia.
  - apply Z.leb_gt in E.
    assert (H1 : i mod 2 ^ 64 = 2 ^ 64 + i).
    { symmetry. apply (Z.mod_unique i (2 ^ 64) (-1)); lia. }
    rewrite H1. split; [reflexivity|].
    symmetry. apply (Z.mod_unique _ (2 ^ 64) 1); lia.
Qed.

(** X18: the frame-count option stores the int behind the value pointer
    converted to size_t: the number itself when it is not negative, and 2^64
    minus its magnitude when it is negative, from which the capture thread
    computes a buffer size of twice the count modulo 2^64; a null value
    pointer stores 0.  The call returns OK in every case. *)
Theorem audio_set_options_frame_count (n1 n2 : string) (d : AUDIO_SYS_DATA)
    (i : Z) :
  - 2 ^ 31 <= i < 2 ^ 31 ->
  audio_set_options n1 n2 (Some d) n1 (Some (IntObject i))
  = Some (AUDIO_RESULT_OK,
          Some (set_inputFrameCnt (if 0 <=? i then i else 2 ^ 64 + i) d)) /\
  to_size_t ((if 0 <=? i then i else 2 ^ 64 + i) * 2)
  = (if 0 <=? i then 2 * i else 2 ^ 64 + 2 * i) /\
  audio_set_options n1 n2 (Some d) n1 None
  = Some (AUDIO_RESULT_OK, Some (set_inputFrameCnt 0 d)).
Proof.
  intros Hi. destruct (to_size_t_int i Hi) as [H1 H2].
  unfold audio_set_options. rewrite String.eqb_refl, H1.
  split; [reflexivity|]. split; [|reflexivity].
  rewrite <- H1. exact H2.
Qed.

Lemma audio_set_options_frame_count_witness :
  - 2 ^ 31 <= -1 < 2 ^ 31 /\
  audio_set_options "buff_frame_count" "devicename" (Some sample_session)
    "buff_frame_count" (Some (IntObject (-1)))
  = Some (AUDIO_RESULT_OK,
          Some (set_inputFrameCnt 18446744073709551615 sample_session)) /\
  to_size_t (18446744073709551615 * 2) = 18446744073709551614.
Proof.
  assert (Hi : - 2 ^ 31 <= -1 < 2 ^ 31) by lia.
  split; [exact Hi|].
  destruct (audio_set_options_frame_count "buff_frame_count" "devicename"
              sample_session (-1) Hi) as (H1 & H2 & _).
  split; [exact H1 | exact H2].
Defined.

(** X19: setting the frame count and setting the device name commute: in
    either order both calls return OK and the session ends up the same,
    with the frame count converted to size_t and the device name (empty for
    a null value) stored. *)
Theorem audio_set_options_commute (n1 n2 : string) (d : AUDIO_SYS_DATA)
    (i : Z) (name : option string) :
  n1 <> n2 ->
  exists d1 d2 d',
    audio_set_options n1 n2 (Some d) n1 (Some (IntObject i))
    = Some (AUDIO_RESULT_OK, Some d1) /\
    audio_set_options n1 n2 (Some d1) n2 (option_map CString name)
    = Some (AUDIO_RESULT_OK, Some d') /\
    audio_set_options n1 n2 (Some d) n2 (option_map CString name)
    = Some (AUDIO_RESULT_OK, Some d2) /\
    audio_set_options n1 n2 (Some d2) n1 (Some (IntObject i))
    = Some (AUDIO_RESULT_OK, Some d') /\
    inputFrameCnt d' = to_size_t i /\
    hDeviceName d'
    = Some (match name with Some s => s | None => EmptyString end).
Proof.
  intros Hne. apply String.eqb_neq in Hne.
  unfold audio_set_options. rewrite Hne, !String.eqb_refl.
  exists (set_inputFrameCnt (to_size_t i) d).
  destruct name as [s|], (hDeviceName d) eqn:Hd;
    cbn [option_map hDeviceName set_inputFrameCnt STRING_copy
         STRING_construct set_hDeviceName]; rewrite ?Hd;
    cbn [option_map hDeviceName set_inputFrameCnt STRING_copy
         STRING_construct set_hDeviceName];
    eexists _, _; (split; [reflexivity|]); (split; [reflexivity|]);
    (split; [reflexivity|]); cbn; repeat split.
Qed.

Lemma audio_set_options_commute_witness :
  "buff_frame_count"%string <> "devicename"%string /\
  exists d1 d2 d',
    audio_set_options "buff_frame_count" "devicename" (Some sample_session)
      "buff_frame_count" (Some (IntObject 320))
    = Some (AUDIO_RESULT_OK, Some d1) /\
    audio_set_options "buff_frame_count" "devicename" (Some d1)
      "devicename" (Some (CString "mic1"))
    = Some (AUDIO_RESULT_OK, Some d') /\
    audio_set_options "buff_frame_count" "devicename" (Some sample_session)
      "devicename" (Some (CString "mic1"))
    = Some (AUDIO_RESULT_OK, Some d2) /\
    audio_set_options "buff_frame_count" "devicename" (Some d2)
      "buff_frame_count" (Some (IntObject 320))
    = Some (AUDIO_RESULT_OK, Some d').
Proof.
  assert (Hne : "buff_frame_count"%string <> "devicename"%string)
    by discriminate.
  split; [exact Hne|].
  destruct (audio_set_options_commute "buff_frame_count" "devicename"
              sample_session 320 (Some "mic1"%string) Hne)
    as (d1 & d2 & d' & H1 & H2 & H3 & H4 & _).
  exists d1, d2, d'. repeat split; assumption.
Defined.

(** X20: audio_set_options returns INVALID_ARG and changes nothing on a null
    handle, and on any option name other than the two it knows, whatever
    the value pointer; the pointee is not read. *)
Theorem audio_set_options_rejects (n1 n2 name : string)
    (handle : AUDIO_SYS_HANDLE) (value : option Pointee) :
  handle = None \/ (name <> n1 /\ name <> n2) ->
  audio_set_options n1 n2 handle name value
  = Some (AUDIO_RESULT_INVALID_ARG, handle).
Proof.
  intros [-> | [H1 H2]]; [reflexivity|].
  unfold audio_set_options. destruct handle as [d|]; [|reflexivity].
  assert (E1 : String.eqb n1 name = false)
    by (apply String.eqb_neq; congruence).
  assert (E2 : String.eqb n2 name = false)
    by (apply String.eqb_neq; congruence).
  now rewrite E1, E2.
Qed.

Lemma audio_set_options_rejects_witness :
  ("volume"%string <> "buff_frame_count"%string /\
   "volume"%string <> "devicename"%string) /\
  audio_set_options "buff_frame_count" "devicename" (Some sample_session)
    "volume" (Some (IntObject 3))
  = Some (AUDIO_RESULT_INVALID_ARG, Some sample_session).
Proof.
  assert (H : "volume"%string <> "buff_frame_count"%string /\
              "volume"%string <> "devicename"%string)
    by (split; discriminate).
  split; [exact H|].
  apply (audio_set_options_rejects "buff_frame_count" "devicename" "volume").
  right. exact H.
Defined.

(** ** Registration *)

(** X21: a registration with a write callback that is not null replaces
    all eight slots, whatever an earlier call, accepted or rejected, had
    left in them: the outcome is that of the same call on the original
    session.  A later call with a null write callback returns INVALID_ARG
    and leaves the registration in force, so that a write callback, once
    registered, cannot be removed. *)
Theorem audio_setcallbacks_last_registration_wins (d : AUDIO_SYS_DATA)
    (ocb1 octx1 icb1 ictx1 wcb1 wctx1 ecb1 ectx1 : ptr)
    (ocb2 octx2 icb2 ictx2 wcb2 wctx2 ecb2 ectx2 : ptr)
    (ocb3 octx3 icb3 ictx3 wctx3 ecb3 ectx3 : ptr) :
  wcb2 <> nullptr ->
  let first :=
    audio_setcallbacks (Some d) ocb1 octx1 icb1 ictx1 wcb1 wctx1 ecb1 ectx1 in
  let second :=
    audio_setcallbacks (snd first) ocb2 octx2 icb2 ictx2 wcb2 wctx2 ecb2
      ectx2 in
  second
  = audio_setcallbacks (Some d) ocb2 octx2 icb2 ictx2 wcb2 wctx2 ecb2 ectx2 /\
  fst second = AUDIO_RESULT_OK /\
  audio_setcallbacks (snd second) ocb3 octx3 icb3 ictx3 nullptr wctx3 ecb3
    ectx3
  = (AUDIO_RESULT_INVALID_ARG, snd second).
Proof.
  intros Hw first second. subst first second.
  apply is_null_false in Hw. unfold audio_setcallbacks.
  rewrite Hw. cbn [negb].
  destruct (is_null wcb1); cbn [negb snd fst]; rewrite ?Hw; cbn [negb];
    repeat split.
Qed.

Lemma audio_setcallbacks_last_registration_wins_witness :
  (15 : ptr) <> nullptr /\
  audio_setcallbacks (Some registered_session) 21 22 23 24 0 26 27 28
  = (AUDIO_RESULT_INVALID_ARG, Some registered_session).
Proof.
  assert (Hw : (15 : ptr) <> nullptr) by (vm_compute; lia).
  split; [exact Hw|].
  exact (proj2 (proj2 (audio_setcallbacks_last_registration_wins
                         sample_session 1 2 3 4 5 6 7 8
                         11 12 13 14 15 16 17 18
                         21 22 23 24 26 27 28 Hw))).
Defined.

(** ** The completion handler *)

(** X22: whenever ActivateCompleted returns, it returns S_OK; the promise
    was empty before and now holds a value, stored as the last action; the
    client was released just before the store exactly when the value is a
    failure. *)
Theorem ActivateCompleted_returns_S_OK (a : Activation) (w w' : World)
    (hr : HRESULT) :
  ActivateCompleted a w = Ok hr w' ->
  hr = S_OK /\
  m_promise (spCapture (session w)) = None /\
  exists v body,
    m_promise (spCapture (session w')) = Some v /\
    trace (platform w') = trace (platform w) ++ body ++ [EvPromiseSet v] /\
    (FAILED v = true ->
     body = [EvRelease (pAudioInputClient (spCapture (session w')))]) /\
    (FAILED v = false -> body = []).
Proof.
  destruct w as [d p].
  cbv beta iota zeta delta [ActivateCompleted ActivateCompleted_Exit
    EXIT_ON_ERROR EXIT_ON_ERROR_IF Release_client promise_set_value
    update_capture load_capture load ask update_session update_platform emit
    bind ret fault].
  cbn.
  assert (Hf : FAILED E_FAIL = true) by reflexivity.
  destruct (FAILED (GetActivateResult_hr a)) eqn:E1;
    [|destruct (FAILED (activateResult a)) eqn:E2;
      [|destruct (is_null (punkAudioInterface a)) eqn:E3;
        [|cbn; destruct (is_null (CopyTo_out a)) eqn:E4;
          [|destruct (FAILED (Initialize_hr a)) eqn:E5;
            [|destruct (FAILED (SetEventHandle_hr a)) eqn:E6]]]]].
  all: rewrite ?Hf, ?E1; cbn; rewrite ?E4, ?E5, ?E6; cbn; rewrite ?E4; cbn.
  all: try discriminate.
  all: try (destruct (is_null (pAudioInputClient (spCapture d))) eqn:En;
            [discriminate|]; cbn).
  all: destruct (m_promise (spCapture d)) eqn:Ep; [discriminate|].
  all: intros H; injection H as <- <-; cbn.
  all: split; [reflexivity|]; split; [reflexivity|].
  all: first
    [ eexists _, [_]; split; [reflexivity|];
      split; [rewrite <- app_assoc; reflexivity|];
      split; [reflexivity | congruence]
    | eexists _, []; split; [reflexivity|]; split; [reflexivity|];
      split; [congruence | reflexivity] ].
Qed.

Lemma ActivateCompleted_returns_S_OK_witness :
  exists w',
    ActivateCompleted binding_failure fresh_world = Ok S_OK w' /\
    m_promise (spCapture (session w')) = Some E_FAIL /\
    trace (platform w') = [EvRelease 202; EvPromiseSet E_FAIL].
Proof.
  assert (H : exists w',
            ActivateCompleted binding_failure fresh_world = Ok S_OK w' /\
            pAudioInputClient (spCapture (session w')) = 202 /\
            m_promise (spCapture (session w')) = Some E_FAIL).
  { eexists. split; [vm_compute; reflexivity|]. split; reflexivity. }
  destruct H as (w' & H & Hc & Hp).
  exists w'. split; [exact H|]. split; [exact Hp|].
  destruct (ActivateCompleted_returns_S_OK _ _ _ _ H)
    as (_ & _ & v & body & Hv & Htr & Hrel & _).
  rewrite Hp in Hv. injection Hv as <-.
  rewrite Htr, (Hrel eq_refl), Hc. reflexivity.
Defined.

(** ** Destruction *)

Lemma output_untouched_same (d d' : AUDIO_SYS_DATA) :
  same_but_thread_and_state d d' ->
  output_untouched d -> output_untouched d'.
Proof. intros H. rewrite H. unfold output_untouched. cbn. tauto. Qed.

(** Nothing but audio_create_events stores to the output members. *)
Lemma reachable_output_untouched (w : World) :
  reachable w -> output_untouched (session w).
Proof.
  induction 1 as [a p0 d p Hc
                 | w ocb octx icb ictx wcb wctx ecb ectx r d Hr IH Hset
                 | w n1 n2 name value r d Hr IH Hset
                 | w r d p Hr IH Hstart
                 | w r d p Hr IH Hstop
                 | w e w' Hr IH Hstep]; cbn [session].
  - apply (audio_create_initial a p0 p d Hc).
  - destruct (audio_setcallbacks_effect _ _ _ _ _ _ _ _ _ _ _ Hset)
      as [(_ & _ & Hd) | (_ & _ & Hd)]; injection Hd as ->; exact IH.
  - destruct (audio_set_options_effect _ _ _ _ _ _ _ Hset)
      as [(_ & Hd) | (_ & [(v & Hd) | (s & Hd)])]; injection Hd as ->;
      exact IH.
  - destruct (audio_input_start_effect _ _ _ _ _ Hstart)
      as (d' & Hd & Hcase & _). injection Hd as ->.
    destruct Hcase as [-> | (_ & _ & ->)]; exact IH.
  - destruct (audio_input_stop_effect _ _ _ _ _ Hstop)
      as [(_ & _ & Hd & _) | (_ & _ & _ & d' & Hd & _ & A & _)];
      injection Hd as ->; [exact IH|].
    eapply output_untouched_same; eassumption.
  - destruct (happen_effect e w w' Hstep) as (A & _).
    eapply output_untouched_same; eassumption.
Qed.

(** audio_destroy on a session that has a client and no render events. *)
Lemma audio_destroy_eq (last : bool) (d : AUDIO_SYS_DATA) (p : Platform) :
  pAudioInputClient (spCapture d) <> nullptr ->
  hRenderThreadShouldExit d = nullptr ->
  hRenderThreadDidExit d = nullptr ->
  audio_destroy last (Some d) p
  = let c := pAudioInputClient (spCapture d) in
    let p1 := set_trace (trace p ++ [EvRelease c]) p in
    Ok (match hCaptureThread d with
        | Some _ => Terminated
        | None => Completed
        end)
       (if last then
          set_trace (trace p ++ [EvRelease c; EvRelease c])
            (set_kernel (snd (WASAPICapture_dtor (spCapture d) (kernel p))) p)
        else p1).
Proof.
  intros Hc Hs Hd. apply is_null_false in Hc. cbv zeta.
  unfold audio_destroy. monadx. unfold SAFE_CLOSE_HANDLE. normx.
  repeat (first [rewrite Hc | rewrite Hs | rewrite Hd];
          normx; cbn [negb andb]; normx).
  destruct (hDeviceName d); normx.
  all: destruct last; normx.
  all: try (destruct (WASAPICapture_dtor (spCapture d) (kernel p))
              as [c' k'] eqn:Edt;
            pose proof (WASAPICapture_dtor_client (spCapture d) (kernel p))
              as Hcl; rewrite Edt in Hcl; cbn [fst] in Hcl;
            normx; rewrite Hcl, Hc; normx).
  all: destruct (hCaptureThread d); normx;
    rewrite <- ?app_assoc; reflexivity.
Qed.

(** X23: audio_destroy on a reachable session that still has a capture
    thread (started and not stopped, or a thread that has returned on its
    own and was never joined) releases the client and then ends the
    process: delete runs the destructor of a joinable std::thread, which
    calls std::terminate. *)
Theorem audio_destroy_with_a_thread_terminates (w : World) (last : bool) :
  reachable w ->
  hCaptureThread (session w) <> None ->
  exists p' body,
    audio_destroy last (Some (session w)) (platform w) = Ok Terminated p' /\
    trace p'
    = trace (platform w)
      ++ EvRelease (pAudioInputClient (spCapture (session w))) :: body.
Proof.
  intros Hr Ht.
  destruct (hCaptureThread (session w)) as [t|] eqn:Eth; [|contradiction].
  destruct (reachable_inv w Hr) as [I1 _]. destruct (I1 t Eth) as [Hc _].
  destruct (reachable_output_untouched w Hr) as (_ & Hs & Hd & _).
  rewrite (audio_destroy_eq last _ _ Hc Hs Hd). cbv zeta. rewrite Eth.
  destruct last; eexists _, _; (split; [reflexivity|]); cbn; reflexivity.
Qed.

Lemma audio_destroy_with_a_thread_terminates_witness :
  reachable running_world /\
  hCaptureThread (session running_world) <> None /\
  exists p' body,
    audio_destroy true (Some (session running_world))
      (platform running_world) = Ok Terminated p' /\
    trace p' = trace (platform running_world) ++ EvRelease 202 :: body.
Proof.
  assert (Ht : hCaptureThread (session running_world) <> None)
    by (vm_compute; discriminate).
  split; [exact running_world_reachable|]. split; [exact Ht|].
  exact (audio_destroy_with_a_thread_terminates running_world true
           running_world_reachable Ht).
Defined.

Lemma clientless_world_reachable : reachable clientless_world.
Proof.
  apply (reach_create inner_failure quiet_platform).
  vm_compute; reflexivity.
Defined.

(** X24: audio_destroy on a reachable session without a capture thread,
    the render events not existing.  When the session has a client,
    audio_destroy returns and never blocks: it calls Release on the
    client explicitly, and when the session holds the last reference to
    the capture object the destructor of the ComPtr member releases the
    same client once more.  When the session has no client, as after an
    activation reported as failed, the explicit Release goes through a
    null pointer. *)
Theorem audio_destroy_releases_the_client_twice (w : World) (last : bool) :
  reachable w ->
  hCaptureThread (session w) = None ->
  (pAudioInputClient (spCapture (session w)) <> nullptr ->
   exists p',
     audio_destroy last (Some (session w)) (platform w) = Ok Completed p' /\
     trace p'
     = trace (platform w)
       ++ EvRelease (pAudioInputClient (spCapture (session w)))
          :: (if last then
                [EvRelease (pAudioInputClient (spCapture (session w)))]
              else []) /\
     (last = false -> kernel p' = kernel (platform w))) /\
  (pAudioInputClient (spCapture (session w)) = nullptr ->
   audio_destroy last (Some (session w)) (platform w) = Fault).
Proof.
  intros Hr Ht. split.
  - intros Hc.
    destruct (reachable_output_untouched w Hr) as (_ & Hs & Hd & _).
    rewrite (audio_destroy_eq last _ _ Hc Hs Hd). cbv zeta. rewrite Ht.
    destruct last; eexists; (split; [reflexivity|]); cbn;
      (split; [reflexivity|]); [discriminate | reflexivity].
  - intros Hn. unfold audio_destroy, Release_client, load_capture, load, bind.
    cbn [session]. apply is_null_true in Hn. rewrite Hn. reflexivity.
Qed.

Lemma audio_destroy_releases_the_client_twice_witness :
  reachable registered_world /\
  hCaptureThread (session registered_world) = None /\
  pAudioInputClient (spCapture (session registered_world)) <> nullptr /\
  (exists p',
     audio_destroy true (Some (session registered_world))
       (platform registered_world) = Ok Completed p' /\
     trace p'
     = trace (platform registered_world)
       ++ [EvRelease 202; EvRelease 202]) /\
  reachable clientless_world /\
  pAudioInputClient (spCapture (session clientless_world)) = nullptr /\
  audio_destroy true (Some (session clientless_world))
    (platform clientless_world) = Fault.
Proof.
  assert (Hc : pAudioInputClient (spCapture (session registered_world))
               <> nullptr) by (vm_compute; lia).
  split; [exact registered_world_reachable|]. split; [reflexivity|].
  split; [exact Hc|].
  destruct (audio_destroy_releases_the_client_twice registered_world true
              registered_world_reachable eq_refl) as [H1 _].
  destruct (H1 Hc) as (p' & H & Htr & _).
  split; [exists p'; split; [exact H | exact Htr]|].
  split; [exact clientless_world_reachable|]. split; [reflexivity|].
  destruct (audio_destroy_releases_the_client_twice clientless_world true
              clientless_world_reachable eq_refl) as [_ H2].
  exact (H2 eq_refl).
Defined.

(** X25: a session audio_create returned although the activation was
    reported as failed has no client, and stays so whatever is done with
    it: it never gets a capture thread, audio_input_start returns
    INVALID_ARG or INVALID_STATE and changes nothing, audio_input_stop
    returns INVALID_STATE, and audio_destroy calls Release through the null
    client pointer. *)
Theorem session_without_client_is_unusable (a : Activation)
    (p0 p : Platform) (d : AUDIO_SYS_DATA) (w' : World) (last : bool) :
  audio_create a p0 = Ok (Some d) p ->
  FAILED (activateResult a) = true ->
  session_steps (mkWorld d p) w' ->
  pAudioInputClient (spCapture (session w')) = nullptr /\
  hCaptureThread (session w') = None /\
  (forall r h p',
     audio_input_start (Some (session w')) (platform w') = Ok (r, h) p' ->
     (r = AUDIO_RESULT_INVALID_ARG \/ r = AUDIO_RESULT_INVALID_STATE) /\
     h = Some (session w') /\ p' = platform w') /\
  audio_input_stop (Some (session w')) (platform w')
  = Ok (AUDIO_RESULT_INVALID_STATE, Some (session w')) (platform w') /\
  audio_destroy last (Some (session w')) (platform w') = Fault.
Proof.
  intros Hcr Hact Hs.
  assert (Hr : reachable w').
  { apply (session_steps_reachable _ _ Hs). eapply reach_create; exact Hcr. }
  destruct (session_steps_capture _ _ Hs) as [Hcap _].
  cbn [session] in Hcap.
  assert (Hn : pAudioInputClient (spCapture (session w')) = nullptr).
  { rewrite Hcap.
    destruct (audio_create_client_cases _ _ _ _ Hcr)
      as [(_ & Hn & _) | ((_ & _ & Hok & _) & _)]; [exact Hn | congruence]. }
  destruct (reachable_inv w' Hr) as [I1 I2].
  assert (Ht : hCaptureThread (session w') = None).
  { destruct (hCaptureThread (session w')) as [t|] eqn:E; [|reflexivity].
    destruct (I1 t eq_refl) as [Hc _]. contradiction. }
  split; [exact Hn|]. split; [exact Ht|]. split; [|split].
  - intros r h p' Hstart.
    destruct (passes_guards_dec (session w') (platform w'))
      as [(_ & _ & Hc & _) | (r0 & Hr0 & E)]; [contradiction|].
    rewrite E in Hstart. injection Hstart as <- <- <-.
    repeat split. exact Hr0.
  - apply audio_input_stop_not_running. intros Hrun.
    destruct (I2 Hrun) as (t & Ht' & _). congruence.
  - unfold audio_destroy, Release_client, load_capture, load, bind.
    cbn [session]. apply is_null_true in Hn. rewrite Hn. reflexivity.
Qed.

Lemma session_without_client_is_unusable_witness :
  audio_create inner_failure quiet_platform
  = Ok (Some (session clientless_world)) (platform clientless_world) /\
  FAILED (activateResult inner_failure) = true /\
  audio_input_start (Some (session clientless_world))
    (platform clientless_world)
  = Ok (AUDIO_RESULT_INVALID_STATE, Some (session clientless_world))
      (platform clientless_world) /\
  audio_destroy true (Some (session clientless_world))
    (platform clientless_world) = Fault.
Proof.
  assert (Hc : audio_create inner_failure quiet_platform
               = Ok (Some (session clientless_world))
                   (platform clientless_world))
    by (vm_compute; reflexivity).
  split; [exact Hc|]. split; [reflexivity|].
  destruct (session_without_client_is_unusable inner_failure quiet_platform
              _ _ clientless_world true Hc eq_refl (steps_none _))
    as (_ & _ & _ & _ & Hd).
  split; [vm_compute; reflexivity | exact Hd].
Defined.

Lemma WASAPICapture_dtor_handles (c c' : WASAPICapture) (k : Kernel) :
  hBufferReady c' = hBufferReady c ->
  hCaptureThreadShouldExit c' = hCaptureThreadShouldExit c ->
  snd (WASAPICapture_dtor c' k) = snd (WASAPICapture_dtor c k).
Proof.
  intros H1 H2. unfold WASAPICapture_dtor. rewrite H1, H2.
  destruct (if negb (INVALID_HANDLE_VALUE =? hBufferReady c)
            then SAFE_CLOSE_HANDLE (hBufferReady c) k
            else (hBufferReady c, k)) as [hB k1].
  destruct (if negb (INVALID_HANDLE_VALUE =? hCaptureThreadShouldExit c)
            then SAFE_CLOSE_HANDLE (hCaptureThreadShouldExit c) k1
            else (hCaptureThreadShouldExit c, k1)) as [hE k2].
  reflexivity.
Qed.

(** X26: when every call of the activation succeeds, audio_create followed
    by audio_destroy (the session holding the last reference to the capture
    object) returns, leaves the kernel's table of events as it was before
    the creation, and has released the client twice after the promise was
    set. *)
Theorem audio_create_destroy_round_trip (a : Activation) (p0 : Platform) :
  activation_succeeds a ->
  CreateEvent_first a <> nullptr ->
  CreateEvent_first a <> INVALID_HANDLE_VALUE ->
  CreateEvent_second a <> INVALID_HANDLE_VALUE ->
  exists d p p',
    audio_create a p0 = Ok (Some d) p /\
    audio_destroy true (Some d) p = Ok Completed p' /\
    kernel p' = kernel p0 /\
    trace p'
    = trace p0
      ++ [EvPromiseSet (SetEventHandle_hr a); EvRelease (CopyTo_out a);
          EvRelease (CopyTo_out a)].
Proof.
  intros (H0 & H1 & H2 & H3 & H4 & H5 & H6) HB IB IE.
  pose proof (WASAPICapture_ctor_dtor_kernel a (kernel p0) HB IB IE)
    as (_ & _ & Hk).
  apply is_null_false in H3. pose proof H4 as H4'. apply is_null_false in H4.
  rewrite audio_create_eq. cbv zeta. rewrite H0, H1, H2, H3, H4, H5, H6.
  eexists _, _, _. split; [reflexivity|].
  rewrite audio_destroy_eq; [|exact H4'|reflexivity|reflexivity].
  cbv zeta. cbn [hCaptureThread set_spCapture].
  split; [reflexivity|].
  cbn [kernel set_trace set_kernel trace spCapture set_spCapture
       pAudioInputClient set_m_promise set_audioInFormat
       set_pAudioInputClient].
  split; [|rewrite <- !app_assoc; reflexivity].
  etransitivity; [|exact Hk].
  apply WASAPICapture_dtor_handles; reflexivity.
Qed.

Lemma audio_create_destroy_round_trip_witness :
  activation_succeeds good_activation /\
  exists p',
    audio_create good_activation quiet_platform
    = Ok (Some sample_session) sample_platform /\
    audio_destroy true (Some sample_session) sample_platform
    = Ok Completed p' /\
    kernel p' = [] /\
    trace p' = [EvPromiseSet S_OK; EvRelease 202; EvRelease 202].
Proof.
  assert (Ha : activation_succeeds good_activation).
  { unfold activation_succeeds. repeat split; try reflexivity;
      vm_compute; lia. }
  split; [exact Ha|].
  destruct (audio_create_destroy_round_trip good_activation quiet_platform Ha)
    as (d & p & p' & Hc & Hd & Hk & Htr);
    [vm_compute; lia | vm_compute; lia | vm_compute; lia |].
  assert (E : audio_create good_activation quiet_platform
              = Ok (Some sample_session) sample_platform)
    by (vm_compute; reflexivity).
  rewrite E in Hc. injection Hc as <- <-.
  exists p'. split; [exact E|]. split; [exact Hd|].
  split; [exact Hk | exact Htr].
Defined.

(** audio_destroy on a session that has the two render events, the
    second one signalled. *)
Lemma audio_destroy_render_eq (last : bool) (d : AUDIO_SYS_DATA)
    (p : Platform) (first second : HANDLE) :
  hCaptureThread d = None ->
  pAudioInputClient (spCapture d) <> nullptr ->
  first <> nullptr -> second <> nullptr -> first <> second ->
  audio_destroy last
    (Some (set_hRenderThreadDidExit second
             (set_hRenderThreadShouldExit first d)))
    (set_kernel ((second, true) :: (first, false) :: kernel p) p)
  = let c := pAudioInputClient (spCapture d) in
    Ok Completed
      (if last then
         set_trace
           (trace p
            ++ [EvRelease c; EvSetEvent first; EvWait WAIT_OBJECT_0;
                EvRelease c])
           (set_kernel (snd (WASAPICapture_dtor (spCapture d) (kernel p))) p)
       else
         set_trace
           (trace p ++ [EvRelease c; EvSetEvent first; EvWait WAIT_OBJECT_0])
           (set_kernel (kernel p) p)).
Proof.
  intros Ht Hc H1 H2 Hne. cbv zeta.
  apply is_null_false in Hc, H1, H2.
  assert (N1 : (first =? second) = false) by (apply Z.eqb_neq; congruence).
  assert (N2 : (second =? first) = false) by (apply Z.eqb_neq; congruence).
  unfold audio_destroy. monadx.
  unfold SAFE_CLOSE_HANDLE, WaitForSingleObject, SetEvent, valid_handle.
  normx.
  repeat (first [rewrite Hc | rewrite H1 | rewrite H2 | rewrite N1
                | rewrite N2 | rewrite Z.eqb_refl | rewrite Ht];
          normx;
          cbn [negb andb event_state event_store CloseHandle fst snd];
          normx).
  destruct (hDeviceName d); normx.
  all: destruct last; normx.
  all: try (match goal with
            | |- context [WASAPICapture_dtor ?c ?k] =>
                destruct (WASAPICapture_dtor c k) as [c' k'] eqn:Edt;
                pose proof (WASAPICapture_dtor_client c k) as Hcl;
                rewrite Edt in Hcl; cbn [fst] in Hcl
            end;
            normx; rewrite Hcl, Hc; normx).
  all: rewrite ?Ht; normx.
  all: rewrite <- !app_assoc; reflexivity.
Qed.

(** X27: on a reachable session without a capture thread,
    audio_create_events returns S_OK and leaves hRenderThreadDidExit
    signalled.  When the session has a client, the wait in
    force_render_thread_to_exit_and_wait, reached through audio_destroy,
    is then satisfied at once: audio_destroy releases the client, sets the
    exit event, waits, closes both render events and returns, and when
    the capture object outlives the session the kernel's table is as it
    was before audio_create_events.  When the session has no client,
    audio_destroy calls Release through a null pointer before it touches
    the render events. *)
Theorem audio_destroy_with_render_events
    (AUDIO_RESULT_value : AUDIO_RESULT -> HRESULT) (w : World)
    (first second : HANDLE) (last : bool) :
  reachable w ->
  hCaptureThread (session w) = None ->
  first <> nullptr -> second <> nullptr -> first <> second ->
  exists d1 p1,
    audio_create_events AUDIO_RESULT_value first second (Some (session w))
      (platform w) = Ok (S_OK, Some d1) p1 /\
    event_state (kernel p1) second = Some true /\
    (pAudioInputClient (spCapture (session w)) <> nullptr ->
     exists p2,
       audio_destroy last (Some d1) p1 = Ok Completed p2 /\
       trace p2
       = trace (platform w)
         ++ [EvRelease (pAudioInputClient (spCapture (session w)));
             EvSetEvent first; EvWait WAIT_OBJECT_0]
         ++ (if last then
               [EvRelease (pAudioInputClient (spCapture (session w)))]
             else []) /\
       (last = false -> kernel p2 = kernel (platform w))) /\
    (pAudioInputClient (spCapture (session w)) = nullptr ->
     audio_destroy last (Some d1) p1 = Fault).
Proof.
  intros Hr Ht H1 H2 Hne.
  destruct (reachable_output_untouched w Hr) as (_ & _ & Hd & _).
  destruct (audio_create_events_all_or_nothing_lemma AUDIO_RESULT_value
              first second (session w) (platform w) Hd)
    as [(_ & _ & E) | ([E | E] & _)]; [|contradiction..].
  rewrite E. clear E.
  eexists _, _. split; [reflexivity|].
  split; [cbn [kernel set_kernel event_state]; now rewrite Z.eqb_refl|].
  split.
  - intros Hc.
    rewrite (audio_destroy_render_eq last (session w) (platform w) first
               second Ht Hc H1 H2 Hne). cbv zeta.
    eexists. split; [reflexivity|].
    destruct last; cbn; (split; [reflexivity|]);
      [discriminate | intros _; reflexivity].
  - intros Hn. unfold audio_destroy, Release_client, load_capture, load, bind.
    cbn [session spCapture set_hRenderThreadDidExit
         set_hRenderThreadShouldExit].
    apply is_null_true in Hn. rewrite Hn. reflexivity.
Qed.

Lemma audio_destroy_with_render_events_witness :
  reachable registered_world /\
  pAudioInputClient (spCapture (session registered_world)) <> nullptr /\
  (exists p2,
     audio_create_events (fun _ => 1) 103 104
       (Some (session registered_world)) (platform registered_world)
     = Ok (S_OK, Some (set_hRenderThreadDidExit 104
                         (set_hRenderThreadShouldExit 103
                            (session registered_world))))
          (set_kernel ((104, true) :: (103, false)
                       :: kernel (platform registered_world))
             (platform registered_world)) /\
     audio_destroy false
       (Some (set_hRenderThreadDidExit 104
                (set_hRenderThreadShouldExit 103
                   (session registered_world))))
       (set_kernel ((104, true) :: (103, false)
                    :: kernel (platform registered_world))
          (platform registered_world))
     = Ok Completed p2 /\
     trace p2
     = trace (platform registered_world)
       ++ [EvRelease 202; EvSetEvent 103; EvWait WAIT_OBJECT_0] /\
     kernel p2 = kernel (platform registered_world)) /\
  reachable clientless_world /\
  pAudioInputClient (spCapture (session clientless_world)) = nullptr /\
  exists d1 p1,
    audio_create_events (fun _ => 1) 103 104
      (Some (session clientless_world)) (platform clientless_world)
    = Ok (S_OK, Some d1) p1 /\
    audio_destroy false (Some d1) p1 = Fault.
Proof.
  assert (Hcl : pAudioInputClient (spCapture (session registered_world))
                <> nullptr) by (vm_compute; lia).
  split; [exact registered_world_reachable|]. split; [exact Hcl|].
  split.
  - destruct (audio_destroy_with_render_events (fun _ => 1) registered_world
                103 104 false registered_world_reachable eq_refl)
      as (d1 & p1 & Hc & _ & Hok & _);
      [vm_compute; lia | vm_compute; lia | vm_compute; lia |].
    destruct (Hok Hcl) as (p2 & Hd & Htr & Hk).
    assert (E : audio_create_events (fun _ => 1) 103 104
                  (Some (session registered_world))
                  (platform registered_world)
                = Ok (S_OK, Some (set_hRenderThreadDidExit 104
                                    (set_hRenderThreadShouldExit 103
                                       (session registered_world))))
                     (set_kernel ((104, true) :: (103, false)
                                  :: kernel (platform registered_world))
                        (platform registered_world)))
      by (vm_compute; reflexivity).
    rewrite E in Hc. injection Hc as <- <-.
    exists p2. split; [exact E|]. split; [exact Hd|].
    split; [exact Htr | exact (Hk eq_refl)].
  - split; [exact clientless_world_reachable|]. split; [reflexivity|].
    destruct (audio_destroy_with_render_events (fun _ => 1) clientless_world
                103 104 false clientless_world_reachable eq_refl)
      as (d1 & p1 & Hc & _ & _ & Hfault);
      [vm_compute; lia | vm_compute; lia | vm_compute; lia |].
    exists d1, p1. split; [exact Hc | exact (Hfault eq_refl)].
Defined.
